(** * wrf.util: the multi-file variable combination engine

    A shallow embedding of [src/wrf/util.py]: the sequence normaliser
    ([get_iterable], [IterWrapper]), the moving-domain detector
    ([is_moving_domain]), the time-index locator ([_find_forward],
    [_find_reverse]), the single-array builder ([_build_data_array]), the
    cat / join / dict combiners and the extraction facade
    ([combine_files], [_extract_var]).

    Python values are modelled as follows.
    - Exceptions are the constructors of [error]; a computation that may
      raise and that reads or writes the process-wide coordinate cache is a
      function [Cache -> (error + A) * Cache] (the cache survives a raise).
    - A numpy array is its shape and its cells in row-major order; cell
      values are integers (the code copies and compares them).  The element
      type of a variable, which numpy looks at when it pads and masks, is
      kept with the variable; values are copied as they are, the casts
      numpy applies between arrays of different element types are not
      modelled.
    - A source (one NetCDF file handle) is a record of named variables and
      named dimensions; mappings whose iteration order matters are
      association lists, the others are [gmap]s. *)

From stdpp Require Import gmap strings list pretty.

Set Default Proof Using "Type".

(** ** Exceptions and the cache-passing monad *)

Inductive error : Type :=
  | StopIteration
  | KeyError (key : string)
  | AttributeError (attr : string)
  | TypeError (msg : string)
  | ValueError (msg : string)
  | IndexError (msg : string).

Abbreviation result := (sum error).

Global Instance error_eq_dec : EqDecision error.
Proof. solve_decision. Defined.

Definition is_error {A} (r : result A) : bool :=
  match r with inl _ => true | inr _ => false end.

Global Instance result_ret : MRet result := λ A x, inr x.
Global Instance result_bind : MBind result := λ A B f r,
  match r with inl e => inl e | inr x => f x end.
Global Instance result_fmap : FMap result := λ A B f r,
  match r with inl e => inl e | inr x => inr (f x) end.

(** [d[k]] on a Python mapping, and [l[i]] on a Python list. *)
Definition from_option {A} (e : error) (o : option A) : result A :=
  match o with Some x => inr x | None => inl e end.

(** Python's treatment of a possibly negative index into [n] items. *)
Definition norm_index (n : nat) (i : Z) : option nat :=
  if decide (0 ≤ i < Z.of_nat n)%Z then Some (Z.to_nat i)
  else if decide (- Z.of_nat n ≤ i < 0)%Z then Some (Z.to_nat (Z.of_nat n + i))
  else None.

(** ** numpy arrays *)

Record array (A : Type) : Type := NdArray { shape : list nat; cells : list A }.
Global Arguments NdArray {_} _ _.
Global Arguments shape {_} _.
Global Arguments cells {_} _.

(** Numeric arrays; arrays of projection handles are [array Projection]. *)
Abbreviation ndarray := (array Z).

Global Instance array_eq_dec `{EqDecision A} : EqDecision (array A).
Proof. solve_decision. Defined.

(** Number of cells of an array of the given shape. *)
Definition nd_size (s : list nat) : nat := foldr Nat.mul 1 s.

Definition ndim {A} (a : array A) : nat := length (shape a).

Definition well_shaped {A} (a : array A) : Prop :=
  length (cells a) = nd_size (shape a).

(** [np.full(shape, v)]; [np.empty(shape)] hands out storage whose contents
    are unspecified, zeros stand for it. *)
Definition np_full {A} (s : list nat) (v : A) : array A :=
  NdArray s (replicate (nd_size s) v).
Definition np_empty (s : list nat) : ndarray := np_full s 0%Z.

(** [a[i]] for an integer [i]: the sub-array at position [i] of axis 0. *)
Definition getitem {A} (a : array A) (i : Z) : result (array A) :=
  match shape a with
  | [] => inl (IndexError "too many indices for array")
  | n :: s =>
      match norm_index n i with
      | None => inl (IndexError "index out of bounds for axis 0")
      | Some k => inr (NdArray s (take (nd_size s) (drop (k * nd_size s) (cells a))))
      end
  end.

(** [a[i, :]]: as [a[i]], but the explicit slice needs a second axis. *)
Definition getitem_row {A} (a : array A) (i : Z) : result (array A) :=
  if decide (ndim a < 2) then inl (IndexError "too many indices for array")
  else getitem a i.

(** [a[:, :]]. *)
Definition getitem_all {A} (a : array A) : result (array A) :=
  if decide (ndim a < 2) then inl (IndexError "too many indices for array")
  else inr a.

(** [a[np.newaxis, :]]. *)
Definition newaxis {A} (a : array A) : result (array A) :=
  if decide (ndim a < 1) then inl (IndexError "too many indices for array")
  else inr (NdArray (1 :: shape a) (cells a)).

(** [a[idx]] for a tuple of integers, one per axis: a scalar. *)
Fixpoint get_at (s : list nat) (c : list Z) (idx : list Z) : result Z :=
  match idx, s with
  | [], [] => from_option (IndexError "index out of bounds") (c !! 0)
  | i :: idx', n :: s' =>
      match norm_index n i with
      | None => inl (IndexError "index out of bounds")
      | Some k => get_at s' (drop (k * nd_size s') c) idx'
      end
  | _ :: _, [] => inl (IndexError "too many indices for array")
  | [], _ :: _ => inl (TypeError "array where a scalar is expected")
  end.

Definition item (a : ndarray) (idx : list Z) : result Z :=
  get_at (shape a) (cells a) idx.

(** *** Assignment with broadcasting *)

(** The first [n] consecutive chunks of [k] cells. *)
Fixpoint chunks {A} (k n : nat) (c : list A) : list (list A) :=
  match n with
  | 0 => []
  | S n' => take k c :: chunks k n' (drop k c)
  end.

(** A value of shape [vs] can be broadcast to a target of shape [ts] of the
    same rank when every axis has the size of the target or size 1. *)
Definition compatible (vs ts : list nat) : bool :=
  bool_decide (Forall2 (λ v t, v = t ∨ v = 1) vs ts).

(** The cells of the broadcast value: an axis is kept when the sizes agree
    and repeated when the source size is 1. *)
Fixpoint bcast {A} (vs ts : list nat) (c : list A) : list A :=
  match vs, ts with
  | v :: vs', t :: ts' =>
      if decide (v = t) then concat (bcast vs' ts' <$> chunks (nd_size vs') v c)
      else concat (replicate t (bcast vs' ts' c))
  | _, _ => c
  end.

(** Assignment drops unit axes on the left of a value of higher rank than
    its target. *)
Fixpoint strip_ones (extra : nat) (vs : list nat) : list nat :=
  match extra, vs with
  | S e, 1 :: vs' => strip_ones e vs'
  | _, _ => vs
  end.

(** The cells written when a value of shape [vs] is assigned to a target of
    shape [ts]; shapes that do not fit are refused whatever the number of
    cells. *)
Definition broadcast_to {A} (vs : list nat) (c : list A) (ts : list nat)
  : option (list A) :=
  let vs1 := strip_ones (length vs - length ts) vs in
  let vs2 := replicate (length ts - length vs1) 1 ++ vs1 in
  if compatible vs2 ts then Some (bcast vs2 ts c) else None.

Definition broadcast_error : error :=
  ValueError "could not broadcast input array into shape".

(** [out[start:stop, :] = v]. *)
Definition setitem_rows {A} (out : array A) (start stop : nat) (v : array A)
  : result (array A) :=
  match shape out with
  | n :: ((_ :: _) as s) =>
      let lo := start `min` n in
      let hi := (stop `min` n) `max` lo in
      match broadcast_to (shape v) (cells v) ((hi - lo) :: s) with
      | None => inl broadcast_error
      | Some w =>
          inr (NdArray (shape out)
                 (take (lo * nd_size s) (cells out) ++ w
                  ++ drop (hi * nd_size s) (cells out)))
      end
  | _ => inl (IndexError "too many indices for array")
  end.

(** [out[i, 0:stop, :] = v] for a non-negative file index [i]. *)
Definition setitem_file_rows {A} (out : array A) (i stop : nat) (v : array A)
  : result (array A) :=
  match shape out with
  | f :: m :: ((_ :: _) as s) =>
      if decide (f ≤ i) then inl (IndexError "index out of bounds for axis 0")
      else
        let hi := stop `min` m in
        let base := i * (m * nd_size s) in
        match broadcast_to (shape v) (cells v) (hi :: s) with
        | None => inl broadcast_error
        | Some w =>
            inr (NdArray (shape out)
                   (take base (cells out) ++ w
                    ++ drop (base + hi * nd_size s) (cells out)))
        end
  | _ => inl (IndexError "too many indices for array")
  end.

(** [out[start:stop] = v] on the leading axis, without a trailing slice. *)
Definition setitem_slice {A} (out : array A) (start stop : nat) (v : array A)
  : result (array A) :=
  match shape out with
  | n :: s =>
      let lo := start `min` n in
      let hi := (stop `min` n) `max` lo in
      match broadcast_to (shape v) (cells v) ((hi - lo) :: s) with
      | None => inl broadcast_error
      | Some w =>
          inr (NdArray (shape out)
                 (take (lo * nd_size s) (cells out) ++ w
                  ++ drop (hi * nd_size s) (cells out)))
      end
  | [] => inl (IndexError "too many indices for array")
  end.

(** [out[i, 0:stop] = v]. *)
Definition setitem_file_slice {A} (out : array A) (i stop : nat) (v : array A)
  : result (array A) :=
  match shape out with
  | f :: m :: s =>
      if decide (f ≤ i) then inl (IndexError "index out of bounds for axis 0")
      else
        let hi := stop `min` m in
        let base := i * (m * nd_size s) in
        match broadcast_to (shape v) (cells v) (hi :: s) with
        | None => inl broadcast_error
        | Some w =>
            inr (NdArray (shape out)
                   (take base (cells out) ++ w
                    ++ drop (base + hi * nd_size s) (cells out)))
        end
  | _ => inl (IndexError "too many indices for array")
  end.

(** *** Masked arrays *)

(** A plain array has no mask; a [numpy.ma.MaskedArray] carries one flag per
    cell ([true]: masked). *)
Record marray : Type := MArray { arr : ndarray; mask : option (list bool) }.

Global Instance marray_eq_dec : EqDecision marray.
Proof. solve_decision. Defined.

Definition plain (a : ndarray) : marray := MArray a None.

(** The element type of a variable, as far as numpy's padding and masking
    look at it: floating point, a signed integer of so many bits, or
    characters. *)
Inductive dtype : Type :=
  | Floating
  | Integer (bits : nat)
  | Character.

Global Instance dtype_eq_dec : EqDecision dtype.
Proof. solve_decision. Defined.

(** [np.isclose(c, v, rtol=1e-5, atol=1e-8)]:
    [|c - v| <= atol + rtol * |v|], here with both sides scaled by 10^8
    (numpy evaluates the comparison in floating point, the model
    exactly). *)
Definition isclose (c v : Z) : bool :=
  bool_decide (10 ^ 8 * Z.abs (c - v) ≤ 1 + 10 ^ 3 * Z.abs v)%Z.

(** The values an element type can hold. *)
Definition holds_value (t : dtype) (v : Z) : bool :=
  match t with
  | Floating => true
  | Integer bits => bool_decide (- 2 ^ (Z.of_nat bits - 1) ≤ v < 2 ^ (Z.of_nat bits - 1))%Z
  | Character => false
  end.

(** The test [np.ma.masked_values] applies to a cell: closeness on floating
    data, equality on other data. *)
Definition masks_cell (t : dtype) (v c : Z) : bool :=
  match t with
  | Floating => isclose c v
  | _ => bool_decide (c = v)
  end.

Definition fill_value_error : error := TypeError "Cannot convert fill_value to dtype".

(** [np.ma.masked_values(a, v)] for an array [a] of element type [t]: on
    floating data the cells within the tolerance of [v] are masked; on
    integer data the cells equal to [v], and the result takes [v] as its
    fill value, which is a [TypeError] when the type cannot hold it; on
    characters the comparison with a number is a [TypeError]. *)
Definition masked_values (t : dtype) (a : ndarray) (v : Z) : result marray :=
  match t with
  | Character =>
      inl (TypeError "ufunc 'equal' did not contain a loop with signature matching types")
  | _ =>
      if holds_value t v then inr (MArray a (Some (masks_cell t v <$> cells a)))
      else inl fill_value_error
  end.

(** [a.squeeze()]: the axes of length 1 are removed, the cells stay. *)
Definition nd_squeeze {A} (a : array A) : array A :=
  NdArray (filter (λ n, n ≠ 1) (shape a)) (cells a).

Definition ma_squeeze (a : marray) : marray :=
  MArray (nd_squeeze (arr a)) (mask a).

(** [a[:, i, :][:, np.newaxis, :]]: position [i] of axis 1, kept as an axis
    of length 1. *)
Definition take_axis1 {A} (f m k stride : nat) (c : list A) : list A :=
  concat ((λ j, take stride (drop ((j * m + k) * stride) c)) <$> seq 0 f).

(** [a[:, i]] and [a[:, i, :]]: position [i] of axis 1. *)
Definition select_axis1 {A} (a : array A) (i : Z) : result (array A) :=
  match shape a with
  | f :: m :: s =>
      match norm_index m i with
      | None => inl (IndexError "index out of bounds for axis 1")
      | Some k => inr (NdArray (f :: s) (take_axis1 f m k (nd_size s) (cells a)))
      end
  | _ => inl (IndexError "too many indices for array")
  end.

Definition select_axis1_rows {A} (a : array A) (i : Z) : result (array A) :=
  if decide (ndim a < 3) then inl (IndexError "too many indices for array")
  else select_axis1 a i.

(** [a[:, np.newaxis]] and [a[:, np.newaxis, :]]. *)
Definition insert_axis1 {A} (a : array A) : result (array A) :=
  match shape a with
  | f :: s => inr (NdArray (f :: 1 :: s) (cells a))
  | [] => inl (IndexError "too many indices for array")
  end.

Definition insert_axis1_rows {A} (a : array A) : result (array A) :=
  if decide (ndim a < 2) then inl (IndexError "too many indices for array")
  else insert_axis1 a.

(** [a[:, i, :]] followed by [[:, np.newaxis, :]] on a possibly masked
    array: the mask is cut the same way. *)
Definition ma_select_time (a : marray) (i : Z) : result marray :=
  d ← select_axis1_rows (arr a) i;
  d' ← insert_axis1_rows d;
  match mask a with
  | None => inr (MArray d' None)
  | Some b =>
      b' ← select_axis1_rows (NdArray (shape (arr a)) b) i;
      inr (MArray d' (Some (cells b')))
  end.

(** ** Sources *)

(** The value bound to the first occurrence of a key in an association
    list. *)
Fixpoint assoc {A} (k : string) (l : list (string * A)) : option A :=
  match l with
  | [] => None
  | (k', v) :: l' => if decide (k' = k) then Some v else assoc k l'
  end.

(** A variable of a file: its dimension names, the [coordinates] attribute
    (already split at white space) and the [stagger] attribute when it has
    them, the element type of its values, and its values. *)
Record NcVar : Type := {
  vdimensions : list string;
  coordinates : option (list string);
  stagger : option string;
  vdtype : dtype;
  vdata : ndarray
}.

Record Source : Type := {
  variables : gmap string NcVar;
  dimensions : gmap string nat
}.

(** [wrfnc.variables[name]]. *)
Definition getvar (s : Source) (name : string) : result NcVar :=
  from_option (KeyError name) (variables s !! name).

(** The three shapes of input: one file, an ordered sequence of files, a
    mapping from keys to inputs (in key-iteration order). *)
#[local] Unset Elimination Schemes.
Inductive Collection : Type :=
  | Single (s : Source)
  | Seq (l : list Source)
  | Mapping (d : list (string * Collection)).
#[local] Set Elimination Schemes.

Definition is_multi_file (c : Collection) : bool :=
  match c with Single _ => false | _ => true end.

Definition is_mapping (c : Collection) : bool :=
  match c with Mapping _ => true | _ => false end.

(** [next(it)] on a list iterator: the item and the advanced iterator. *)
Definition next {A} (it : list A) : result (A * list A) :=
  match it with
  | [] => inl StopIteration
  | x :: it' => inr (x, it')
  end.

(** ** Constant tables *)

Definition _COORD_PAIR_MAP : list (string * (string * string)) :=
  [("XLAT", ("XLAT", "XLONG")); ("XLONG", ("XLAT", "XLONG"));
   ("XLAT_M", ("XLAT_M", "XLONG_M")); ("XLONG_M", ("XLAT_M", "XLONG_M"));
   ("XLAT_U", ("XLAT_U", "XLONG_U")); ("XLONG_U", ("XLAT_U", "XLONG_U"));
   ("XLAT_V", ("XLAT_V", "XLONG_V")); ("XLONG_V", ("XLAT_V", "XLONG_V"));
   ("CLAT", ("CLAT", "CLONG")); ("CLONG", ("CLAT", "CLONG"))].

Definition _COORD_VARS : list string :=
  ["XLAT"; "XLONG"; "XLAT_M"; "XLONG_M"; "XLAT_U"; "XLONG_U";
   "XLAT_V"; "XLONG_V"; "CLAT"; "CLONG"].

Definition _LAT_COORDS : list string :=
  ["XLAT"; "XLAT_M"; "XLAT_U"; "XLAT_V"; "CLAT"].

Definition _LON_COORDS : list string :=
  ["XLONG"; "XLONG_M"; "XLONG_U"; "XLONG_V"; "CLONG"].

Definition _TIME_COORD_VARS : list string := ["XTIME"].

Definition is_time_coord_var (varname : string) : bool :=
  bool_decide (varname ∈ _TIME_COORD_VARS).

Definition is_coordvar (varname : string) : bool :=
  bool_decide (varname ∈ _COORD_VARS).

Definition get_coord_pairs (varname : string) : result (string * string) :=
  from_option (KeyError varname) (assoc varname _COORD_PAIR_MAP).

Definition has_time_coord (s : Source) : bool :=
  bool_decide (is_Some (variables s !! "XTIME")).

(** [timeidx is None]: the all-times request. *)
Definition is_multi_time_req (timeidx : option Z) : bool :=
  match timeidx with None => true | Some _ => false end.

(** ** The coordinate cache *)

(** Cache tokens mirror the input: a scalar for a file or a sequence, a
    mapping of tokens for a mapping. *)
#[local] Unset Elimination Schemes.
Inductive Key : Type :=
  | KId (n : nat)
  | KMap (d : list (string * Key)).
#[local] Set Elimination Schemes.

(** An opaque projection handle: what [getproj] was given; [NoProj] is the
    empty slot of a fresh object array. *)
Inductive Projection : Type :=
  | Proj (lats lons : ndarray)
  | NullProjection
  | NoProj.

Global Instance Projection_eq_dec : EqDecision Projection.
Proof. solve_decision. Defined.

(** What the engine stores: a moving flag, dimension names, a coordinate
    array, or an array of projections. *)
Inductive cval : Type :=
  | CBool (b : bool)
  | CDims (d : list string)
  | CArr (a : ndarray)
  | CProjs (p : array Projection).

Global Instance cval_eq_dec : EqDecision cval.
Proof. solve_decision. Defined.

Abbreviation Cache := (gmap (nat * string) cval).

Definition M (A : Type) : Type := Cache → result A * Cache.

Global Instance M_ret : MRet M := λ A x c, (inr x, c).
Global Instance M_bind : MBind M := λ A B f m c,
  match m c with
  | (inl e, c') => (inl e, c')
  | (inr x, c') => f x c'
  end.

Global Instance M_fmap : FMap M := λ A B f m c,
  match m c with
  | (inl e, c') => (inl e, c')
  | (inr x, c') => (inr (f x), c')
  end.

Definition raise {A} (e : error) : M A := λ c, (inl e, c).
Definition lift {A} (r : result A) : M A := λ c, (r, c).

(** Modelled from the spec: the module [wrf.cache] ([get_cached_item],
    [cache_item]) is not among the sources.  The store maps a token and a
    product name to a value, [get] answers the stored value or nothing,
    [put] stores, nothing is ever evicted.  Only a scalar token addresses
    entries: under no token ([None]) nothing is found and nothing is
    stored. *)
Definition get_cached_item (_key : option Key) (product : string)
  : M (option cval) := λ c,
  match _key with
  | Some (KId k) => (inr (c !! (k, product)), c)
  | _ => (inr None, c)
  end.

Definition cache_item (_key : option Key) (product : string) (value : cval)
  : M unit := λ c,
  match _key with
  | Some (KId k) => (inr (), <[(k, product) := value]> c)
  | _ => (inr (), c)
  end.

(** [_key[k]]. *)
Definition key_getitem (_key : option Key) (k : string) : result Key :=
  match _key with
  | Some (KMap d) => from_option (KeyError k) (assoc k d)
  | Some (KId _) => inl (TypeError "object is not subscriptable")
  | None => inl (TypeError "'NoneType' object is not subscriptable")
  end.

(** The values a cached product is used as. *)
Definition as_bool (v : cval) : result bool :=
  match v with CBool b => inr b | _ => inl (TypeError "unexpected cached value") end.
Definition as_dims (v : cval) : result (list string) :=
  match v with CDims d => inr d | _ => inl (TypeError "unexpected cached value") end.
Definition as_arr (v : cval) : result ndarray :=
  match v with CArr a => inr a | _ => inl (TypeError "unexpected cached value") end.
Definition as_projs (v : cval) : result (array Projection) :=
  match v with CProjs p => inr p | _ => inl (TypeError "unexpected cached value") end.

(** ** Metadata helpers *)

(** [either(names)(wrfnc)]: the first of the names that is a variable of
    the (first) file. *)
Definition either_single (varnames : list string) (s : Source) : result string :=
  from_option (ValueError "are not valid variable names")
    (snd <$> list_find (λ v, is_Some (variables s !! v)) varnames).

Fixpoint either (varnames : list string) (wrfnc : Collection) : result string :=
  match wrfnc with
  | Single s => either_single varnames s
  | Seq l => '(s, _) ← next l; either_single varnames s
  | Mapping d =>
      match d with
      | [] => inl StopIteration
      | (_, entry) :: _ => either varnames entry
      end
  end.

(** A coordinate argument of [is_moving_domain]: an [either] object or a
    variable name. *)
Inductive CoordArg : Type :=
  | Either (varnames : list string)
  | Named (name : string).

Definition resolve_coord (a : CoordArg) (wrfseq : Collection) : result string :=
  match a with
  | Either varnames => either varnames wrfseq
  | Named name => inr name
  end.

(** [wrfnc.dimensions[dim]] of the (first) file. *)
Definition extract_dim_single (s : Source) (dim : string) : result nat :=
  from_option (KeyError dim) (dimensions s !! dim).

Fixpoint extract_dim (wrfnc : Collection) (dim : string) : result nat :=
  match wrfnc with
  | Single s => extract_dim_single s dim
  | Seq l => '(s, _) ← next l; extract_dim_single s dim
  | Mapping d =>
      match d with
      | [] => inl StopIteration
      | (_, entry) :: _ => extract_dim entry dim
      end
  end.

(** ** The moving-domain detector *)

(** [shape[-3]]. *)
Definition shape_m3 (a : ndarray) : result nat :=
  from_option (IndexError "tuple index out of range")
    (if decide (ndim a < 3) then None else shape a !! (ndim a - 3)).

(** One round of the loop of [_corners_moved]: the corner points of time
    slice [i] against the reference. *)
Definition corner_differs (lats lons : ndarray) (ll ur : Z * Z) (i : nat)
  : result bool :=
  let n := ndim lats in
  let start_idxs := <[n - 3 := Z.of_nat i]> (replicate n 0%Z) in
  let end_idxs := <[n - 3 := Z.of_nat i]> (replicate n (-1)%Z) in
  a ← item lats start_idxs;
  if bool_decide (ll.1 ≠ a) then inr true else
  b ← item lons start_idxs;
  if bool_decide (ll.2 ≠ b) then inr true else
  c ← item lats end_idxs;
  if bool_decide (ur.1 ≠ c) then inr true else
  d ← item lons end_idxs;
  inr (bool_decide (ur.2 ≠ d)).

Fixpoint corners_loop (lats lons : ndarray) (ll ur : Z * Z) (times : list nat)
  : result bool :=
  match times with
  | [] => inr false
  | i :: times' =>
      moved ← corner_differs lats lons ll ur i;
      if moved : bool then inr true else corners_loop lats lons ll ur times'
  end.

Definition _corners_moved (wrfnc : Source) (first_ll_corner first_ur_corner : Z * Z)
    (latvar lonvar : string) : result bool :=
  lats ← vdata <$> getvar wrfnc latvar;
  lons ← vdata <$> getvar wrfnc lonvar;
  n ← shape_m3 lats;
  corners_loop lats lons first_ll_corner first_ur_corner (seq 0 n).

(** The [while True] loop of [is_moving_domain] over the files after the
    first. *)
Fixpoint moving_loop (wrf_iter : list Source) (ll_corner ur_corner : Z * Z)
    (lat_coord lon_coord : string) : result bool :=
  match wrf_iter with
  | [] => inr false
  | wrfnc :: wrf_iter' =>
      moved ← _corners_moved wrfnc ll_corner ur_corner lat_coord lon_coord;
      if moved : bool then inr true
      else moving_loop wrf_iter' ll_corner ur_corner lat_coord lon_coord
  end.

Definition moving_product (lat_coord lon_coord : string) : string :=
  "is_moving_" +:+ lat_coord +:+ "_" +:+ lon_coord.

(** The names of the longitude and latitude variables [is_moving_domain]
    compares: those of the [coordinates] attribute of the variable, or the
    arguments. *)
Definition moving_coords (first_wrfnc : Source) (varname : option string)
    (latvar lonvar : string) : result (string * string) :=
  match varname with
  | Some v =>
      var ← getvar first_wrfnc v;
      match coordinates var with
      | None => inr (lonvar, latvar)
      | Some coord_names =>
          lon ← from_option (IndexError "list index out of range") (coord_names !! 0);
          lat ← from_option (IndexError "list index out of range") (coord_names !! 1);
          inr (lon, lat)
      end
  | None => inr (lonvar, latvar)
  end.

(** The reference corner points: the lower left and the upper right point
    of the grid of the first file, at index 0 of every axis but the last
    two. *)
Definition first_corners (first_wrfnc : Source) (lat_coord lon_coord : string)
  : result ((Z * Z) * (Z * Z)) :=
  lats ← vdata <$> getvar first_wrfnc lat_coord;
  lons ← vdata <$> getvar first_wrfnc lon_coord;
  let zero_idxs := replicate (ndim lats) 0%Z in
  let last_idxs := take (ndim lats - 2) zero_idxs ++ [-1; -1]%Z in
  lat0 ← item lats zero_idxs;
  lat1 ← item lats last_idxs;
  lon0 ← item lons zero_idxs;
  lon1 ← item lons last_idxs;
  let ll_corner := (lat0, lon0) in
  let ur_corner := (lat1, lon1) in
  inr (ll_corner, ur_corner).

(** The body of [is_moving_domain] once the input is a sequence of files. *)
Definition is_moving_seq (wrfseq : list Source) (varname : option string)
    (latvar lonvar : string) (_key : option Key) : M bool :=
  '(first_wrfnc, wrf_iter) ← lift (next wrfseq);
  '(lon_coord, lat_coord) ← lift (moving_coords first_wrfnc varname latvar lonvar);
  let product := moving_product lat_coord lon_coord in
  moving ← get_cached_item _key product;
  match moving with
  | Some v => lift (as_bool v)
  | None =>
      '(ll_corner, ur_corner) ← lift (first_corners first_wrfnc lat_coord lon_coord);
      moved ← lift (moving_loop wrf_iter ll_corner ur_corner lat_coord lon_coord);
      cache_item _key product (CBool moved);;
      mret moved
  end.

Definition default_latvar : CoordArg := Either ["XLAT"; "XLAT_M"].
Definition default_lonvar : CoordArg := Either ["XLONG"; "XLONG_M"].

Fixpoint is_moving_domain (wrfseq : Collection) (varname : option string)
    (latvar lonvar : CoordArg) (_key : option Key) : M bool :=
  latvar ← lift (resolve_coord latvar wrfseq);
  lonvar ← lift (resolve_coord lonvar wrfseq);
  match wrfseq with
  | Single s => is_moving_seq [s] varname latvar lonvar _key
  | Seq l => is_moving_seq l varname latvar lonvar _key
  | Mapping d =>
      match d with
      | [] => raise StopIteration
      | (dict_key, entry) :: _ =>
          key ← lift (match _key with
                      | Some _ => Some <$> key_getitem _key dict_key
                      | None => inr None
                      end);
          is_moving_domain entry varname (Named latvar) (Named lonvar) key
      end
  end.

(** ** Arrays with metadata *)

(** A coordinate of a [DataArray]: dimension names with values, the key
    names of a dictionary level, or [None]. *)
Inductive coord : Type :=
  | Coord (cdims : list string) (cvals : ndarray)
  | KeyCoord (keys : list string)
  | NoneCoord.

(** The [projection] attribute: one handle, or an array of handles. *)
Inductive projattr : Type :=
  | ProjOne (p : Projection)
  | ProjArray (ps : array Projection).

(** The attributes the engine reads or writes; the other attributes of a
    variable are carried along untouched and are left out. *)
Record Attrs : Type := {
  a_coordinates : option (list string);
  a_stagger : option string;
  a_projection : option projattr;
  a_FillValue : option Z;
  a_missing_value : option Z
}.

Record DataArray : Type := {
  da_values : marray;
  da_name : string;
  da_dims : list string;
  da_coords : list (string * coord);
  da_attrs : Attrs
}.

(** [d[k] = v] on an ordered dictionary. *)
Fixpoint odict_set {A} (k : string) (v : A) (d : list (string * A))
  : list (string * A) :=
  match d with
  | [] => [(k, v)]
  | (k', v') :: d' =>
      if decide (k' = k) then (k, v) :: d' else (k', v') :: odict_set k v d'
  end.

(** [del d[k]]. *)
Definition odict_del {A} (k : string) (d : list (string * A))
  : result (list (string * A)) :=
  match assoc k d with
  | None => inl (KeyError k)
  | Some _ => inr (filter (λ p, p.1 ≠ k) d)
  end.

(** What the facade returns: a (masked) array, an array with metadata, or,
    from [extract_times] only, [None] or an empty dictionary. *)
Inductive pyarray : Type :=
  | PlainArray (a : marray)
  | XArray (d : DataArray)
  | PyNone
  | PyEmptyDict.

(** [DataArray(data, name, coords, dims, attrs)]: the constructor refuses
    dimension names that do not match the rank of the data. *)
Definition mkDataArray (data : marray) (name : string)
    (coords : list (string * coord)) (dims : list string) (attrs : Attrs)
  : result DataArray :=
  if decide (length dims = ndim (arr data))
  then inr {| da_values := data; da_name := name; da_dims := dims;
              da_coords := coords; da_attrs := attrs |}
  else inl (ValueError "different number of dimensions on data and dims").

(** The raw values of a result ([.shape], [x[:]]). *)
Definition values_of (x : pyarray) : result marray :=
  match x with
  | PlainArray a => inr a
  | XArray d => inr (da_values d)
  | PyNone => inl (AttributeError "shape")
  | PyEmptyDict => inl (AttributeError "shape")
  end.

(** [npvalues(array_type)]: a masked array comes out of a [DataArray] as a
    masked array again (its mask stands for the entries xarray blanked). *)
Definition npvalues (x : pyarray) : pyarray :=
  match x with
  | XArray d => PlainArray (da_values d)
  | _ => x
  end.

(** [x.squeeze()]. *)
Definition da_squeeze (d : DataArray) : DataArray :=
  {| da_values := ma_squeeze (da_values d);
     da_name := da_name d;
     da_dims := fst <$> filter (λ p, p.2 ≠ 1) (zip (da_dims d) (shape (arr (da_values d))));
     da_coords := da_coords d;
     da_attrs := da_attrs d |}.

Definition squeeze (x : pyarray) : result pyarray :=
  match x with
  | PlainArray a => inr (PlainArray (ma_squeeze a))
  | XArray d => inr (XArray (da_squeeze d))
  | PyNone => inl (AttributeError "squeeze")
  | PyEmptyDict => inl (AttributeError "squeeze")
  end.

(** ** Times *)

(** Characters are the integers of their codes. *)
Definition char_codes (s : string) : list Z :=
  (λ c, Z.of_nat (Ascii.nat_of_ascii c)) <$> String.list_ascii_of_string s.

(** [npbytes_to_str(var)], joined: every cell of a row of [Times] is one
    byte.  A NUL byte is an empty [bytes] object and adds nothing; a byte
    above 127 is no UTF-8 text ([UnicodeDecodeError], a [ValueError]). *)
Definition undecodable : error := ValueError "'utf-8' codec can't decode byte".

Definition npbytes_to_str (var : ndarray) : result (list Z) :=
  chars ← mapM (λ c, if decide (c = 0)%Z then inr []
                     else if decide (0 < c < 128)%Z then inr [c]
                     else inl undecodable) (cells var);
  inr (concat chars).

(** A [datetime]. *)
Record datetime : Type := {
  year : nat; month : nat; day : nat;
  hour : nat; minute : nat; second : nat
}.

Definition is_digit (c : Z) : bool := bool_decide (48 ≤ c ≤ 57)%Z.

Definition digits_value (t : list Z) : nat :=
  foldl (λ acc c, acc * 10 + Z.to_nat (c - 48)) 0 t.

(** The text before the first [sep] and the text after it. *)
Definition split_at (sep : Z) (text : list Z) : option (list Z * list Z) :=
  (λ p, (take p.1 text, drop (S p.1) text)) <$> list_find (λ c, c = sep) text.

(** The directives of the format, as the regular expressions [strptime]
    makes of them.  A directive that is followed by a separator matches
    when one of its alternatives matches the whole text up to the
    separator: [digits n lo hi] is a text of [n] digits whose value lies
    between [lo] and [hi]. *)
Definition digits (n lo hi : nat) (t : list Z) : option nat :=
  let v := digits_value t in
  if bool_decide (length t = n) && forallb is_digit t
     && bool_decide (lo ≤ v ≤ hi)
  then Some v else None.

(** [%Y]: [\d\d\d\d]. *)
Definition directive_Y (t : list Z) : option nat := digits 4 0 (10 ^ 4) t.
(** [%m]: [1[0-2]|0[1-9]|[1-9]]. *)
Definition directive_m (t : list Z) : option nat :=
  digits 2 1 12 t ∪ digits 1 1 9 t.
(** [%d]: [3[0-1]|[1-2]\d|0[1-9]|[1-9]| [1-9]]. *)
Definition directive_d (t : list Z) : option nat :=
  digits 2 1 31 t ∪ digits 1 1 9 t
  ∪ match t with
    | c :: t' => if decide (c = 32)%Z then digits 1 1 9 t' else None
    | [] => None
    end.
(** [%H]: [2[0-3]|[0-1]\d|\d]. *)
Definition directive_H (t : list Z) : option nat :=
  digits 2 0 23 t ∪ digits 1 0 9 t.
(** [%M]: [[0-5]\d|\d]. *)
Definition directive_M (t : list Z) : option nat :=
  digits 2 0 59 t ∪ digits 1 0 9 t.

Definition no_match : error := ValueError "time data does not match format".
Definition unconverted : error := ValueError "unconverted data remains".

(** [%S]: [6[0-1]|[0-5]\d|\d].  Nothing follows it in the format: the
    first alternative that matches the beginning of the text is taken, and
    text that is left over is refused. *)
Definition directive_S (t : list Z) : result nat :=
  match digits 2 0 61 (take 2 t) with
  | Some v => if decide (length t = 2) then inr v else inl unconverted
  | None =>
      match digits 1 0 9 (take 1 t) with
      | Some v => if decide (length t = 1) then inr v else inl unconverted
      | None => inl no_match
      end
  end.

Definition is_leap (y : nat) : bool :=
  bool_decide (y mod 4 = 0) && (bool_decide (y mod 100 ≠ 0) || bool_decide (y mod 400 = 0)).

Definition days_in_month (y m : nat) : nat :=
  match m with
  | 2 => if is_leap y then 29 else 28
  | 4 | 6 | 9 | 11 => 30
  | _ => 31
  end.

(** [datetime.strptime(text, "%Y-%m-%d_%H:%M:%S")]: the fields are matched
    from the left, then the date and the time are checked (the year 0, a
    day the month does not have and a second of 60 or 61 are refused).
    Every failure is a [ValueError]. *)
Definition strptime (text : list Z) : result datetime :=
  let field {A} (d : list Z → option A) (sep : string) (text : list Z)
    : result (A * list Z) :=
    '(t, rest) ← from_option no_match
                   (match char_codes sep with
                    | [c] => split_at c text
                    | _ => None
                    end);
    v ← from_option no_match (d t);
    inr (v, rest) in
  '(y, text) ← field directive_Y "-" text;
  '(mo, text) ← field directive_m "-" text;
  '(d, text) ← field directive_d "_" text;
  '(h, text) ← field directive_H ":" text;
  '(mi, text) ← field directive_M ":" text;
  sec ← directive_S text;
  if decide (y = 0) then inl (ValueError "year 0 is out of range")
  else if decide (days_in_month y mo < d)
  then inl (ValueError "day is out of range for month")
  else if decide (59 < sec) then inl (ValueError "second must be in 0..59")
  else inr {| year := y; month := mo; day := d;
              hour := h; minute := mi; second := sec |}.

(** A [datetime] is kept in a cell as the number its fields spell in
    decimal: 2005-08-28_12:00:00 is 20050828120000. *)
Definition datetime_number (t : datetime) : Z :=
  let z := Z.of_nat in
  (((((z (year t) * 100 + z (month t)) * 100 + z (day t)) * 100 + z (hour t)) * 100
    + z (minute t)) * 100 + z (second t))%Z.

(** [_make_time]: the characters of the row are joined and parsed. *)
Definition _make_time (timearr : ndarray) : result ndarray :=
  text ← npbytes_to_str timearr;
  t ← strptime text;
  inr (NdArray [] [datetime_number t]).

(** [[a[i] for i in range(n)]] and [[a[i, :] for i in range(n)]]. *)
Definition rows_of {A} (a : array A) (n : nat) : result (list (array A)) :=
  mapM (λ i, getitem a (Z.of_nat i)) (seq 0 n).
Definition rows2_of {A} (a : array A) (n : nat) : result (list (array A)) :=
  mapM (λ i, getitem_row a (Z.of_nat i)) (seq 0 n).

(** [shape[0]]. *)
Definition shape0 {A} (a : array A) : result nat :=
  from_option (IndexError "tuple index out of range") (shape a !! 0).

(** The items [_file_times] yields. *)
Definition _file_times (wrfnc : Source) (do_xtime : bool) : result (list ndarray) :=
  if negb do_xtime then
    times ← vdata <$> getvar wrfnc "Times";
    times ← getitem_all times;
    n ← shape0 times;
    rows ← rows2_of times n;
    mapM _make_time (rows : list ndarray)
  else
    xtimes ← vdata <$> getvar wrfnc "XTIME";
    n ← shape0 xtimes;
    rows_of xtimes n.

(** [np.asarray(rows)] for a list of arrays of one shape. *)
Definition np_stack (rows : list ndarray) : result ndarray :=
  match rows with
  | [] => inr (NdArray [0] [])
  | r :: _ =>
      if bool_decide (Forall (λ x, shape x = shape r) rows)
      then inr (NdArray (length rows :: shape r) (concat (cells <$> rows)))
      else inl (ValueError "setting an array element with a sequence")
  end.

Definition str_lower_char (c : Ascii.ascii) : Ascii.ascii :=
  let n := Ascii.nat_of_ascii c in
  if decide (65 ≤ n ≤ 90) then Ascii.ascii_of_nat (n + 32) else c.

Fixpoint str_lower (s : string) : string :=
  match s with
  | EmptyString => EmptyString
  | String c s' => String (str_lower_char c) (str_lower s')
  end.

Definition empty_attrs : Attrs :=
  {| a_coordinates := None; a_stagger := None; a_projection := None;
     a_FillValue := None; a_missing_value := None |}.

Definition var_attrs (v : NcVar) : Attrs :=
  {| a_coordinates := coordinates v; a_stagger := stagger v;
     a_projection := None; a_FillValue := None; a_missing_value := None |}.

(** [x[timeidx]] on a result of [extract_times]. *)
Definition py_getitem (x : pyarray) (i : Z) : result pyarray :=
  match x with
  | PlainArray a => a' ← getitem (arr a) i; inr (PlainArray (plain a'))
  | XArray d =>
      a' ← getitem (arr (da_values d)) i;
      inr (XArray {| da_values := plain a'; da_name := da_name d;
                     da_dims := tail (da_dims d); da_coords := da_coords d;
                     da_attrs := da_attrs d |})
  | PyNone => inl (TypeError "'NoneType' object is not subscriptable")
  | PyEmptyDict => inl (KeyError "timeidx")
  end.

Section Engine.

(** The switch of [wrf.config] and the fill sentinel of [wrf.constants] are
    not among the sources: they are parameters.  The class [DataArray] is
    taken to be bound whatever the switch says. *)
Variable xarray_enabled : bool.
Variable DEFAULT_FILL : Z.

(** [extract_times] on a file or a sequence of files, as the engine calls
    it; on a mapping it hands its flags to itself in the wrong positions and
    the call of [method.lower()] on a boolean fails. *)
Definition extract_times (wrfnc : Collection) (timeidx : option Z)
    (method : string) (meta do_xtime : bool) : result pyarray :=
  match wrfnc with
  | Mapping [] => inr PyEmptyDict
  | Mapping (_ :: _) => inl (AttributeError "lower")
  | _ =>
      let wrf_list := match wrfnc with
                      | Single s => [s] | Seq l => l | Mapping _ => [] end in
      let times :=
        if decide (str_lower method = "cat") then
          rows ← mapM (λ f, _file_times f do_xtime) wrf_list;
          np_stack (concat rows)
        else if decide (str_lower method = "join") then
          rows ← mapM (λ f, _file_times f do_xtime) wrf_list;
          per_file ← mapM np_stack rows;
          np_stack per_file
        else inl (ValueError "invalid method argument") in
      match times with
      | inl (KeyError _) => inr PyNone
      | inl e => inl e
      | inr time_list =>
          outarr ←
            (if xarray_enabled && meta then
               let outdimnames :=
                 if decide (str_lower method = "cat") then ["Time"]
                 else ["fileidx"; "Time"] in
               '(outname, outattrs) ←
                 (if do_xtime then
                    '(ncfile, _) ← next wrf_list;
                    var ← getvar ncfile "XTIME";
                    inr ("XTIME", var_attrs var)
                  else inr ("times", empty_attrs));
               XArray <$> mkDataArray (plain time_list) outname [] outdimnames outattrs
             else inr (PlainArray (plain time_list)));
          match timeidx with
          | Some t => py_getitem outarr t
          | None => inr outarr
          end
      end
  end.

(** [get_proj_params(wrfnc, timeidx, varname)] for a given variable name:
    the latitudes and longitudes handed to [getproj] (the projection
    parameters are global attributes and are left out). *)
Definition get_proj_params (wrfnc : Source) (timeidx : option Z) (varname : string)
  : result (ndarray * ndarray) :=
  '(lat_coord, lon_coord) ←
    (if negb (is_coordvar varname) then
       var ← getvar wrfnc varname;
       coord_names ← from_option (AttributeError "coordinates") (coordinates var);
       lon ← from_option (IndexError "list index out of range") (coord_names !! 0);
       lat ← from_option (IndexError "list index out of range") (coord_names !! 1);
       inr (lat, lon)
     else get_coord_pairs varname);
  let read (name : string) : result ndarray :=
    v ← vdata <$> getvar wrfnc name;
    match timeidx with
    | Some t => getitem_row v t
    | None => getitem_all v
    end in
  lats ← read lat_coord;
  lons ← read lon_coord;
  inr (lats, lons).

(** [[getproj(lats=lats[i,:], lons=lons[i,:]) for i in range(lats.shape[0])]]. *)
Definition projs_per_time (lats lons : ndarray) : result (list Projection) :=
  n ← shape0 lats;
  mapM (λ i, la ← getitem_row lats (Z.of_nat i);
             lo ← getitem_row lons (Z.of_nat i);
             inr (Proj la lo)) (seq 0 n).

(** ** The single-array builder *)

(** The names of the longitude, latitude and time coordinates of a
    variable. *)
Definition coord_names_of (wrfnc : Source) (varname : string) (var : NcVar)
  : result (option string * option string * option string) :=
  match coordinates var with
  | None =>
      if is_coordvar varname then
        '(lat_coord, lon_coord) ← get_coord_pairs varname;
        inr (Some lon_coord, Some lat_coord,
             if has_time_coord wrfnc then Some "XTIME" else None)
      else if is_time_coord_var varname then inr (None, None, None)
      else
        match stagger var with
        | None => inr (None, None, None)
        | Some stag_attr =>
            inr (Some ("XLONG_" +:+ stag_attr), Some ("XLAT_" +:+ stag_attr), None)
        end
  | Some coord_names =>
      lon ← from_option (IndexError "list index out of range") (coord_names !! 0);
      lat ← from_option (IndexError "list index out of range") (coord_names !! 1);
      inr (Some lon, Some lat, coord_names !! 2)
  end.

(** A coordinate grid through the cache: its dimension names and values. *)
Definition cached_grid (wrfnc : Source) (name : string) (is_moving_domain : bool)
    (_key : option Key) : M (list string * ndarray) :=
  let dimkey := name +:+ "_dim" in
  let valkey := name +:+ "_val" in
  coord_dims ← get_cached_item _key dimkey;
  coord_vals ← get_cached_item _key valkey;
  match coord_dims, coord_vals with
  | Some d, Some v =>
      d ← lift (as_dims d); v ← lift (as_arr v); mret (d, v)
  | _, _ =>
      coord_var ← lift (getvar wrfnc name);
      let d := vdimensions coord_var in
      let v := vdata coord_var in
      (if negb is_moving_domain then
         cache_item _key dimkey (CDims d);;
         cache_item _key valkey (CArr v)
       else mret ());;
      mret (d, v)
  end.

Definition _build_data_array (wrfnc : Source) (varname : string)
    (timeidx : option Z) (is_moving_domain is_multifile : bool)
    (_key : option Key) : M DataArray :=
  let multitime := is_multi_time_req timeidx in
  var ← lift (getvar wrfnc varname);
  data ← lift (match timeidx with
               | Some t => d ← getitem_row (vdata var) t; newaxis d
               | None => getitem_all (vdata var)
               end);
  let attrs := var_attrs var in
  let dimnames := drop (length (vdimensions var) - ndim data) (vdimensions var) in
  '(lon_coord, lat_coord, time_coord) ← lift (coord_names_of wrfnc varname var);
  '(coords, attrs) ←
    match lon_coord, lat_coord with
    | Some lon_coord, Some lat_coord =>
        '(lon_coord_dims, lon_coord_vals) ←
          cached_grid wrfnc lon_coord is_moving_domain _key;
        '(lat_coord_dims, lat_coord_vals) ←
          cached_grid wrfnc lat_coord is_moving_domain _key;
        time_coord_vals ←
          match time_coord with
          | None => mret None
          | Some tc =>
              if negb is_multifile then
                cached ← get_cached_item _key tc;
                match cached with
                | Some v => v ← lift (as_arr v); mret (Some v)
                | None =>
                    v ← lift (vdata <$> getvar wrfnc tc);
                    cache_item _key tc (CArr v);;
                    mret (Some v)
                end
              else
                v ← lift (vdata <$> getvar wrfnc tc);
                mret (Some v)
          end;
        let time_dim : result (list string) :=
          d ← from_option (IndexError "tuple index out of range") (lon_coord_dims !! 0);
          inr [d] in
        lift (
          match timeidx with
          | None =>
              '(coords, proj) ←
                (if is_moving_domain then
                   '(lats, lons) ← get_proj_params wrfnc timeidx varname;
                   projs ← projs_per_time lats lons;
                   inr (odict_set lat_coord (Coord lat_coord_dims lat_coord_vals)
                          [(lon_coord, Coord lon_coord_dims lon_coord_vals)],
                        ProjArray (NdArray [length projs] projs))
                 else
                   lon0 ← getitem_row lon_coord_vals 0;
                   lat0 ← getitem_row lat_coord_vals 0;
                   '(lats, lons) ← get_proj_params wrfnc (Some 0%Z) varname;
                   inr (odict_set lat_coord (Coord (tail lat_coord_dims) lat0)
                          [(lon_coord, Coord (tail lon_coord_dims) lon0)],
                        ProjOne (Proj lats lons)));
              coords ←
                match time_coord, time_coord_vals with
                | Some tc, Some tv =>
                    d ← time_dim; inr (odict_set tc (Coord d tv) coords)
                | _, _ => inr coords
                end;
              inr (coords, proj)
          | Some t =>
              lon_t ← getitem_row lon_coord_vals t;
              lat_t ← getitem_row lat_coord_vals t;
              let coords :=
                odict_set lat_coord (Coord (tail lat_coord_dims) lat_t)
                  [(lon_coord, Coord (tail lon_coord_dims) lon_t)] in
              coords ←
                match time_coord, time_coord_vals with
                | Some tc, Some tv =>
                    d ← time_dim;
                    tv_t ← getitem tv t;
                    inr (odict_set tc (Coord d (NdArray (1 :: shape tv_t) (cells tv_t))) coords)
                | _, _ => inr coords
                end;
              '(lats, lons) ← get_proj_params wrfnc (Some 0%Z) varname;
              inr (coords, ProjOne (Proj lats lons))
          end
          ≫= λ '(coords, proj),
            inr (coords,
                 {| a_coordinates := a_coordinates attrs; a_stagger := a_stagger attrs;
                    a_projection := Some proj; a_FillValue := a_FillValue attrs;
                    a_missing_value := a_missing_value attrs |}))
    | _, _ => mret ([], attrs)
    end;
  d0 ← lift (from_option (IndexError "tuple index out of range") (dimnames !! 0));
  coords ← lift (
    if decide (d0 = "Time") then
      t ← extract_times (Single wrfnc) timeidx "cat" false false;
      inr (odict_set "Time"
             match t with
             | PlainArray a =>
                 if multitime then Coord [] (arr a)
                 else Coord [] (NdArray (1 :: shape (arr a)) (cells (arr a)))
             | _ => NoneCoord
             end coords)
    else inr coords);
  lift (mkDataArray (plain data) varname coords dimnames attrs).

(** ** The time-index locator *)

Definition out_of_bounds (timeidx : Z) : error :=
  IndexError ("timeidx " +:+ pretty timeidx +:+ " is out of bounds").

(** What the locator returns once it has found the file and the index in
    it. *)
Definition read_time (wrfnc : Source) (varname : string) (filetimeidx : Z)
    (is_moving meta : bool) (_key : option Key) : M pyarray :=
  if meta then
    XArray <$> _build_data_array wrfnc varname (Some filetimeidx) is_moving true _key
  else
    lift (var ← getvar wrfnc varname;
          result ← getitem_row (vdata var) filetimeidx;
          PlainArray ∘ plain <$> newaxis result).

Fixpoint forward_loop (wrf_iter : list Source) (comboidx : Z) (varname : string)
    (timeidx : Z) (is_moving meta : bool) (_key : option Key) : M pyarray :=
  match wrf_iter with
  | [] => raise (out_of_bounds timeidx)
  | wrfnc :: wrf_iter' =>
      numtimes ← lift (extract_dim (Single wrfnc) "Time");
      if decide (timeidx < comboidx + Z.of_nat numtimes)%Z then
        let filetimeidx := (timeidx - comboidx)%Z in
        read_time wrfnc varname filetimeidx is_moving meta _key
      else
        forward_loop wrf_iter' (comboidx + Z.of_nat numtimes)%Z varname timeidx
          is_moving meta _key
  end.

Definition _find_forward (wrfseq : list Source) (varname : string) (timeidx : Z)
    (is_moving meta : bool) (_key : option Key) : M pyarray :=
  forward_loop wrfseq 0%Z varname timeidx is_moving meta _key.

Fixpoint reverse_loop (wrf_iter : list Source) (comboidx : Z) (varname : string)
    (timeidx revtimeidx : Z) (is_moving meta : bool) (_key : option Key)
  : M pyarray :=
  match wrf_iter with
  | [] => raise (out_of_bounds timeidx)
  | wrfnc :: wrf_iter' =>
      numtimes ← lift (extract_dim (Single wrfnc) "Time");
      if decide (revtimeidx < comboidx + Z.of_nat numtimes)%Z then
        let filetimeidx := (Z.of_nat numtimes - (revtimeidx - comboidx) - 1)%Z in
        read_time wrfnc varname filetimeidx is_moving meta _key
      else
        reverse_loop wrf_iter' (comboidx + Z.of_nat numtimes)%Z varname timeidx
          revtimeidx is_moving meta _key
  end.

Definition _find_reverse (wrfseq : list Source) (varname : string) (timeidx : Z)
    (is_moving meta : bool) (_key : option Key) : M pyarray :=
  let revwrfseq := reverse wrfseq in
  let revtimeidx := (- timeidx - 1)%Z in
  reverse_loop revwrfseq 0%Z varname timeidx revtimeidx is_moving meta _key.

Definition _find_arr_for_time (wrfseq : list Source) (varname : string)
    (timeidx : Z) (is_moving meta : bool) (_key : option Key) : M pyarray :=
  if decide (timeidx >= 0)%Z
  then _find_forward wrfseq varname timeidx is_moving meta _key
  else _find_reverse wrfseq varname timeidx is_moving meta _key.

(** ** The cat combiner *)

(** [iter(wrfseq)] once the facade has sent mappings elsewhere: a single
    file is not iterable. *)
Definition iter_files (wrfseq : Collection) : result (list Source) :=
  match wrfseq with
  | Seq l => inr l
  | Single _ => inl (TypeError "object is not iterable")
  | Mapping _ => inl (TypeError "mapping keys are not files")
  end.

(** [l[0::2]]. *)
Fixpoint every_other {A} (l : list A) : list A :=
  match l with
  | x :: _ :: l' => x :: every_other l'
  | _ => l
  end.

Definition _find_coord_names (coords : list (string * coord))
  : option string * option string * option string :=
  let present (names : list string) :=
    head (filter (λ name, is_Some (assoc name coords)) names) in
  (present (every_other _COORD_VARS),
   present (every_other (tail _COORD_VARS)),
   present _TIME_COORD_VARS).

(** [len(file_times)]. *)
Definition py_len (x : pyarray) : result nat :=
  match x with
  | PlainArray a => from_option (TypeError "len() of unsized object") (shape (arr a) !! 0)
  | XArray d => from_option (TypeError "len() of unsized object") (shape (arr (da_values d)) !! 0)
  | PyNone => inl (TypeError "object of type 'NoneType' has no len()")
  | PyEmptyDict => inr 0
  end.

(** [coords[name][:]] as an array. *)
Definition coord_values (coords : list (string * coord)) (name : string)
  : result ndarray :=
  c ← from_option (KeyError name) (assoc name coords);
  match c with
  | Coord _ v => inr v
  | KeyCoord _ => inl (TypeError "key names where an array is expected")
  | NoneCoord => inl (TypeError "'NoneType' object is not subscriptable")
  end.

(** [np.asarray(attrs["projection"], np.object)[:]]. *)
Definition projection_values (attrs : Attrs) : result (array Projection) :=
  p ← from_option (KeyError "projection") (a_projection attrs);
  match p with
  | ProjArray ps => inr ps
  | ProjOne _ => inl (IndexError "too many indices for array")
  end.

(** [l[-2:]]. *)
Definition last2 {A} (l : list A) : list A := drop (length l - 2) l.

(** The aggregated coordinates, and which of them came from the cache. *)
Record Aggregates : Type := {
  outxtimes : option ndarray;
  outlats : option ndarray;
  outlons : option ndarray;
  outprojs : option (array Projection);
  timecached : bool;
  latcached : bool;
  loncached : bool;
  projcached : bool
}.

Definition no_aggregates : Aggregates :=
  {| outxtimes := None; outlats := None; outlons := None; outprojs := None;
     timecached := false; latcached := false; loncached := false;
     projcached := false |}.

(** A coordinate aggregate: the cached one, or a fresh one initialised by
    [init]. *)
Definition cached_or_new {A} (_key : option Key) (key : string)
    (as_val : cval → result A) (init : result A) : M (A * bool) :=
  v ← get_cached_item _key key;
  match v with
  | Some v => v ← lift (as_val v); mret (v, true)
  | None => v ← lift init; mret (v, false)
  end.

(** [if not cached and out is not None: cache_item(_key, key, out)]. *)
Definition cache_unless {A} (_key : option Key) (key : option string)
    (cached : bool) (out : option A) (to_val : A → cval) : M unit :=
  match out, key with
  | Some v, Some k => if cached then mret () else cache_item _key k (to_val v)
  | _, _ => mret ()
  end.

Definition cache_aggregates (_key : option Key)
    (latkey lonkey projkey timekey : option string) (ag : Aggregates) : M unit :=
  cache_unless _key latkey (latcached ag) (outlats ag) CArr;;
  cache_unless _key lonkey (loncached ag) (outlons ag) CArr;;
  cache_unless _key projkey (projcached ag) (outprojs ag) CProjs;;
  cache_unless _key timekey (timecached ag) (outxtimes ag) CArr.

(** The coordinate part of one round of the loop of [_cat_files]. *)
Definition cat_coords_step (wrfnc : Source) (varname : string) (is_moving : bool)
    (latname lonname timename : option string) (startidx endidx : nat)
    (ag : Aggregates) : result Aggregates :=
  xt ←
    match timename, outxtimes ag with
    | Some tn, Some out =>
        if timecached ag then inr (Some out) else
        xtimedata ← vdata <$> getvar wrfnc tn;
        Some <$> setitem_slice out startidx endidx xtimedata
    | _, o => inr o
    end;
  if negb is_moving then
    inr {| outxtimes := xt; outlats := outlats ag; outlons := outlons ag;
           outprojs := outprojs ag; timecached := timecached ag;
           latcached := latcached ag; loncached := loncached ag;
           projcached := projcached ag |}
  else
    la ←
      match latname, outlats ag with
      | Some n, Some out =>
          if latcached ag then inr (Some out) else
          latdata ← vdata <$> getvar wrfnc n;
          Some <$> setitem_rows out startidx endidx latdata
      | _, o => inr o
      end;
    lo ←
      match lonname, outlons ag with
      | Some n, Some out =>
          if loncached ag then inr (Some out) else
          londata ← vdata <$> getvar wrfnc n;
          Some <$> setitem_rows out startidx endidx londata
      | _, o => inr o
      end;
    pr ←
      match outprojs ag with
      | Some out =>
          if projcached ag then inr (Some out) else
          '(lats, lons) ← get_proj_params wrfnc None varname;
          projs ← projs_per_time lats lons;
          Some <$> setitem_slice out startidx endidx (NdArray [length projs] projs)
      | None => inr None
      end;
    inr {| outxtimes := xt; outlats := la; outlons := lo; outprojs := pr;
           timecached := timecached ag; latcached := latcached ag;
           loncached := loncached ag; projcached := projcached ag |}.

(** The [while True] loop of [_cat_files] over the files after the first. *)
Fixpoint cat_loop (wrf_iter : list Source) (varname : string)
    (with_meta is_moving : bool) (latname lonname timename : option string)
    (startidx : nat) (outdata : ndarray) (ag : Aggregates)
  : result (ndarray * Aggregates) :=
  match wrf_iter with
  | [] => inr (outdata, ag)
  | wrfnc :: wrf_iter' =>
      vardata ← vdata <$> getvar wrfnc varname;
      numtimes ← shape0 vardata;
      let endidx := startidx + numtimes in
      outdata ← setitem_rows outdata startidx endidx vardata;
      ag ← (if with_meta
            then cat_coords_step wrfnc varname is_moving latname lonname timename
                   startidx endidx ag
            else inr ag);
      cat_loop wrf_iter' varname with_meta is_moving latname lonname timename
        endidx outdata ag
  end.

Definition suffix_key (name : option string) (suffix : string) : option string :=
  (λ n, n +:+ suffix) <$> name.

(** The aggregates of [_cat_files] before its loop, begun with the
    coordinates of the first file. *)
Definition cat_first_coords (first_var : DataArray) (is_moving : bool)
    (outdims : list nat) (startidx endidx : nat)
    (latname lonname timename : option string) (_key : option Key)
  : M Aggregates :=
  let timekey := suffix_key timename "_cat" in
  let latkey := suffix_key latname "_cat" in
  let lonkey := suffix_key lonname "_cat" in
  '(xt, tc) ←
    match timename, timekey with
    | Some tn, Some tk =>
        '(v, c) ← cached_or_new _key tk as_arr
          (vals ← coord_values (da_coords first_var) tn;
           setitem_slice (np_empty (take 1 outdims)) startidx endidx vals);
        mret (Some v, c)
    | _, _ => mret (None, false)
    end;
  if negb is_moving then
    mret {| outxtimes := xt; outlats := None; outlons := None; outprojs := None;
            timecached := tc; latcached := false; loncached := false;
            projcached := false |}
  else
    let outcoorddims := take 1 outdims ++ last2 outdims in
    let grid (name key : option string) : M (option ndarray * bool) :=
      match name, key with
      | Some n, Some k =>
          '(v, c) ← cached_or_new _key k as_arr
            (vals ← coord_values (da_coords first_var) n;
             setitem_rows (np_empty outcoorddims) startidx endidx vals);
          mret (Some v, c)
      | _, _ => mret (None, false)
      end in
    '(la, lac) ← grid latname latkey;
    '(lo, loc) ← grid lonname lonkey;
    '(pr, prc) ← cached_or_new _key "projection_cat" as_projs
      (vals ← projection_values (da_attrs first_var);
       setitem_slice (np_full (take 1 outdims) NoProj) startidx endidx vals);
    mret {| outxtimes := xt; outlats := la; outlons := lo; outprojs := Some pr;
            timecached := tc; latcached := lac; loncached := loc;
            projcached := prc |}.

Definition with_projection (attrs : Attrs) (p : option projattr) : Attrs :=
  {| a_coordinates := a_coordinates attrs; a_stagger := a_stagger attrs;
     a_projection := p; a_FillValue := a_FillValue attrs;
     a_missing_value := a_missing_value attrs |}.

(** The metadata [_cat_files] attaches to its result. *)
Definition cat_metadata (first_var : DataArray) (file_times : ndarray)
    (is_moving : bool) (latname lonname timename : option string)
    (ag : Aggregates) (outdata : ndarray) : result DataArray :=
  let outdimnames :=
    if bool_decide ("Time" ∈ da_dims first_var) then da_dims first_var
    else "Time" :: da_dims first_var in
  let d0 := default "Time" (head outdimnames) in
  let outcoords := odict_set d0 (Coord [] file_times) (da_coords first_var) in
  let outcoords := odict_set "datetime" (Coord [d0] file_times) outcoords in
  let outcoords :=
    match timename, outxtimes ag with
    | Some tn, Some xt => odict_set tn (Coord [d0] xt) outcoords
    | _, _ => outcoords
    end in
  let outlatdims := d0 :: last2 outdimnames in
  let outcoords :=
    if negb is_moving then outcoords else
    let c1 := match latname, outlats ag with
              | Some n, Some v => odict_set n (Coord outlatdims v) outcoords
              | _, _ => outcoords
              end in
    match lonname, outlons ag with
    | Some n, Some v => odict_set n (Coord outlatdims v) c1
    | _, _ => c1
    end in
  let outattrs :=
    if negb is_moving then da_attrs first_var
    else with_projection (da_attrs first_var) (ProjArray <$> outprojs ag) in
  mkDataArray (plain outdata) (da_name first_var) outcoords outdimnames outattrs.

Definition _cat_files (wrfseq : Collection) (varname : string)
    (timeidx : option Z) (is_moving : option bool) (squeeze meta : bool)
    (_key : option Key) : M pyarray :=
  is_moving ←
    match is_moving with
    | None => is_moving_domain wrfseq (Some varname) default_latvar default_lonvar _key
    | Some b => mret b
    end;
  file_times ← lift (extract_times wrfseq None "cat" false false);
  match timeidx with
  | Some t =>
      files ← lift (iter_files wrfseq);
      _find_arr_for_time files varname t is_moving meta _key
  | None =>
      wrf_iter ← lift (iter_files wrfseq);
      '(first_file, wrf_iter) ← lift (next wrf_iter);
      first_var ←
        (if xarray_enabled && meta
         then XArray <$> _build_data_array first_file varname None is_moving true _key
         else lift (PlainArray ∘ plain ∘ vdata <$> getvar first_file varname));
      first_data ← lift (arr <$> values_of first_var);
      ntimes ← lift (py_len file_times);
      let outdims := ntimes :: tail (shape first_data) in
      let outdata := np_empty outdims in
      numtimes ← lift (shape0 first_data);
      let startidx := 0 in
      let endidx := numtimes in
      outdata ← lift (setitem_rows outdata startidx endidx first_data);
      match first_var with
      | XArray fv =>
          let '(latname, lonname, timename) := _find_coord_names (da_coords fv) in
          ag ← cat_first_coords fv is_moving outdims startidx endidx
                 latname lonname timename _key;
          '(outdata, ag) ← lift (cat_loop wrf_iter varname true is_moving
                                   latname lonname timename endidx outdata ag);
          cache_aggregates _key (suffix_key latname "_cat") (suffix_key lonname "_cat")
            (if is_moving then Some "projection_cat" else None)
            (suffix_key timename "_cat") ag;;
          times ← lift (arr <$> values_of file_times);
          XArray <$> lift (cat_metadata fv times is_moving latname lonname timename
                             ag outdata)
      | _ =>
          '(outdata, _) ← lift (cat_loop wrf_iter varname false is_moving
                                  None None None endidx outdata no_aggregates);
          mret (PlainArray (plain outdata))
      end
  end.

(** ** The join combiner *)

Definition _get_numfiles (wrfseq : list Source) : nat := length wrfseq.

Fixpoint max_time_loop (wrf_iter : list Source) (max_times : nat) : result nat :=
  match wrf_iter with
  | [] => inr max_times
  | wrfnc :: wrf_iter' =>
      t ← extract_dim (Single wrfnc) "Time";
      max_time_loop wrf_iter' (if decide (max_times ≤ t) then t else max_times)
  end.

Definition _find_max_time_size (wrfseq : list Source) : result nat :=
  max_time_loop wrfseq 0.

(** [int(NaT)]: the not-a-time sentinel of [datetime64[ns]]. *)
Definition NaT : Z := (-9223372036854775808)%Z.

(** [np.asarray(file_times, "datetime64[ns]")[:]]. *)
Definition times_array (x : pyarray) : result ndarray :=
  match x with
  | PlainArray a => inr (arr a)
  | XArray d => inr (arr (da_values d))
  | _ => inl (IndexError "too many indices for array")
  end.

(** The coordinate part of one round of the loop of [_join_files]. *)
Definition join_coords_step (wrfnc : Source) (varname : string) (is_moving : bool)
    (latname lonname timename : option string) (file_idx numtimes : nat)
    (time_coord : ndarray) (ag : Aggregates) : result (ndarray * Aggregates) :=
  file_times ← extract_times (Single wrfnc) None "cat" false false;
  ft ← times_array file_times;
  time_coord ← setitem_file_slice time_coord file_idx numtimes ft;
  xt ←
    match timename, outxtimes ag with
    | Some tn, Some out =>
        if timecached ag then inr (Some out) else
        xtimedata ← vdata <$> getvar wrfnc tn;
        Some <$> setitem_file_slice out file_idx numtimes xtimedata
    | _, o => inr o
    end;
  if negb is_moving then
    inr (time_coord,
         {| outxtimes := xt; outlats := outlats ag; outlons := outlons ag;
            outprojs := outprojs ag; timecached := timecached ag;
            latcached := latcached ag; loncached := loncached ag;
            projcached := projcached ag |})
  else
    la ←
      match latname, outlats ag with
      | Some n, Some out =>
          if latcached ag then inr (Some out) else
          latdata ← vdata <$> getvar wrfnc n;
          Some <$> setitem_file_rows out file_idx numtimes latdata
      | _, o => inr o
      end;
    lo ←
      match lonname, outlons ag with
      | Some n, Some out =>
          if loncached ag then inr (Some out) else
          londata ← vdata <$> getvar wrfnc n;
          Some <$> setitem_file_rows out file_idx numtimes londata
      | _, o => inr o
      end;
    pr ←
      match outprojs ag with
      | Some out =>
          if projcached ag then inr (Some out) else
          '(lats, lons) ← get_proj_params wrfnc None varname;
          projs ← projs_per_time lats lons;
          Some <$> setitem_file_slice out file_idx numtimes (NdArray [length projs] projs)
      | None => inr None
      end;
    inr (time_coord,
         {| outxtimes := xt; outlats := la; outlons := lo; outprojs := pr;
            timecached := timecached ag; latcached := latcached ag;
            loncached := loncached ag; projcached := projcached ag |}).

(** The state the loop of [_join_files] carries from file to file. *)
Record JoinState : Type := {
  j_outdata : ndarray;
  j_less_than_max : bool;
  j_time_coord : ndarray;
  j_aggregates : Aggregates
}.

(** The [while True] loop of [_join_files] over the files after the
    first. *)
Fixpoint join_loop (wrf_iter : list Source) (varname : string)
    (multitime with_meta is_moving : bool)
    (latname lonname timename : option string) (maxtimes file_idx : nat)
    (st : JoinState) : result JoinState :=
  match wrf_iter with
  | [] => inr st
  | wrfnc :: wrf_iter' =>
      numtimes ← extract_dim (Single wrfnc) "Time";
      let less := if decide (numtimes < maxtimes) then true else j_less_than_max st in
      outvar ← vdata <$> getvar wrfnc varname;
      outvar ← (if negb multitime then newaxis outvar else inr outvar);
      outdata ← setitem_file_rows (j_outdata st) file_idx numtimes outvar;
      '(time_coord, ag) ←
        (if with_meta
         then join_coords_step wrfnc varname is_moving latname lonname timename
                file_idx numtimes (j_time_coord st) (j_aggregates st)
         else inr (j_time_coord st, j_aggregates st));
      join_loop wrf_iter' varname multitime with_meta is_moving
        latname lonname timename maxtimes (S file_idx)
        {| j_outdata := outdata; j_less_than_max := less;
           j_time_coord := time_coord; j_aggregates := ag |}
  end.

(** The aggregates of [_join_files] before its loop. *)
Definition join_first_coords (first_var : DataArray) (is_moving : bool)
    (outdims : list nat) (file_idx numtimes : nat)
    (latname lonname timename : option string) (_key : option Key)
  : M Aggregates :=
  let timekey := suffix_key timename "_join" in
  let latkey := suffix_key latname "_join" in
  let lonkey := suffix_key lonname "_join" in
  let outcoorddims := take 2 outdims ++ last2 outdims in
  '(xt, tc) ←
    match timename, timekey with
    | Some tn, Some tk =>
        '(v, c) ← cached_or_new _key tk as_arr
          (vals ← coord_values (da_coords first_var) tn;
           setitem_file_slice (np_full (take 2 outdims) DEFAULT_FILL)
             file_idx numtimes vals);
        mret (Some v, c)
    | _, _ => mret (None, false)
    end;
  if negb is_moving then
    mret {| outxtimes := xt; outlats := None; outlons := None; outprojs := None;
            timecached := tc; latcached := false; loncached := false;
            projcached := false |}
  else
    let grid (name key : option string) : M (option ndarray * bool) :=
      match name, key with
      | Some n, Some k =>
          '(v, c) ← cached_or_new _key k as_arr
            (vals ← coord_values (da_coords first_var) n;
             setitem_file_rows (np_full outcoorddims DEFAULT_FILL)
               file_idx numtimes vals);
          mret (Some v, c)
      | _, _ => mret (None, false)
      end in
    '(la, lac) ← grid latname latkey;
    '(lo, loc) ← grid lonname lonkey;
    '(pr, prc) ← cached_or_new _key "projection_join" as_projs
      (vals ← projection_values (da_attrs first_var);
       setitem_file_slice (np_full (take 2 outdims) NullProjection)
         file_idx numtimes vals);
    mret {| outxtimes := xt; outlats := la; outlons := lo; outprojs := Some pr;
            timecached := tc; latcached := lac; loncached := loc;
            projcached := prc |}.

(** [a[:, time_idx_or_slice]] then, for one time, [[:, np.newaxis]]. *)
Definition slice_time {A} (a : array A) (timeidx : option Z) : result (array A) :=
  match timeidx with
  | None => if decide (ndim a < 2) then inl (IndexError "too many indices for array")
            else inr a
  | Some t => d ← select_axis1 a t; insert_axis1 d
  end.

(** [a[:, time_idx_or_slice, :]] then, for one time, [[:, np.newaxis, :]]. *)
Definition slice_time_rows {A} (a : array A) (timeidx : option Z) : result (array A) :=
  match timeidx with
  | None => if decide (ndim a < 3) then inl (IndexError "too many indices for array")
            else inr a
  | Some t => d ← select_axis1_rows a t; insert_axis1_rows d
  end.

Definition is_masked (a : marray) : bool :=
  match mask a with Some _ => true | None => false end.

(** The metadata [_join_files] attaches to its result. *)
Definition join_metadata (first_var : DataArray) (numfiles : nat)
    (timeidx : option Z) (is_moving : bool)
    (latname lonname timename : option string)
    (time_coord : ndarray) (ag : Aggregates) (outdata : marray)
  : result DataArray :=
  let outdimnames := "file" :: da_dims first_var in
  let outcoords :=
    odict_set "file" (Coord [] (NdArray [numfiles] (Z.of_nat <$> seq 0 numfiles)))
      (da_coords first_var) in
  outcoords ← odict_del "Time" outcoords;
  time_coord ← slice_time time_coord timeidx;
  let outcoords := odict_set "datetime" (Coord (take 2 outdimnames) time_coord) outcoords in
  let outattrs :=
    if is_masked outdata then
      {| a_coordinates := a_coordinates (da_attrs first_var);
         a_stagger := a_stagger (da_attrs first_var);
         a_projection := a_projection (da_attrs first_var);
         a_FillValue := Some DEFAULT_FILL;
         a_missing_value := Some DEFAULT_FILL |}
    else da_attrs first_var in
  outcoords ←
    match timename, outxtimes ag with
    | Some tn, Some xt =>
        xt ← slice_time xt timeidx;
        inr (odict_set tn (Coord (take 2 outdimnames) xt) outcoords)
    | _, _ => inr outcoords
    end;
  '(outcoords, outattrs) ←
    (if negb is_moving then inr (outcoords, outattrs) else
     let outlatdims := take 2 outdimnames ++ last2 outdimnames in
     c1 ← match latname, outlats ag with
          | Some n, Some v =>
              v ← slice_time_rows v timeidx;
              inr (odict_set n (Coord outlatdims v) outcoords)
          | _, _ => inr outcoords
          end;
     c2 ← match lonname, outlons ag with
          | Some n, Some v =>
              v ← slice_time_rows v timeidx;
              inr (odict_set n (Coord outlatdims v) c1)
          | _, _ => inr c1
          end;
     pr ← match outprojs ag, timeidx with
          | Some p, Some t => Some ∘ ProjArray <$> select_axis1 p t
          | Some p, None => inr (Some (ProjArray p))
          | None, Some _ => inl (TypeError "'NoneType' object is not subscriptable")
          | None, None => inr None
          end;
     inr (c2, with_projection outattrs pr));
  outdata ← match timeidx with
            | Some t => ma_select_time outdata t
            | None => inr outdata
            end;
  mkDataArray outdata (da_name first_var) outcoords outdimnames outattrs.

Definition _join_files (wrfseq : Collection) (varname : string)
    (timeidx : option Z) (is_moving : option bool) (meta : bool)
    (_key : option Key) : M pyarray :=
  is_moving ←
    match is_moving with
    | None => is_moving_domain wrfseq (Some varname) default_latvar default_lonvar _key
    | Some b => mret b
    end;
  let multitime := is_multi_time_req timeidx in
  files ← lift (iter_files wrfseq);
  let numfiles := _get_numfiles files in
  maxtimes ← lift (_find_max_time_size files);
  let file_idx := 0 in
  '(wrfnc, wrf_iter) ← lift (next files);
  numtimes ← lift (extract_dim (Single wrfnc) "Time");
  '(first_var, time_coord) ←
    (if xarray_enabled && meta then
       fv ← _build_data_array wrfnc varname None is_moving true _key;
       tc ← lift (times ← coord_values (da_coords fv) "Time";
                  setitem_file_slice (np_full [numfiles; maxtimes] NaT)
                    file_idx numtimes times);
       mret (XArray fv, tc)
     else
       v ← lift (vdata <$> getvar wrfnc varname);
       mret (PlainArray (plain v), np_full [numfiles; maxtimes] NaT));
  (* [first_var.dtype]: the element type of the variable in the first file
     (the builder hands the values on as they are).  [np.full] pads with the
     sentinel as that type holds it; where the type cannot hold it, every
     pad cell is overwritten below or the masking fails. *)
  dtype ← lift (vdtype <$> getvar wrfnc varname);
  let file_times_less_than_max := bool_decide (numtimes < maxtimes) in
  first_data ← lift (arr <$> values_of first_var);
  let outdims := numfiles :: maxtimes :: tail (shape first_data) in
  let outdata := np_full outdims DEFAULT_FILL in
  outdata ← lift (setitem_file_rows outdata file_idx numtimes first_data);
  match first_var with
  | XArray fv =>
      let '(latname, lonname, timename) := _find_coord_names (da_coords fv) in
      ag ← join_first_coords fv is_moving outdims file_idx numtimes
             latname lonname timename _key;
      st ← lift (join_loop wrf_iter varname multitime true is_moving
                   latname lonname timename maxtimes 1
                   {| j_outdata := outdata;
                      j_less_than_max := file_times_less_than_max;
                      j_time_coord := time_coord; j_aggregates := ag |});
      outdata ← lift (if j_less_than_max st
                      then masked_values dtype (j_outdata st) DEFAULT_FILL
                      else inr (plain (j_outdata st)));
      cache_aggregates _key (suffix_key latname "_join") (suffix_key lonname "_join")
        (if is_moving then Some "projection_join" else None)
        (suffix_key timename "_join") (j_aggregates st);;
      XArray <$> lift (join_metadata fv numfiles timeidx is_moving
                         latname lonname timename (j_time_coord st)
                         (j_aggregates st) outdata)
  | _ =>
      st ← lift (join_loop wrf_iter varname multitime false is_moving
                   None None None maxtimes 1
                   {| j_outdata := outdata;
                      j_less_than_max := file_times_less_than_max;
                      j_time_coord := time_coord; j_aggregates := no_aggregates |});
      outdata ← lift (if j_less_than_max st
                      then masked_values dtype (j_outdata st) DEFAULT_FILL
                      else inr (plain (j_outdata st)));
      PlainArray <$> lift (match timeidx with
                           | Some t => ma_select_time outdata t
                           | None => inr outdata
                           end)
  end.

(** ** The dict combiner and the facade *)

(** [out[idx, :] = v]. *)
Definition setitem_index {A} (out : array A) (idx : nat) (v : array A)
  : result (array A) :=
  match shape out with
  | k :: ((_ :: _) as s) =>
      if decide (k ≤ idx) then inl (IndexError "index out of bounds for axis 0")
      else
        match broadcast_to (shape v) (cells v) s with
        | None => inl broadcast_error
        | Some w =>
            inr (NdArray (shape out)
                   (take (idx * nd_size s) (cells out) ++ w
                    ++ drop (idx * nd_size s + nd_size s) (cells out)))
        end
  | _ => inl (IndexError "too many indices for array")
  end.

Definition size_mismatch : error :=
  ValueError "data sequences must have the same size for all dictionary keys".

(** The names [key_0], [key_1], ... that are dimensions of the first array
    already, in order, up to the first one that is not. *)
Fixpoint existing_keys (dims : list string) (fuel cnt : nat) : list string :=
  match fuel with
  | 0 => []
  | S fuel' =>
      let key_coord_name := "key_" +:+ pretty cnt in
      if bool_decide (key_coord_name ∈ dims)
      then key_coord_name :: existing_keys dims fuel' (S cnt)
      else []
  end.

(** The metadata [_combine_dict] attaches: the new key axis is [key_0],
    the key axes of nested dictionaries move one place to the right. *)
Definition dict_metadata (first_array : pyarray) (keynames : list string)
    (outdata : ndarray) : result DataArray :=
  match first_array with
  | XArray fa =>
      let existing := existing_keys (da_dims fa) (S (length (da_dims fa))) 0 in
      let existing_cnt := length existing in
      coord_vals ← mapM (λ name, from_option (KeyError name) (assoc name (da_coords fa)))
                     existing;
      let key_coordnames := existing ++ ["key_" +:+ pretty existing_cnt] in
      let coord_vals := KeyCoord keynames :: coord_vals in
      let outdims := key_coordnames ++ drop existing_cnt (da_dims fa) in
      let outcoords :=
        foldl (λ acc p, odict_set p.1 p.2 acc) (da_coords fa)
          (zip key_coordnames coord_vals) in
      mkDataArray (plain outdata) (da_name fa) outcoords outdims (da_attrs fa)
  | _ => inl (AttributeError "name")
  end.

(** The [while True] loop of [_combine_dict] over the keys after the first;
    [extract] is [_extract_var] with the arguments the loop gives it. *)
Definition dict_loop (extract : Collection → option Key → M pyarray)
    (_key : option Key)
  : list (string * Collection) → nat → ndarray → M ndarray :=
  fix loop key_iter idx outdata :=
    match key_iter with
    | [] => mret outdata
    | (key, entry) :: key_iter' =>
        k ← lift (key_getitem _key key);
        vardata ← extract entry (Some k);
        v ← lift (values_of vardata);
        if bool_decide (tail (shape outdata) ≠ shape (arr v))
        then raise size_mismatch
        else
          v' ← lift (values_of (npvalues vardata));
          outdata ← lift (setitem_index outdata idx (arr v'));
          loop key_iter' (S idx) outdata
    end.

(** [_combine_dict] over [_extract_var]; a dictionary is walked in the order
    of its keys, [wrfdict[key]] is the entry listed with the key. *)
Definition combine_dict_with (extract : bool → Collection → option Key → M pyarray)
    (wrfdict : list (string * Collection)) (varname : string) (meta : bool)
    (_key : option Key) : M pyarray :=
  let numkeys := length wrfdict in
  match wrfdict with
  | [] => raise StopIteration
  | (first_key, first_entry) :: key_iter =>
      is_moving ← is_moving_domain (Mapping wrfdict) (Some varname)
                    default_latvar default_lonvar _key;
      k ← lift (key_getitem _key first_key);
      first_array ← extract is_moving first_entry (Some k);
      fa ← lift (values_of first_array);
      let outdims := numkeys :: shape (arr fa) in
      let outdata := np_empty outdims in
      outdata ← lift (setitem_index outdata 0 (arr fa));
      outdata ← dict_loop (extract is_moving) _key key_iter 1 outdata;
      if xarray_enabled && meta then
        XArray <$> lift (dict_metadata first_array (wrfdict.*1) outdata)
      else mret (PlainArray (plain outdata))
  end.

(** The cache of variables that were extracted before. *)
Abbreviation VarCache := (option (gmap string pyarray)).

Definition squeeze_if (squeeze_req : bool) (x : pyarray) : result pyarray :=
  if squeeze_req then squeeze x else inr x.

Definition invalid_method : error := ValueError "method must be 'cat' or 'join'".

(** [_extract_var] and, through it, [combine_files] and [_combine_dict]. *)
Fixpoint _extract_var (wrfnc : Collection) (varname : string)
    (timeidx : option Z) (is_moving : option bool) (method : string)
    (squeeze : bool) (cache : VarCache) (meta : bool) (_key : option Key)
    {struct wrfnc} : M pyarray :=
  match cache ≫= (.!! varname) with
  | Some cache_var => mret (if negb meta then npvalues cache_var else cache_var)
  | None =>
      let multitime := is_multi_time_req timeidx in
      if is_time_coord_var varname then
        lift (extract_times wrfnc timeidx method meta true)
      else
        match wrfnc with
        | Single s =>
            result ←
              (if xarray_enabled && meta then
                 is_moving ←
                   match is_moving with
                   | None => is_moving_domain wrfnc (Some varname)
                               default_latvar default_lonvar _key
                   | Some b => mret b
                   end;
                 XArray <$> _build_data_array s varname timeidx is_moving false _key
               else
                 lift (var ← getvar s varname;
                       match timeidx with
                       | Some t =>
                           result ← getitem_row (vdata var) t;
                           PlainArray ∘ plain <$> newaxis result
                       | None => inr (PlainArray (plain (vdata var)))
                       end));
            lift (squeeze_if squeeze result)
        | Seq _ =>
            outarr ←
              (if decide (str_lower method = "cat") then
                 _cat_files wrfnc varname timeidx is_moving squeeze meta _key
               else if decide (str_lower method = "join") then
                 _join_files wrfnc varname timeidx is_moving meta _key
               else raise invalid_method);
            lift (squeeze_if squeeze outarr)
        | Mapping wrfdict =>
            outarr ←
              combine_dict_with
                (λ is_moving entry key,
                   _extract_var entry varname timeidx (Some is_moving) method
                     false None meta key)
                wrfdict varname meta _key;
            lift (squeeze_if squeeze outarr)
        end
  end.

Definition _combine_dict (wrfdict : list (string * Collection)) (varname : string)
    (timeidx : option Z) (method : string) (meta : bool) (_key : option Key)
  : M pyarray :=
  combine_dict_with
    (λ is_moving entry key,
       _extract_var entry varname timeidx (Some is_moving) method false None meta key)
    wrfdict varname meta _key.

(** [combine_files] on an input that [get_iterable] hands back as it is (a
    file, a list or tuple of files, a dictionary). *)
Definition combine_files (wrfseq : Collection) (varname : string)
    (timeidx : option Z) (is_moving : option bool) (method : string)
    (squeeze : bool) (meta : bool) (_key : option Key) : M pyarray :=
  outarr ←
    match wrfseq with
    | Mapping wrfdict => _combine_dict wrfdict varname timeidx method meta _key
    | _ =>
        if decide (str_lower method = "cat") then
          _cat_files wrfseq varname timeidx is_moving squeeze meta _key
        else if decide (str_lower method = "join") then
          _join_files wrfseq varname timeidx is_moving meta _key
        else raise invalid_method
    end;
  lift (squeeze_if squeeze outarr).

End Engine.

(** ** The sequence normaliser *)

Module Normalizer.

(** The values of local variables of a generator frame. *)
Inductive pyval : Type :=
  | VInt (z : Z)
  | VList (l : list Z).

Section Items.

(** The items of a sequence (files, or anything else). *)
Context {A : Type}.

(** A generator function: its parameters, and the items a call with the
    given keyword arguments yields. *)
Record GenFunc : Type := {
  gf_params : list string;
  gf_body : list (string * pyval) → list A
}.

(** The frame of a generator: its local variables, and the name of the
    module [inspect.getmodule] finds for it (none for code typed into an
    interpreter or a notebook). *)
Record Frame : Type := {
  f_locals : list (string * pyval);
  f_module : option string
}.

(** A generator object: the name of its function, its frame (gone once the
    generator has finished), and the items it has yet to yield. *)
Record Generator : Type := {
  gen_name : string;
  gi_frame : option Frame;
  gen_rest : list A
}.

(** A module is the namespace of the generator functions it defines. *)
Record PyEnv : Type := {
  sys_modules : gmap string (gmap string GenFunc);
  main_module : gmap string GenFunc
}.

(** A call of a generator function defined in module [m] with keyword
    arguments only. *)
Definition call_genfunc (name : string) (m : option string) (f : GenFunc)
    (kwargs : list (string * pyval)) : result Generator :=
  if bool_decide (kwargs.*1 ⊆ gf_params f ∧ gf_params f ⊆ kwargs.*1)
  then inr {| gen_name := name;
              gi_frame := Some {| f_locals := kwargs; f_module := m |};
              gen_rest := gf_body f kwargs |}
  else inl (TypeError "got an unexpected keyword argument").

Definition _generator_copy (env : PyEnv) (gen : Generator) : result Generator :=
  let funcname := gen_name gen in
  frame ← from_option (AttributeError "f_code") (gi_frame gen);
  let argvals_locals := f_locals frame in
  match f_module frame with
  | Some m =>
      module ← from_option (KeyError m) (sys_modules env !! m);
      (* module.get(funcname), then a call with the locals as keywords *)
      match module !! "get" with
      | None => inl (AttributeError "get")
      | Some _ => inl (TypeError "'generator' object is not callable")
      end
  | None =>
      f ← from_option (AttributeError funcname) (main_module env !! funcname);
      call_genfunc funcname None f argvals_locals
  end.

(** An object of a custom iterable class that is its own iterator, such as
    [TestGen]: its fields, and its [next]. *)
Record CustomIter : Type := {
  ci_fields : Type;
  ci_self : ci_fields;
  ci_next : ci_fields → option (A * ci_fields)
}.

(** [list(it)] for such an iterator: [next] until [StopIteration], at most
    [fuel] times. *)
Fixpoint drain {S} (next : S → option (A * S)) (fuel : nat) (self : S) : list A :=
  match fuel with
  | 0 => []
  | S fuel' =>
      match next self with
      | None => []
      | Some (val, self') => val :: drain next fuel' self'
      end
  end.

(** What [get_iterable] is given. *)
Inductive pyseq : Type :=
  | OneFile (x : A)
  | ListOrTuple (l : list A)
  | IterWrapper (wrapped : pyseq)
  | GeneratorObj (g : Generator)
  | CustomObj (o : CustomIter)
  | Dict (d : list (string * A))
  | OtherMapping (d : list (string * A)).

Definition is_multi_file (wrfseq : pyseq) : bool :=
  match wrfseq with OneFile _ => false | _ => true end.

Definition is_mapping (wrfseq : pyseq) : bool :=
  match wrfseq with Dict _ | OtherMapping _ => true | _ => false end.

Definition get_iterable (wrfseq : pyseq) : pyseq :=
  if negb (is_multi_file wrfseq) then wrfseq
  else if negb (is_mapping wrfseq) then
    match wrfseq with
    | ListOrTuple _ | IterWrapper _ => wrfseq
    | _ => IterWrapper wrfseq
    end
  else
    match wrfseq with
    | Dict _ => wrfseq
    | OtherMapping d => Dict d
    | _ => wrfseq
    end.

(** [list(iter(x))]: the items one full pass over [x] yields.  A pass over
    a generator or over a custom iterator uses it up; here the object is a
    value, so what a second pass over the same object would see is not
    shown by this function, only what [IterWrapper.__iter__] hands out. *)
Fixpoint items (env : PyEnv) (fuel : nat) (x : pyseq) : result (list A) :=
  match x with
  | OneFile _ => inl (TypeError "object is not iterable")
  | ListOrTuple l => inr l
  | GeneratorObj g => inr (gen_rest g)
  | CustomObj o => inr (drain (ci_next o) fuel (ci_self o))
  | Dict d | OtherMapping d => inl (TypeError "mapping keys are not files")
  | IterWrapper wrapped =>
      match wrapped with
      | GeneratorObj g => gen_rest <$> _generator_copy env g
      | CustomObj o =>
          (* obj_copy = copy(self._wrapped); obj_copy.__iter__() *)
          let obj_copy := {| ci_fields := ci_fields o; ci_self := ci_self o;
                             ci_next := ci_next o |} in
          inr (drain (ci_next obj_copy) fuel (ci_self obj_copy))
      | _ => items env fuel wrapped
      end
  end.

End Items.

Global Arguments GenFunc : clear implicits.
Global Arguments Generator : clear implicits.
Global Arguments PyEnv : clear implicits.
Global Arguments CustomIter : clear implicits.
Global Arguments pyseq : clear implicits.

(** The generator function [test] and the class [TestGen] of [wrf.util]. *)
Definition test : GenFunc Z :=
  {| gf_params := []; gf_body := λ _, [1; 2; 3]%Z |}.

Record TestGen : Type := { _total : nat; _i : nat }.

Definition TestGen_init (count : nat) : TestGen := {| _total := count; _i := 0 |}.

Definition TestGen_next (self : TestGen) : option (Z * TestGen) :=
  if decide (_total self ≤ _i self) then None
  else Some (Z.of_nat (_i self), {| _total := _total self; _i := _i self + 1 |}).

Definition TestGen_obj (self : TestGen) : CustomIter Z :=
  {| ci_fields := TestGen; ci_self := self; ci_next := TestGen_next |}.

(** An interpreter that has imported [wrf.util]. *)
Definition util_env : PyEnv Z :=
  {| sys_modules := {[ "wrf.util" := {[ "test" := test ]} ]};
     main_module := ∅ |}.

(** The generator [test()] made by a call from that module. *)
Definition test_call : result (Generator Z) :=
  call_genfunc "test" (Some "wrf.util") test [].

End Normalizer.

(** ** Further helpers of [wrf.util] *)

(** [latlon_coordvars(d)]: the first latitude name and the first longitude
    name that are keys of [d]. *)
Definition latlon_coordvars {A} (d : gmap string A) : option string * option string :=
  let first_in (names : list string) :=
    snd <$> list_find (λ name, is_Some (d !! name)) names in
  (first_in _LAT_COORDS, first_in _LON_COORDS).

(** [var in wrfnc.variables] for the (first) file. *)
Fixpoint is_standard_wrf_var (wrfnc : Collection) (var : string) : result bool :=
  match wrfnc with
  | Single s => inr (bool_decide (is_Some (variables s !! var)))
  | Seq l => '(s, _) ← next l; inr (bool_decide (is_Some (variables s !! var)))
  | Mapping d =>
      match d with
      | [] => inl StopIteration
      | (_, entry) :: _ => is_standard_wrf_var entry var
      end
  end.

(** [shape[-i]] for [i >= 1]. *)
Definition shape_m {A} (a : array A) (i : nat) : result nat :=
  from_option (IndexError "tuple index out of range")
    (if decide (ndim a < i) then None else shape a !! (ndim a - i)).

Definition is_staggered {A} (var : array A) (wrfnc : Collection) : result bool :=
  we ← extract_dim wrfnc "west_east";
  sn ← extract_dim wrfnc "south_north";
  bt ← extract_dim wrfnc "bottom_top";
  s1 ← shape_m var 1;
  if bool_decide (s1 ≠ we) then inr true else
  s2 ← shape_m var 2;
  if bool_decide (s2 ≠ sn) then inr true else
  s3 ← shape_m var 3;
  if bool_decide (s3 ≠ bt) then inr true else inr false.

(** [get_left_indexes(ref_var, expected_dims)]: the sizes of the axes on
    the left of the expected ones (a list when there are none, a tuple
    otherwise; both are lists here). *)
Definition get_left_indexes {A} (ref_var : array A) (expected_dims : Z)
  : result (list nat) :=
  let extra_dim_num := (Z.of_nat (ndim ref_var) - expected_dims)%Z in
  if decide (extra_dim_num = 0)%Z then inr []
  else mapM (λ x, from_option (IndexError "tuple index out of range")
                    (shape ref_var !! x))
            (seq 0 (Z.to_nat extra_dim_num)).

(** [itertools.product] of the lists: the right-most item advances first. *)
Fixpoint product {A} (args : list (list A)) : list (list A) :=
  match args with
  | [] => [[]]
  | a :: args' => x ← a; (x ::.) <$> product args'
  end.

(** The index tuples [iter_left_indexes(dims)] yields, in order. *)
Definition iter_left_indexes (dims : list nat) : list (list nat) :=
  let arg := seq 0 <$> dims in
  product arg.

(** An item of an index: an integer or the full slice [slice(None)]. *)
Inductive index_item : Type :=
  | Idx (i : Z)
  | SliceAll.

Definition get_right_slices {A} (var : array A) (right_ndims : nat) (fixed_val : Z)
  : list index_item :=
  let extra_dim_num := (Z.of_nat (ndim var) - Z.of_nat right_ndims)%Z in
  if decide (extra_dim_num = 0)%Z then replicate right_ndims SliceAll
  else replicate (Z.to_nat extra_dim_num) (Idx fixed_val)
       ++ replicate right_ndims SliceAll.

(** [l.remove(x)] and [l.index(x)] on a Python list. *)
Fixpoint list_remove (x : string) (l : list string) : result (list string) :=
  match l with
  | [] => inl (ValueError "list.remove(x): x not in list")
  | y :: l' => if decide (y = x) then inr l' else (y ::.) <$> list_remove x l'
  end.

Fixpoint list_index (x : string) (l : list string) : result nat :=
  match l with
  | [] => inl (ValueError "is not in list")
  | y :: l' => if decide (y = x) then inr 0 else S <$> list_index x l'
  end.

(** [d.update(new)] on an ordered dictionary. *)
Definition odict_update {A} (new d : list (string * A)) : list (string * A) :=
  foldl (λ acc p, odict_set p.1 p.2 acc) d new.

(** An object of the class [combine_with] as [__init__] leaves it: the
    new dimension names and the new coordinates are never [None]. *)
Record combine_with : Type := {
  cw_varname : string;
  cw_remove_dims : option (list string);
  cw_insert_before : option string;
  cw_new_dimnames : list string;
  cw_new_coords : list (string * coord)
}.

(** The loop of [combine_with.__call__] over the dimensions to remove. *)
Fixpoint remove_loop (dims new_dims : list string) (new_coords : list (string * coord))
  : result (list string * list (string * coord)) :=
  match dims with
  | [] => inr (new_dims, new_coords)
  | dim :: dims' =>
      new_dims ← list_remove dim new_dims;
      new_coords ← odict_del dim new_coords;
      remove_loop dims' new_dims new_coords
  end.

Definition combine_with_call (self : combine_with) (var : DataArray)
  : result (list string * list (string * coord)) :=
  let new_dims := da_dims var in
  let new_coords := da_coords var in
  '(new_dims, new_coords) ←
    match cw_remove_dims self with
    | Some dims => remove_loop dims new_dims new_coords
    | None => inr (new_dims, new_coords)
    end;
  new_dims ←
    match cw_insert_before self with
    | Some before =>
        insert_idx ← list_index before new_dims;
        inr (take insert_idx new_dims ++ cw_new_dimnames self
             ++ drop insert_idx new_dims)
    | None => inr (cw_new_dimnames self)
    end;
  inr (new_dims, odict_update (cw_new_coords self) new_coords).

(** ** Arguments of a wrapped function *)

Section Args.

(** Python values, with [None] among them. *)
Context {V : Type} (none : V).

(** What [getargspec(func)] answers: the names of the parameters and the
    default values of the last of them ([None] when there is none). *)
Record ArgSpec : Type := {
  as_args : list string;
  as_defaults : option (list V)
}.

(** [for i, default in enumerate(defaults[::-1], 1): outargs[-i] = default]. *)
Fixpoint fill_defaults (outargs : list V) (i : nat) (defaults : list V)
  : result (list V) :=
  match defaults with
  | [] => inr outargs
  | default :: defaults' =>
      if decide (length outargs < i)
      then inl (IndexError "list assignment index out of range")
      else fill_defaults (<[length outargs - i := default]> outargs) (S i) defaults'
  end.

(** [for i, arg in enumerate(args): outargs[i] = arg]. *)
Fixpoint fill_args (outargs : list V) (i : nat) (args : list V) : result (list V) :=
  match args with
  | [] => inr outargs
  | arg :: args' =>
      if decide (length outargs ≤ i)
      then inl (IndexError "list assignment index out of range")
      else fill_args (<[i := arg]> outargs) (S i) args'
  end.

(** [for argname, val in viewitems(kwargs): ...]. *)
Fixpoint fill_kwargs (names : list string) (outargs : list V)
    (kwargs : list (string * V)) : result (list V) :=
  match kwargs with
  | [] => inr outargs
  | (argname, val) :: kwargs' =>
      argidx ← list_index argname names;
      fill_kwargs names (<[argidx := val]> outargs) kwargs'
  end.

Definition _args_to_list2 (argspec : ArgSpec) (args : list V)
    (kwargs : list (string * V)) : result (list V) :=
  let outargs := replicate (length (as_args argspec)) none in
  outargs ←
    match as_defaults argspec with
    | Some defaults => fill_defaults outargs 1 (reverse defaults)
    | None => inr outargs
    end;
  outargs ← fill_args outargs 0 args;
  fill_kwargs (as_args argspec) outargs kwargs.

Definition _arg_location2 (argspec : ArgSpec) (argname : string) (args : list V)
    (kwargs : list (string * V)) : result (option (list V * nat)) :=
  list_args ← _args_to_list2 argspec args kwargs;
  if bool_decide ((argname ∉ as_args argspec) ∧ (argname ∉ kwargs.*1)) then inr None
  else
    result_idx ← list_index argname (as_args argspec);
    inr (Some (list_args, result_idx)).

(** The Python 3 variant goes through [inspect.signature], which is not
    among the sources: it is a parameter. *)
Variable _arg_location3 :
  ArgSpec → string → list V → list (string * V) → result (option (list V * nat)).

Definition arg_location (py3 : bool) (func : ArgSpec) (argname : string)
    (args : list V) (kwargs : list (string * V))
  : result (option (list V * nat)) :=
  if py3 then _arg_location3 func argname args kwargs
  else _arg_location2 func argname args kwargs.

(** [from_args] for a list of names: the dictionary it builds, in the
    order of the names. *)
Definition from_args (py3 : bool) (func : ArgSpec) (arglist : list string)
    (args : list V) (kwargs : list (string * V)) : result (list (string * V)) :=
  mapM (λ argname,
          arg_loc ← arg_location py3 func argname args kwargs;
          match arg_loc with
          | Some (list_args, idx) =>
              v ← from_option (IndexError "list index out of range") (list_args !! idx);
              inr (argname, v)
          | None => inr (argname, none)
          end) arglist.

End Args.

Global Arguments ArgSpec : clear implicits.

(** ** Cache tokens *)

Section GetId.

(** Python's [id], on the objects that are not mappings. *)
Variable id : Collection → nat.

Fixpoint get_id (seq : Collection) : Key :=
  match seq with
  | Mapping d => KMap ((λ p, (p.1, get_id p.2)) <$> d)
  | _ => KId (id seq)
  end.

End GetId.

(** ** Several variables at once *)


(** ** Sample inputs *)

(** A file with [n] times on a 2 x 2 grid: a field [T] whose cells count up
    from [base], latitude and longitude grids whose corner points follow
    [corner] (a function of the time), and the time stamps. *)
Definition sample_field (n : nat) (base : Z) : NcVar :=
  {| vdimensions := ["Time"; "south_north"; "west_east"];
     coordinates := Some ["XLONG"; "XLAT"];
     stagger := None;
     vdtype := Floating;
     vdata := NdArray [n; 2; 2] ((λ i, base + Z.of_nat i)%Z <$> seq 0 (n * 4)) |}.

Definition sample_grid (n : nat) (corner : nat → Z) : NcVar :=
  {| vdimensions := ["Time"; "south_north"; "west_east"];
     coordinates := None;
     stagger := None;
     vdtype := Floating;
     vdata := NdArray [n; 2; 2]
                (concat ((λ t, [corner t; corner t + 1; corner t + 2; corner t + 3]%Z)
                         <$> seq 0 n)) |}.

(** The time stamp of minute [k] of the first day of the year 2000. *)
Definition sample_stamp (k : nat) : list Z :=
  let two (n : nat) : list Z := [48 + Z.of_nat (n / 10); 48 + Z.of_nat (n mod 10)]%Z in
  char_codes "2000-01-01_" ++ two (k / 60 mod 24) ++ char_codes ":" ++ two (k mod 60)
  ++ char_codes ":00".

(** [n] time stamps, a minute apart, from minute [base] on. *)
Definition sample_times (n : nat) (base : Z) : NcVar :=
  {| vdimensions := ["Time"; "DateStrLen"];
     coordinates := None;
     stagger := None;
     vdtype := Character;
     vdata := NdArray [n; 19]
                (concat ((λ i, sample_stamp (Z.to_nat base + i)) <$> seq 0 n)) |}.

Definition sample_file (n : nat) (base : Z) (corner : nat → Z) : Source :=
  {| variables :=
       {[ "T" := sample_field n base;
          "XLAT" := sample_grid n corner;
          "XLONG" := sample_grid n (λ t, corner t + 100)%Z;
          "Times" := sample_times n base ]};
     dimensions := {[ "Time" := n ]} |}.

(** Three files of 3, 2 and 4 times on one fixed grid. *)
Definition file3 : Source := sample_file 3 0 (λ _, 50%Z).
Definition file2 : Source := sample_file 2 100 (λ _, 50%Z).
Definition file4 : Source := sample_file 4 200 (λ _, 50%Z).
Definition sample_files : list Source := [file3; file2; file4].

(** * Properties *)

(** ** Vocabulary of the statements *)

(** The files of a sequence have the time extents [exts], in order. *)
Definition time_extents (wrfseq : list Source) (exts : list nat) : Prop :=
  Forall2 (λ s n, dimensions s !! "Time" = Some n) wrfseq exts.

(** The number of times in the first [i] files. *)
Definition cumulative (exts : list nat) (i : nat) : Z :=
  Z.of_nat (sum_list (take i exts)).

Definition total_times (exts : list nat) : Z := Z.of_nat (sum_list exts).

(** [i] is the first file whose cumulative range contains [t]. *)
Definition first_containing (exts : list nat) (t : Z) (i : nat) : Prop :=
  i < length exts ∧ (t < cumulative exts (S i))%Z ∧
  ∀ j, j < i → (cumulative exts (S j) ≤ t)%Z.

(** Running a computation from a given state of the cache. *)
Definition run {A} (m : M A) (c : Cache) : result A * Cache := m c.

(** The corner points of time slice [i] of a file: latitude and longitude
    of the lower left point, then of the upper right point. *)
Definition slice_corners (s : Source) (lat_coord lon_coord : string) (i : nat)
  : result ((Z * Z) * (Z * Z)) :=
  lats ← vdata <$> getvar s lat_coord;
  lons ← vdata <$> getvar s lon_coord;
  let n := ndim lats in
  a ← item lats (<[n - 3 := Z.of_nat i]> (replicate n 0%Z));
  b ← item lons (<[n - 3 := Z.of_nat i]> (replicate n 0%Z));
  c ← item lats (<[n - 3 := Z.of_nat i]> (replicate n (-1)%Z));
  d ← item lons (<[n - 3 := Z.of_nat i]> (replicate n (-1)%Z));
  inr ((a, b), (c, d)).

(** The corner points of every time slice of a file. *)
Definition all_slice_corners (s : Source) (lat_coord lon_coord : string)
  : result (list ((Z * Z) * (Z * Z))) :=
  lats ← vdata <$> getvar s lat_coord;
  n ← shape_m3 lats;
  mapM (slice_corners s lat_coord lon_coord) (seq 0 n).

(** Following the words of the specification: the domain moves as soon as
    the corner points of any time slice of any file differ from those the
    files share. *)
Definition spec_is_moving (files : list Source) (lat_coord lon_coord : string)
  : result bool :=
  css ← mapM (λ f, all_slice_corners f lat_coord lon_coord) files;
  match concat css with
  | [] => inr false
  | c0 :: cs => inr (bool_decide (Exists (λ c, c ≠ c0) cs))
  end.

(** A file whose grid drifts from one time to the next, and files on the
    grid the first one starts from and on another grid. *)
Definition drifting_file : Source := sample_file 3 0 (λ t, 50 + Z.of_nat t)%Z.
Definition steady_file : Source := sample_file 2 100 (λ _, 50%Z).
Definition shifted_file : Source := sample_file 2 100 (λ _, 60%Z).

(** The raw values of a result that is an array. *)
Definition out_values (x : pyarray) : option marray :=
  match x with
  | PlainArray a => Some a
  | XArray d => Some (da_values d)
  | _ => None
  end.

(** The shape of a result ([()] for a result that is not an array). *)
Definition out_shape (x : pyarray) : list nat :=
  match out_values x with
  | Some a => shape (arr a)
  | None => []
  end.

(** A computation followed by [.squeeze()] on what it returns. *)
Definition then_squeeze (r : result pyarray * Cache) : result pyarray * Cache :=
  (r.1 ≫= squeeze, r.2).

(** A dictionary of two entries, each one file on the same fixed grid, and
    the token that mirrors it. *)
Definition sample_dict : list (string * Collection) :=
  [("a", Single file3); ("b", Single file3)].
Definition sample_dict_key : option Key :=
  Some (KMap [("a", KId 1); ("b", KId 2)]).




(** The products [_build_data_array] stores for a coordinate grid. *)
Definition coordinate_products : list string :=
  ["XLONG_dim"; "XLONG_val"; "XLAT_dim"; "XLAT_val"].


(** A file of 2 times whose field [T] has one cell per time (shape
    (2, 1, 1)). *)
Definition unit_file : Source :=
  {| variables :=
       {[ "T" := {| vdimensions := ["Time"; "south_north"; "west_east"];
                    coordinates := Some ["XLONG"; "XLAT"]; stagger := None;
                    vdtype := Floating;
                    vdata := NdArray [2; 1; 1] [7; 8]%Z |};
          "XLAT" := sample_grid 2 (λ _, 50%Z);
          "XLONG" := sample_grid 2 (λ _, 150%Z);
          "Times" := sample_times 2 100 ]};
     dimensions := {[ "Time" := 2 ]} |}.

(** A file of 2 times whose field [T] has three cells per row (shape
    (2, 2, 3)). *)
Definition wide_file : Source :=
  {| variables :=
       {[ "T" := {| vdimensions := ["Time"; "south_north"; "west_east"];
                    coordinates := Some ["XLONG"; "XLAT"]; stagger := None;
                    vdtype := Floating;
                    vdata := NdArray [2; 2; 3] (Z.of_nat <$> seq 0 12) |};
          "XLAT" := sample_grid 2 (λ _, 50%Z);
          "XLONG" := sample_grid 2 (λ _, 150%Z);
          "Times" := sample_times 2 100 ]};
     dimensions := {[ "Time" := 2 ]} |}.

(** File [f] has [n] times and a field [varname] of shape [n :: s] whose
    cells are [d]. *)
Definition holds_field (varname : string) (s : list nat)
    (f : Source) (n : nat) (d : list Z) : Prop :=
  dimensions f !! "Time" = Some n ∧
  length d = n * nd_size s ∧
  ∃ var, variables f !! varname = Some var ∧ vdata var = NdArray (n :: s) d.

(** The part of the join buffer that belongs to one file: its cells, then
    fill values up to [m] times; and the mask over it. *)
Definition join_block (fill : Z) (m sz n : nat) (d : list Z) : list Z :=
  d ++ replicate ((m - n) * sz) fill.

Definition join_mask_block (t : dtype) (fill : Z) (m sz n : nat) (d : list Z)
  : list bool :=
  (masks_cell t fill <$> d) ++ replicate ((m - n) * sz) true.

(** Following the words of the specification: exactly the positions beyond
    the time extent of each file are masked. *)
Definition spec_join_mask (m sz : nat) (exts : list nat) : list bool :=
  concat ((λ n, replicate (n * sz) false ++ replicate ((m - n) * sz) true) <$> exts).

(** The default fill value of NetCDF, 9.9692099683868690e36 (15 * 2^119),
    as a value for the fill sentinel. *)
Definition NC_FILL : Z := (15 * 2 ^ 119)%Z.

(** A file of 2 times whose field holds that value in its first cell, and
    a file of 1 time. *)
Definition sentinel_file : Source :=
  {| variables :=
       {[ "T" := {| vdimensions := ["Time"; "south_north"; "west_east"];
                    coordinates := Some ["XLONG"; "XLAT"]; stagger := None;
                    vdtype := Floating;
                    vdata := NdArray [2; 1; 2] [NC_FILL; 1; 2; 3]%Z |};
          "XLAT" := sample_grid 2 (λ _, 50%Z);
          "XLONG" := sample_grid 2 (λ _, 150%Z);
          "Times" := sample_times 2 0 ]};
     dimensions := {[ "Time" := 2 ]} |}.

Definition short_file : Source :=
  {| variables :=
       {[ "T" := {| vdimensions := ["Time"; "south_north"; "west_east"];
                    coordinates := Some ["XLONG"; "XLAT"]; stagger := None;
                    vdtype := Floating;
                    vdata := NdArray [1; 1; 2] [10; 11]%Z |};
          "XLAT" := sample_grid 1 (λ _, 50%Z);
          "XLONG" := sample_grid 1 (λ _, 150%Z);
          "Times" := sample_times 1 100 ]};
     dimensions := {[ "Time" := 1 ]} |}.

(** The buffer [_join_files] builds from files of time extents [exts] and
    cells [datas], for a variable of element type [t]: one block per file,
    as many times as the longest file, and a mask when some file is shorter
    than the longest, which needs a type that can hold the sentinel. *)
Definition join_buffer (t : dtype) (fill : Z) (s : list nat) (exts : list nat)
    (datas : list (list Z)) : result marray :=
  let m := max_list exts in
  let sz := nd_size s in
  let buffer := NdArray (length exts :: m :: s)
                  (concat (zip_with (join_block fill m sz) exts datas)) in
  if bool_decide (Exists (λ n, n < m) exts)
  then if holds_value t fill
       then inr (MArray buffer
                   (Some (concat (zip_with (join_mask_block t fill m sz) exts datas))))
       else inl fill_value_error
  else inr (plain buffer).

(** Time [k] of the block of one file. *)
Definition block_row {A} (sz k : nat) (block : list A) : list A :=
  take sz (drop (k * sz) block).

(** The part of the buffer a request asks for: all of it, or one time. *)
Definition requested (timeidx : option Z) (full : marray) : result marray :=
  match timeidx with
  | Some t => ma_select_time full t
  | None => inr full
  end.

(** The element type of the variable in the first of the files. *)
Definition first_dtype (varname : string) (files : list Source) : option dtype :=
  f ← head files; vdtype <$> variables f !! varname.

(** The variable [varname] of file [f] has the element type [t]. *)
Definition has_dtype (varname : string) (t : dtype) (f : Source) : Prop :=
  ∃ var, variables f !! varname = Some var ∧ vdtype var = t.

(** A file of [n] times with an integer field [ISLTYP] (32 bits) on a
    1 x 2 grid. *)
Definition category_file (n : nat) (base : Z) : Source :=
  {| variables :=
       {[ "ISLTYP" := {| vdimensions := ["Time"; "south_north"; "west_east"];
                         coordinates := Some ["XLONG"; "XLAT"]; stagger := None;
                         vdtype := Integer 32;
                         vdata := NdArray [n; 1; 2]
                                    ((λ i, base + Z.of_nat i)%Z <$> seq 0 (n * 2)) |};
          "XLAT" := sample_grid n (λ _, 50%Z);
          "XLONG" := sample_grid n (λ _, 150%Z);
          "Times" := sample_times n base ]};
     dimensions := {[ "Time" := n ]} |}.

(** A file of 2 times whose field holds a value close to the NetCDF default
    in its first cell. *)
Definition near_sentinel_file : Source :=
  {| variables :=
       {[ "T" := {| vdimensions := ["Time"; "south_north"; "west_east"];
                    coordinates := Some ["XLONG"; "XLAT"]; stagger := None;
                    vdtype := Floating;
                    vdata := NdArray [2; 1; 2] [NC_FILL + 2 ^ 100; 1; 2; 3]%Z |};
          "XLAT" := sample_grid 2 (λ _, 50%Z);
          "XLONG" := sample_grid 2 (λ _, 150%Z);
          "Times" := sample_times 2 0 ]};
     dimensions := {[ "Time" := 2 ]} |}.

(** File [f] has [n] time stamps, rows of characters, each of which
    [_make_time] reads as a time. *)
Definition time_stamps (f : Source) (n : nat) : Prop :=
  ∃ tv w, variables f !! "Times" = Some tv ∧ shape (vdata tv) = [n; w] ∧
          Forall (λ i, is_error (getitem (vdata tv) (Z.of_nat i) ≫= _make_time) = false)
                 (seq 0 n).

(** File [f] holds a field [varname] of shape [n :: s] with cells [d], and
    [n] time stamps that are times. *)
Definition cat_field (varname : string) (s : list nat)
    (f : Source) (n : nat) (d : list Z) : Prop :=
  length d = n * nd_size s ∧
  (∃ var, variables f !! varname = Some var ∧ vdata var = NdArray (n :: s) d) ∧
  time_stamps f n.

(** File [f] has [n] times by its [Time] dimension, by its field [varname]
    and by its time stamps. *)
Definition timed_field (varname : string) (s : list nat)
    (f : Source) (n : nat) (d : list Z) : Prop :=
  holds_field varname s f n d ∧ cat_field varname s f n d.

(** Row [k] of an array of rows of shape [s], kept with an axis of
    length 1. *)
Definition time_row (s : list nat) (cells : list Z) (k : nat) : marray :=
  plain (NdArray (1 :: s) (take (nd_size s) (drop (k * nd_size s) cells))).

(** A computation that leaves the coordinate cache as it found it. *)
Definition keeps_cache {A} (m : M A) : Prop := ∀ c, (m c).2 = c.

(** A file in the style of met_em: the field [TT] has no [coordinates]
    attribute, its [stagger] attribute names the grids [XLAT_M] and
    [XLONG_M]. *)
Definition metem_file : Source :=
  {| variables :=
       {[ "TT" := {| vdimensions := ["Time"; "south_north"; "west_east"];
                     coordinates := None; stagger := Some "M";
                     vdtype := Floating;
                     vdata := NdArray [1; 2; 2] [1; 2; 3; 4]%Z |};
          "XLAT_M" := sample_grid 1 (λ _, 50%Z);
          "XLONG_M" := sample_grid 1 (λ _, 150%Z);
          "Times" := sample_times 1 0 ]};
     dimensions := {[ "Time" := 1 ]} |}.

(** File [f] holds [n] values [x] of the time coordinate [XTIME]. *)
Definition xtime_field (f : Source) (n : nat) (x : list Z) : Prop :=
  length x = n ∧
  ∃ var, variables f !! "XTIME" = Some var ∧ vdata var = NdArray [n] x.

(** [a[i1, ..., ik]] for integers: the block at that index. *)
Fixpoint getitems {A} (a : array A) (idx : list Z) : result (array A) :=
  match idx with
  | [] => inr a
  | i :: idx' => a' ← getitem a i; getitems a' idx'
  end.

(** A file on a grid of the given sizes. *)
Definition grid_file (bt sn we : nat) : Source :=
  {| variables := ∅;
     dimensions := {[ "west_east" := we; "south_north" := sn; "bottom_top" := bt ]} |}.

(** The value a call binds to the parameter at position [i], named [name]:
    the keyword argument of that name, else the positional argument at
    that position, else the default of the parameter, else [None]. *)
Definition bound_value {V} (none : V) (argspec : ArgSpec V) (args : list V)
    (kwargs : list (string * V)) (i : nat) (name : string) : V :=
  let n := length (as_args argspec) in
  let defaults := default [] (as_defaults argspec) in
  match assoc name kwargs, args !! i with
  | Some v, _ => v
  | None, Some a => a
  | None, None =>
      if decide (n - length defaults ≤ i)
      then default none (defaults !! (i - (n - length defaults)))
      else none
  end.

(** A call that fits the signature: no more positional arguments than
    parameters, keyword arguments that are parameters, each given once. *)
Definition fits_signature {V} (argspec : ArgSpec V) (args : list V)
    (kwargs : list (string * V)) : Prop :=
  NoDup (as_args argspec) ∧
  length (default [] (as_defaults argspec)) ≤ length (as_args argspec) ∧
  length args ≤ length (as_args argspec) ∧
  kwargs.*1 ⊆ as_args argspec ∧
  NoDup (kwargs.*1).

(** A file whose variable [ITIMESTEP] has a time axis only. *)
Definition timestep_file (n : nat) (base : Z) : Source :=
  {| variables :=
       {[ "ITIMESTEP" := {| vdimensions := ["Time"]; coordinates := None;
                            stagger := None;
                            vdtype := Integer 32;
                            vdata := NdArray [n] ((λ i, base + Z.of_nat i)%Z <$> seq 0 n) |};
          "XLAT" := sample_grid n (λ _, 50%Z);
          "XLONG" := sample_grid n (λ _, 150%Z);
          "Times" := sample_times n base ]};
     dimensions := {[ "Time" := n ]} |}.

(** A file that holds the time coordinate: [n] values, a minute apart. *)
Definition xtime_file (n : nat) (base : Z) : Source :=
  {| variables :=
       {[ "XTIME" := {| vdimensions := ["Time"]; coordinates := None;
                        stagger := None;
                        vdtype := Floating;
                        vdata := NdArray [n]
                                   ((λ i, base + 60 * Z.of_nat i)%Z <$> seq 0 n) |};
          "Times" := sample_times n base ]};
     dimensions := {[ "Time" := n ]} |}.

(** A file of the geogrid kind: its grids are [CLAT] and [CLONG]. *)
Definition clat_file : Source :=
  {| variables :=
       {[ "HGT" := {| vdimensions := ["Time"; "south_north"; "west_east"];
                      coordinates := Some ["CLONG"; "CLAT"]; stagger := None;
                      vdtype := Floating;
                      vdata := NdArray [1; 2; 2] [1; 2; 3; 4]%Z |};
          "CLAT" := sample_grid 1 (λ _, 50%Z);
          "CLONG" := sample_grid 1 (λ _, 150%Z);
          "Times" := sample_times 1 0 ]};
     dimensions := {[ "Time" := 1 ]} |}.

(** ** The time-index locator *)

Lemma cumulative_cons n exts i :
  cumulative (n :: exts) (S i) = (Z.of_nat n + cumulative exts i)%Z.
Proof. unfold cumulative. simpl. lia. Qed.

Lemma cumulative_0 exts : cumulative exts 0 = 0%Z.
Proof. reflexivity. Qed.

Lemma cumulative_all exts i :
  length exts ≤ i → cumulative exts i = total_times exts.
Proof. intros. unfold cumulative, total_times. by rewrite take_ge. Qed.

Lemma first_containing_exists exts (t : Z) :
  (0 ≤ t < total_times exts)%Z → ∃ i, first_containing exts t i.
Proof.
  assert (G : ∀ (c : Z), (c ≤ t < c + total_times exts)%Z →
    ∃ i, i < length exts ∧ (t < c + cumulative exts (S i))%Z ∧
         ∀ j, j < i → (c + cumulative exts (S j) ≤ t)%Z).
  { induction exts as [|n exts IH]; intros c Hc.
    - unfold total_times in Hc. simpl in Hc. lia.
    - destruct (decide (t < c + Z.of_nat n)%Z) as [Hlt|Hge].
      + exists 0. split; [simpl; lia|]. split; [|intros; lia].
        rewrite cumulative_cons, cumulative_0. lia.
      + destruct (IH (c + Z.of_nat n)%Z) as (i & Hi & Hlt & Hfirst).
        { unfold total_times in *. simpl in Hc. lia. }
        exists (S i). split; [simpl; lia|]. split.
        * rewrite cumulative_cons. lia.
        * intros [|j] Hj.
          -- rewrite cumulative_cons, cumulative_0. lia.
          -- rewrite cumulative_cons. specialize (Hfirst j). lia. }
  intros Ht. destruct (G 0%Z) as (i & ? & ? & Hf); [lia|].
  exists i. repeat split; [done|lia|]. intros j Hj. specialize (Hf j Hj). lia.
Qed.

Lemma first_containing_unique exts t i j :
  first_containing exts t i → first_containing exts t j → i = j.
Proof.
  intros (_ & Hi & Hfi) (_ & Hj & Hfj).
  destruct (Nat.lt_trichotomy i j) as [H|[H|H]]; [|done|].
  - specialize (Hfj i H). lia.
  - specialize (Hfi j H). lia.
Qed.

Lemma extract_dim_time s n :
  dimensions s !! "Time" = Some n → extract_dim_single s "Time" = inr n.
Proof. intros H. unfold extract_dim_single. by rewrite H. Qed.

(** The forward walk from a running offset [combo]. *)
Lemma forward_loop_hit xe wrfseq exts varname t mv meta key :
  time_extents wrfseq exts →
  ∀ combo i s c,
    wrfseq !! i = Some s →
    (t < combo + cumulative exts (S i))%Z →
    (∀ j, j < i → (combo + cumulative exts (S j) ≤ t)%Z) →
    forward_loop xe wrfseq combo varname t mv meta key c
    = read_time xe s varname (t - (combo + cumulative exts i)) mv meta key c.
Proof.
  induction 1 as [|s0 n wrfseq exts Hn Hall IH]; intros combo i s c Hs Hlt Hfirst.
  - done.
  - simpl. unfold mbind, M_bind, lift. rewrite (extract_dim_time _ _ Hn).
    destruct i as [|i]; simpl in Hs.
    + injection Hs as <-. rewrite cumulative_cons, cumulative_0 in Hlt.
      rewrite decide_True by lia. rewrite cumulative_0. f_equal. lia.
    + rewrite decide_False.
      2:{ specialize (Hfirst 0). rewrite cumulative_cons, cumulative_0 in Hfirst. lia. }
      rewrite (IH _ i s c Hs).
      * rewrite cumulative_cons. f_equal. lia.
      * rewrite cumulative_cons in Hlt. lia.
      * intros j Hj. specialize (Hfirst (S j)). rewrite cumulative_cons in Hfirst. lia.
Qed.

Lemma forward_loop_miss xe wrfseq exts varname t mv meta key :
  time_extents wrfseq exts →
  ∀ combo c,
    (combo + total_times exts ≤ t)%Z →
    forward_loop xe wrfseq combo varname t mv meta key c
    = (inl (out_of_bounds t), c).
Proof.
  induction 1 as [|s0 n wrfseq exts Hn Hall IH]; intros combo c Hge.
  - done.
  - simpl. unfold mbind, M_bind, lift. rewrite (extract_dim_time _ _ Hn).
    unfold total_times in *. simpl in Hge.
    rewrite decide_False by lia. apply IH. lia.
Qed.

Lemma reverse_loop_hit xe wrfseq exts varname t r mv meta key :
  time_extents wrfseq exts →
  ∀ combo i s n c,
    wrfseq !! i = Some s → exts !! i = Some n →
    (r < combo + cumulative exts (S i))%Z →
    (∀ j, j < i → (combo + cumulative exts (S j) ≤ r)%Z) →
    reverse_loop xe wrfseq combo varname t r mv meta key c
    = read_time xe s varname
        (Z.of_nat n - (r - (combo + cumulative exts i)) - 1) mv meta key c.
Proof.
  induction 1 as [|s0 n0 wrfseq exts Hn Hall IH]; intros combo i s n c Hs Hi Hlt Hfirst.
  - done.
  - simpl. unfold mbind, M_bind, lift. rewrite (extract_dim_time _ _ Hn).
    destruct i as [|i]; simpl in Hs, Hi.
    + injection Hs as <-. injection Hi as <-.
      rewrite cumulative_cons, cumulative_0 in Hlt.
      rewrite decide_True by lia. rewrite cumulative_0. f_equal. lia.
    + rewrite decide_False.
      2:{ specialize (Hfirst 0). rewrite cumulative_cons, cumulative_0 in Hfirst. lia. }
      rewrite (IH _ i s n c Hs Hi).
      * rewrite cumulative_cons. f_equal. lia.
      * rewrite cumulative_cons in Hlt. lia.
      * intros j Hj. specialize (Hfirst (S j)). rewrite cumulative_cons in Hfirst. lia.
Qed.

Lemma reverse_loop_miss xe wrfseq exts varname t r mv meta key :
  time_extents wrfseq exts →
  ∀ combo c,
    (combo + total_times exts ≤ r)%Z →
    reverse_loop xe wrfseq combo varname t r mv meta key c
    = (inl (out_of_bounds t), c).
Proof.
  induction 1 as [|s0 n wrfseq exts Hn Hall IH]; intros combo c Hge.
  - done.
  - simpl. unfold mbind, M_bind, lift. rewrite (extract_dim_time _ _ Hn).
    unfold total_times in *. simpl in Hge.
    rewrite decide_False by lia. apply IH. lia.
Qed.

Lemma time_extents_reverse wrfseq exts :
  time_extents wrfseq exts → time_extents (reverse wrfseq) (reverse exts).
Proof.
  unfold time_extents. induction 1; [constructor|].
  rewrite !reverse_cons. apply Forall2_app; [done|]. by constructor.
Qed.

Lemma total_times_reverse exts : total_times (reverse exts) = total_times exts.
Proof.
  unfold total_times. by rewrite sum_list_with_reverse.
Qed.

(** C1. Time-index locator: with time extents [exts] (total [N]), a global
    index [0 <= t < N] is found by the forward walk in the first file whose
    cumulative range contains it, at local index [t] minus the running
    offset; an index [-N <= t < 0] is found by the walk over the reversed
    sequence with target [r = -t - 1], at local index
    [extent - (r - offset) - 1].  For extents [3; 2; 4], index 4 is time 1
    of file 1 and index -1 is time 3 of file 2. *)
Theorem locator_correct xe wrfseq exts varname mv meta key c :
  time_extents wrfseq exts →
  (∀ t, (0 ≤ t < total_times exts)%Z →
     ∃ i s, first_containing exts t i ∧ wrfseq !! i = Some s ∧
       run (_find_forward xe wrfseq varname t mv meta key) c
       = run (read_time xe s varname (t - cumulative exts i) mv meta key) c) ∧
  (∀ t, (- total_times exts ≤ t < 0)%Z →
     ∃ i s n, first_containing (reverse exts) (- t - 1) i ∧
       reverse wrfseq !! i = Some s ∧ reverse exts !! i = Some n ∧
       run (_find_reverse xe wrfseq varname t mv meta key) c
       = run (read_time xe s varname
                (Z.of_nat n - ((- t - 1) - cumulative (reverse exts) i) - 1)
                mv meta key) c) ∧
  (exts = [3; 2; 4] →
     ∃ s1 s2, wrfseq !! 1 = Some s1 ∧ wrfseq !! 2 = Some s2 ∧
       run (_find_forward xe wrfseq varname 4 mv meta key) c
       = run (read_time xe s1 varname 1 mv meta key) c ∧
       run (_find_reverse xe wrfseq varname (-1) mv meta key) c
       = run (read_time xe s2 varname 3 mv meta key) c).
Proof.
  intros Hext. split; [|split].
  - intros t Ht.
    destruct (first_containing_exists exts t Ht) as [i Hi].
    pose proof Hi as (Hlen & Hlt & Hfirst).
    destruct (lookup_lt_is_Some_2 wrfseq i) as [s Hs].
    { by rewrite (Forall2_length _ _ _ Hext). }
    exists i, s. split; [done|]. split; [done|].
    unfold run, _find_forward.
    rewrite (forward_loop_hit xe wrfseq exts varname t mv meta key Hext 0%Z i s c Hs).
    + f_equal; lia.
    + lia.
    + intros j Hj. specialize (Hfirst j Hj). lia.
  - intros t Ht.
    assert (Hr : (0 ≤ - t - 1 < total_times (reverse exts))%Z).
    { rewrite total_times_reverse. lia. }
    destruct (first_containing_exists _ _ Hr) as [i Hi].
    pose proof Hi as (Hlen & Hlt & Hfirst).
    pose proof (time_extents_reverse _ _ Hext) as Hrev.
    destruct (lookup_lt_is_Some_2 (reverse wrfseq) i) as [s Hs].
    { by rewrite (Forall2_length _ _ _ Hrev). }
    destruct (lookup_lt_is_Some_2 (reverse exts) i) as [n Hn]; [done|].
    exists i, s, n. split; [done|]. split; [done|]. split; [done|].
    unfold run, _find_reverse.
    rewrite (reverse_loop_hit xe _ _ varname t (- t - 1) mv meta key Hrev 0%Z i s n c Hs Hn).
    + f_equal; lia.
    + lia.
    + intros j Hj. specialize (Hfirst j Hj). lia.
  - intros ->.
    destruct wrfseq as [|s0 [|s1 [|s2 [|? ?]]]];
      try (apply Forall2_length in Hext; simpl in Hext; lia).
    exists s1, s2. split; [done|]. split; [done|]. split.
    + unfold run, _find_forward.
      rewrite (forward_loop_hit xe _ _ varname 4 mv meta key Hext 0%Z 1 s1 c eq_refl).
      * done.
      * vm_compute. done.
      * intros j Hj. assert (j = 0) as -> by lia. vm_compute. congruence.
    + unfold run, _find_reverse.
      pose proof (time_extents_reverse _ _ Hext) as Hrev.
      rewrite (reverse_loop_hit xe _ _ varname (-1) (- -1 - 1) mv meta key Hrev
                 0%Z 0 s2 4 c eq_refl eq_refl).
      * done.
      * vm_compute. done.
      * intros j Hj. lia.
Qed.

Lemma sample_files_extents : time_extents sample_files [3; 2; 4].
Proof. repeat constructor. Qed.

Lemma locator_correct_witness :
  time_extents sample_files [3; 2; 4] ∧
  run (_find_forward true sample_files "T" 4 false false None) ∅
  = (inr (PlainArray (plain (NdArray [1; 2; 2] [104; 105; 106; 107]%Z))), ∅) ∧
  run (_find_reverse true sample_files "T" (-1) false false None) ∅
  = (inr (PlainArray (plain (NdArray [1; 2; 2] [212; 213; 214; 215]%Z))), ∅).
Proof.
  split; [exact sample_files_extents|].
  destruct (locator_correct true sample_files [3; 2; 4] "T" false false None ∅
              sample_files_extents) as (_ & _ & H).
  destruct (H eq_refl) as (s1 & s2 & H1 & H2 & -> & ->).
  injection H1 as <-. injection H2 as <-.
  split; vm_compute; reflexivity.
Defined.

(** C8. Out-of-bounds time index: with total time extent [N], an index
    [t >= N] makes the forward walk, and an index [t < -N] makes the reverse
    walk, raise [IndexError] with a message that carries [t]; nothing is
    returned and the cache is left as it was. *)
Theorem locator_out_of_bounds xe wrfseq exts varname t mv meta key c :
  time_extents wrfseq exts →
  ((total_times exts ≤ t)%Z →
     run (_find_forward xe wrfseq varname t mv meta key) c
     = (inl (IndexError ("timeidx " +:+ pretty t +:+ " is out of bounds")), c)) ∧
  ((t < - total_times exts)%Z →
     run (_find_reverse xe wrfseq varname t mv meta key) c
     = (inl (IndexError ("timeidx " +:+ pretty t +:+ " is out of bounds")), c)) ∧
  ((total_times exts ≤ t ∨ t < - total_times exts)%Z →
     run (_find_arr_for_time xe wrfseq varname t mv meta key) c
     = (inl (IndexError ("timeidx " +:+ pretty t +:+ " is out of bounds")), c)).
Proof.
  intros Hext.
  assert (Hf : (total_times exts ≤ t)%Z →
    run (_find_forward xe wrfseq varname t mv meta key) c = (inl (out_of_bounds t), c)).
  { intros Ht. unfold run, _find_forward.
    apply (forward_loop_miss xe wrfseq exts); [done|lia]. }
  assert (Hr : (t < - total_times exts)%Z →
    run (_find_reverse xe wrfseq varname t mv meta key) c = (inl (out_of_bounds t), c)).
  { intros Ht. unfold run, _find_reverse.
    apply (reverse_loop_miss xe _ (reverse exts)).
    - by apply time_extents_reverse.
    - rewrite total_times_reverse. lia. }
  split; [done|]. split; [done|].
  assert (0 ≤ total_times exts)%Z by (unfold total_times; lia).
  intros [Ht|Ht]; unfold run, _find_arr_for_time.
  - rewrite decide_True by lia. by apply Hf.
  - rewrite decide_False by lia. by apply Hr.
Qed.

Lemma locator_out_of_bounds_witness :
  time_extents sample_files [3; 2; 4] ∧
  run (_find_forward true sample_files "T" 9 false false None) ∅
  = (inl (IndexError "timeidx 9 is out of bounds"), ∅) ∧
  run (_find_reverse true sample_files "T" (-10) false false None) ∅
  = (inl (IndexError "timeidx -10 is out of bounds"), ∅).
Proof.
  split; [exact sample_files_extents|].
  destruct (locator_out_of_bounds true sample_files [3; 2; 4] "T" 9 false false None ∅
              sample_files_extents) as (H9 & _ & _).
  destruct (locator_out_of_bounds true sample_files [3; 2; 4] "T" (-10) false false None ∅
              sample_files_extents) as (_ & H10 & _).
  split; [apply H9 | apply H10]; vm_compute; congruence.
Defined.

(** ** The moving-domain detector *)

Lemma bind_lift_inr {A B} (x : A) (f : A → M B) c :
  (lift (inr x) ≫= f) c = f x c.
Proof. reflexivity. Qed.

Lemma bind_lift_inl {A B} (e : error) (f : A → M B) c :
  (lift (inl e) ≫= f) c = (inl e, c).
Proof. reflexivity. Qed.

Lemma moving_loop_false rest ll ur lat_coord lon_coord :
  Forall (λ f, _corners_moved f ll ur lat_coord lon_coord = inr false) rest →
  moving_loop rest ll ur lat_coord lon_coord = inr false.
Proof.
  induction 1 as [|f rest Hf _ IH]; [done|].
  cbn [moving_loop]. rewrite Hf. exact IH.
Qed.

Lemma moving_loop_true rest ll ur lat_coord lon_coord :
  ∀ i f,
    rest !! i = Some f →
    _corners_moved f ll ur lat_coord lon_coord = inr true →
    (∀ j g, j < i → rest !! j = Some g →
            _corners_moved g ll ur lat_coord lon_coord = inr false) →
    moving_loop rest ll ur lat_coord lon_coord = inr true.
Proof.
  induction rest as [|f0 rest IH]; intros i f Hi Hf Hbefore; [done|].
  cbn [moving_loop]. destruct i as [|i]; simpl in Hi.
  - injection Hi as ->. by rewrite Hf.
  - rewrite (Hbefore 0 f0) by (done || lia). cbn.
    apply (IH i f Hi Hf). intros j g Hj Hg. apply (Hbefore (S j) g); [lia|done].
Qed.

(** What [is_moving_domain] does on the files of a sequence once the
    coordinate names are resolved, when nothing is cached yet. *)
Lemma is_moving_seq_spec first rest varname key c latvar lonvar
    lon_coord lat_coord ll ur moved :
  moving_coords first varname latvar lonvar = inr (lon_coord, lat_coord) →
  run (get_cached_item key (moving_product lat_coord lon_coord)) c = (inr None, c) →
  first_corners first lat_coord lon_coord = inr (ll, ur) →
  moving_loop rest ll ur lat_coord lon_coord = inr moved →
  run (is_moving_seq (first :: rest) varname latvar lonvar key) c
  = (inr moved,
     (run (cache_item key (moving_product lat_coord lon_coord) (CBool moved)) c).2).
Proof.
  intros Hcoords Hmiss Hfirst Hloop.
  unfold run in *. unfold is_moving_seq. cbn [next]. rewrite bind_lift_inr.
  rewrite Hcoords, bind_lift_inr.
  unfold mbind at 1, M_bind at 1. rewrite Hmiss.
  rewrite Hfirst, bind_lift_inr, Hloop, bind_lift_inr.
  unfold mbind, M_bind, mret, M_ret.
  by destruct key as [[k|d]|].
Qed.

Lemma is_moving_domain_seq first rest varname key c latvar lonvar
    lon_coord lat_coord ll ur moved :
  either ["XLAT"; "XLAT_M"] (Seq (first :: rest)) = inr latvar →
  either ["XLONG"; "XLONG_M"] (Seq (first :: rest)) = inr lonvar →
  moving_coords first varname latvar lonvar = inr (lon_coord, lat_coord) →
  run (get_cached_item key (moving_product lat_coord lon_coord)) c = (inr None, c) →
  first_corners first lat_coord lon_coord = inr (ll, ur) →
  moving_loop rest ll ur lat_coord lon_coord = inr moved →
  run (is_moving_domain (Seq (first :: rest)) varname default_latvar
         default_lonvar key) c
  = (inr moved,
     (run (cache_item key (moving_product lat_coord lon_coord) (CBool moved)) c).2).
Proof.
  intros Hlat Hlon Hcoords Hmiss Hfirst Hloop.
  unfold run. cbn [is_moving_domain resolve_coord default_latvar default_lonvar].
  rewrite Hlat, bind_lift_inr, Hlon, bind_lift_inr.
  by apply (is_moving_seq_spec _ _ _ _ _ _ _ _ _ ll ur).
Qed.

Lemma cache_item_lookup k product v c :
  (run (cache_item (Some (KId k)) product v) c).2 !! (k, product) = Some v.
Proof. unfold run, cache_item. cbn. apply lookup_insert_eq. Qed.

Lemma corner_differs_spec s lat_coord lon_coord vlat vlon ll ur i c :
  getvar s lat_coord = inr vlat →
  getvar s lon_coord = inr vlon →
  slice_corners s lat_coord lon_coord i = inr c →
  corner_differs (vdata vlat) (vdata vlon) ll ur i
  = inr (bool_decide (c ≠ (ll, ur))).
Proof.
  intros Hlat Hlon. unfold slice_corners, corner_differs.
  rewrite Hlat, Hlon. cbn [fmap result_fmap mbind result_bind].
  destruct ll as [ll1 ll2], ur as [ur1 ur2]. cbn [fst snd].
  destruct (item (vdata vlat) (<[_:=_]> (replicate _ 0%Z))) as [?|a];
    cbn [mbind result_bind]; [done|].
  destruct (item (vdata vlon) (<[_:=_]> (replicate _ 0%Z))) as [?|b];
    cbn [mbind result_bind]; [done|].
  destruct (item (vdata vlat) (<[_:=_]> (replicate _ (-1)%Z))) as [?|c'];
    cbn [mbind result_bind]; [done|].
  destruct (item (vdata vlon) (<[_:=_]> (replicate _ (-1)%Z))) as [?|d];
    cbn [mbind result_bind]; [done|].
  intros [= <-].
  repeat case_bool_decide; simplify_eq; try done.
  all: exfalso; naive_solver.
Qed.

Lemma corners_loop_spec s lat_coord lon_coord vlat vlon ll ur times :
  getvar s lat_coord = inr vlat →
  getvar s lon_coord = inr vlon →
  ∀ cs,
    mapM (slice_corners s lat_coord lon_coord) times = inr cs →
    corners_loop (vdata vlat) (vdata vlon) ll ur times
    = inr (bool_decide (Exists (λ c, c ≠ (ll, ur)) cs)).
Proof.
  intros Hlat Hlon. induction times as [|i times IH]; intros cs.
  - by intros [= <-].
  - cbn [mapM].
    destruct (slice_corners s lat_coord lon_coord i) as [?|c] eqn:Hc; [done|].
    cbn [mbind result_bind].
    destruct (mapM _ times) as [?|cs'] eqn:Hcs; [done|].
    cbn [mbind result_bind mret result_ret]. intros [= <-].
    cbn [corners_loop].
    rewrite (corner_differs_spec _ _ _ _ _ _ _ _ _ Hlat Hlon Hc).
    cbn [mbind result_bind].
    destruct (decide (c ≠ (ll, ur))) as [Hne|Heq].
    + rewrite (bool_decide_true (c ≠ _)) by done.
      by rewrite bool_decide_true by (by left).
    + rewrite (bool_decide_false (c ≠ _)) by done.
      rewrite (IH cs' eq_refl). f_equal. apply bool_decide_ext.
      rewrite Exists_cons. split; [by right|by intros [?|?]].
Qed.

(** [_corners_moved] on a file all of whose corner points can be read: some
    time slice has corner points that differ from the reference. *)
Lemma corners_moved_spec s lat_coord lon_coord ll ur cs :
  is_Some (variables s !! lon_coord) →
  all_slice_corners s lat_coord lon_coord = inr cs →
  _corners_moved s ll ur lat_coord lon_coord
  = inr (bool_decide (Exists (λ c, c ≠ (ll, ur)) cs)).
Proof.
  intros Hlon. unfold all_slice_corners, _corners_moved.
  destruct (getvar s lat_coord) as [?|vlat] eqn:Hlat; [done|].
  cbn [fmap result_fmap mbind result_bind].
  destruct (getvar s lon_coord) as [e|vlon] eqn:Hlon'.
  { exfalso. destruct Hlon as [v Hv]. unfold getvar in Hlon'.
    by rewrite Hv in Hlon'. }
  cbn [fmap result_fmap mbind result_bind].
  destruct (shape_m3 (vdata vlat)) as [?|n]; [done|]. cbn [mbind result_bind].
  intros Hcs. by apply (corners_loop_spec s lat_coord lon_coord).
Qed.

Lemma moving_loop_spec rest lat_coord lon_coord ll ur css :
  Forall (λ f, is_Some (variables f !! lon_coord)) rest →
  Forall2 (λ f cs, all_slice_corners f lat_coord lon_coord = inr cs) rest css →
  moving_loop rest ll ur lat_coord lon_coord
  = inr (bool_decide (Exists (Exists (λ c, c ≠ (ll, ur))) css)).
Proof.
  intros Hlon Hall. induction Hall as [|f cs rest css Hf _ IH].
  - done.
  - apply Forall_cons in Hlon as [Hlon1 Hlon].
    cbn [moving_loop]. rewrite (corners_moved_spec _ _ _ _ _ _ Hlon1 Hf).
    cbn [mbind result_bind].
    destruct (decide (Exists (λ c, c ≠ (ll, ur)) cs)) as [Hex|Hnex].
    + rewrite (bool_decide_true (Exists _ cs)) by done.
      by rewrite bool_decide_true by (by left).
    + rewrite (bool_decide_false (Exists _ cs)) by done.
      rewrite (IH Hlon). f_equal. apply bool_decide_ext.
      rewrite Exists_cons. split; [by right|by intros [?|?]].
Qed.

Lemma first_corners_slice0 first lat_coord lon_coord ll ur v :
  variables first !! lat_coord = Some v →
  ndim (vdata v) = 3 →
  first_corners first lat_coord lon_coord = inr (ll, ur) →
  slice_corners first lat_coord lon_coord 0 = inr (ll, ur).
Proof.
  intros Hv Hn. unfold first_corners, slice_corners, getvar.
  rewrite Hv. cbn [from_option fmap result_fmap mbind result_bind].
  destruct (from_option _ (variables first !! lon_coord)) as [?|vlon];
    cbn [fmap result_fmap mbind result_bind]; [done|].
  rewrite Hn. cbn [replicate take app Nat.sub list_insert insert].
  change (Z.of_nat 0) with 0%Z.
  destruct (item (vdata v) [0; 0; 0]%Z) as [?|lat0]; cbn [mbind result_bind]; [done|].
  destruct (item (vdata v) [0; -1; -1]%Z) as [?|lat1]; cbn [mbind result_bind]; [done|].
  destruct (item (vdata vlon) [0; 0; 0]%Z) as [?|lon0]; cbn [mbind result_bind]; [done|].
  destruct (item (vdata vlon) [0; -1; -1]%Z) as [?|lon1]; cbn [mbind result_bind]; [done|].
  done.
Qed.

(** C3 (amended). Moving-domain detector: the reference is the pair of corner
    points of the first file at its first time slice; every time slice of
    every later file is compared with it; the answer is true at the first
    file that has a differing slice (the files after it are not read) and
    false once all files are exhausted, and it is stored in the cache.  So
    files that share their corner values give false, and a later file with
    differing corner values gives true wherever it stands among them. *)
Theorem moving_domain_detector first rest varname key c latvar lonvar
    lon_coord lat_coord ll ur :
  either ["XLAT"; "XLAT_M"] (Seq (first :: rest)) = inr latvar →
  either ["XLONG"; "XLONG_M"] (Seq (first :: rest)) = inr lonvar →
  moving_coords first varname latvar lonvar = inr (lon_coord, lat_coord) →
  run (get_cached_item key (moving_product lat_coord lon_coord)) c = (inr None, c) →
  first_corners first lat_coord lon_coord = inr (ll, ur) →
  let detect :=
    run (is_moving_domain (Seq (first :: rest)) varname default_latvar
           default_lonvar key) c in
  let stored b :=
    (run (cache_item key (moving_product lat_coord lon_coord) (CBool b)) c).2 in
  (∀ v, variables first !! lat_coord = Some v → ndim (vdata v) = 3 →
     slice_corners first lat_coord lon_coord 0 = inr (ll, ur)) ∧
  (∀ css,
     Forall (λ f, is_Some (variables f !! lon_coord)) rest →
     Forall2 (λ f cs, all_slice_corners f lat_coord lon_coord = inr cs) rest css →
     let moved := bool_decide (Exists (Exists (λ c, c ≠ (ll, ur))) css) in
     detect = (inr moved, stored moved)) ∧
  (∀ i f,
     rest !! i = Some f →
     _corners_moved f ll ur lat_coord lon_coord = inr true →
     (∀ j g, j < i → rest !! j = Some g →
             _corners_moved g ll ur lat_coord lon_coord = inr false) →
     detect = (inr true, stored true)).
Proof.
  intros Hlat Hlon Hcoords Hmiss Hfirst detect stored. split; [|split].
  - intros v Hv Hn. by apply (first_corners_slice0 _ _ _ _ _ v).
  - intros css Hvars Hcss moved. subst detect stored. cbv beta.
    apply (is_moving_domain_seq _ _ _ _ _ latvar lonvar _ _ ll ur); try done.
    by apply moving_loop_spec.
  - intros i f Hi Hf Hbefore. subst detect stored. cbv beta.
    apply (is_moving_domain_seq _ _ _ _ _ latvar lonvar _ _ ll ur); try done.
    by apply (moving_loop_true _ _ _ _ _ i f).
Qed.

Lemma moving_domain_detector_witness :
  let moving := run (is_moving_domain (Seq [file3; file2; shifted_file; file4])
                       (Some "T") default_latvar default_lonvar (Some (KId 1))) ∅ in
  let static := run (is_moving_domain (Seq [file3; file2; file4])
                       (Some "T") default_latvar default_lonvar (Some (KId 1))) ∅ in
  (moving.1 = inr true ∧
   moving.2 !! (1, "is_moving_XLAT_XLONG") = Some (CBool true)) ∧
  (static.1 = inr false ∧
   static.2 !! (1, "is_moving_XLAT_XLONG") = Some (CBool false)).
Proof.
  cbv zeta. split.
  - destruct (moving_domain_detector file3 [file2; shifted_file; file4] (Some "T")
                (Some (KId 1)) ∅ "XLAT" "XLONG" "XLONG" "XLAT"
                (50, 150)%Z (53, 153)%Z) as (_ & _ & H);
      [vm_compute; reflexivity..|].
    rewrite (H 1 shifted_file); [ |vm_compute; reflexivity..| ].
    + split; [reflexivity|]. apply cache_item_lookup.
    + intros j g Hj Hg. assert (j = 0) as -> by lia.
      injection Hg as <-. vm_compute. reflexivity.
  - destruct (moving_domain_detector file3 [file2; file4] (Some "T")
                (Some (KId 1)) ∅ "XLAT" "XLONG" "XLONG" "XLAT"
                (50, 150)%Z (53, 153)%Z) as (_ & H & _);
      [vm_compute; reflexivity..|].
    rewrite (H [replicate 2 ((50, 150), (53, 153))%Z;
                replicate 4 ((50, 150), (53, 153))%Z]).
    + split; [vm_compute; reflexivity|]. apply cache_item_lookup.
    + repeat constructor; vm_compute; eauto.
    + repeat constructor; vm_compute; reflexivity.
Defined.

(** C3, as stated, fails: the corner points of the first file drift from
    its first time slice on, no file after it differs from the reference,
    and the detector answers false. *)
Lemma moving_domain_detector_counterexample :
  let detect := run (is_moving_domain (Seq [drifting_file; steady_file]) (Some "T")
                       default_latvar default_lonvar (Some (KId 1))) ∅ in
  spec_is_moving [drifting_file; steady_file] "XLAT" "XLONG" = inr true ∧
  detect.1 = inr false ∧
  detect.2 !! (1, "is_moving_XLAT_XLONG") = Some (CBool false).
Proof. cbv zeta. repeat split; vm_compute; reflexivity. Qed.

(** C10. A single file passed directly: whatever its latitudes and
    longitudes hold, the detector answers false and stores false under the
    token; no time slice of the file is compared with another. *)
Theorem single_file_never_moving s varname key c latvar lonvar
    lon_coord lat_coord ll ur :
  either ["XLAT"; "XLAT_M"] (Single s) = inr latvar →
  either ["XLONG"; "XLONG_M"] (Single s) = inr lonvar →
  moving_coords s varname latvar lonvar = inr (lon_coord, lat_coord) →
  run (get_cached_item key (moving_product lat_coord lon_coord)) c = (inr None, c) →
  first_corners s lat_coord lon_coord = inr (ll, ur) →
  let stored :=
    (run (cache_item key (moving_product lat_coord lon_coord) (CBool false)) c).2 in
  run (is_moving_domain (Single s) varname default_latvar default_lonvar key) c
  = (inr false, stored) ∧
  ∀ k, key = Some (KId k) →
       stored !! (k, moving_product lat_coord lon_coord) = Some (CBool false).
Proof.
  intros Hlat Hlon Hcoords Hmiss Hfirst stored. split.
  - unfold run. cbn [is_moving_domain resolve_coord default_latvar default_lonvar].
    rewrite Hlat, bind_lift_inr, Hlon, bind_lift_inr.
    by apply (is_moving_seq_spec s [] _ _ _ _ _ _ _ ll ur).
  - intros k ->. apply cache_item_lookup.
Qed.

Lemma single_file_never_moving_witness :
  let detect := run (is_moving_domain (Single drifting_file) (Some "T") default_latvar
                       default_lonvar (Some (KId 1))) ∅ in
  (∃ c0 c1, slice_corners drifting_file "XLAT" "XLONG" 0 = inr c0 ∧
            slice_corners drifting_file "XLAT" "XLONG" 1 = inr c1 ∧ c0 ≠ c1) ∧
  detect.1 = inr false ∧
  detect.2 !! (1, "is_moving_XLAT_XLONG") = Some (CBool false).
Proof.
  cbv zeta. split.
  - exists ((50, 150), (53, 153))%Z, ((51, 151), (54, 154))%Z.
    repeat split; [vm_compute; reflexivity..|congruence].
  - destruct (single_file_never_moving drifting_file (Some "T") (Some (KId 1)) ∅
                "XLAT" "XLONG" "XLONG" "XLAT" (50, 150)%Z (53, 153)%Z) as [H Hk];
      [vm_compute; reflexivity..|].
    rewrite H. split; [reflexivity|]. by apply Hk.
Defined.

(** ** Squeeze *)

Lemma bind_inv {A B} (m : M A) (f : A → M B) c y c' :
  (m ≫= f) c = (inr y, c') →
  ∃ x c1, m c = (inr x, c1) ∧ f x c1 = (inr y, c').
Proof.
  unfold mbind, M_bind. destruct (m c) as [[e|x] c1]; [done|]. eauto.
Qed.

Lemma fmap_inv {A B} (m : M A) (f : A → B) c y c' :
  (f <$> m) c = (inr y, c') → ∃ x, m c = (inr x, c') ∧ y = f x.
Proof.
  unfold fmap, M_fmap. destruct (m c) as [[e|x] c1]; [done|].
  intros [= <- <-]. eauto.
Qed.

Lemma lift_inv {A} (r : result A) c y c' :
  lift r c = (inr y, c') → r = inr y ∧ c' = c.
Proof. unfold lift. by intros [= -> ->]. Qed.

Lemma squeeze_shape x y :
  squeeze x = inr y →
  out_shape y = filter (λ n, n ≠ 1) (out_shape x) ∧
  (cells ∘ arr <$> out_values y) = (cells ∘ arr <$> out_values x) ∧
  (mask <$> out_values y) = (mask <$> out_values x).
Proof. destruct x; intros [= <-]; done. Qed.

Lemma bind_squeeze_if (m : M pyarray) c :
  (m ≫= λ outarr, lift (squeeze_if true outarr)) c
  = then_squeeze ((m ≫= λ outarr, lift (squeeze_if false outarr)) c).
Proof.
  unfold then_squeeze, mbind, M_bind, lift.
  by destruct (m c) as [[e|x] c1].
Qed.

(** The values of the array [_build_data_array] returns are the values it
    read, with a leading axis of length 1 when one time was asked for. *)
Lemma _build_data_array_values xe s varname timeidx mv mf key c da c' :
  run (_build_data_array xe s varname timeidx mv mf key) c = (inr da, c') →
  ∃ var, getvar s varname = inr var ∧
    match timeidx with
    | Some t => ∃ d, getitem_row (vdata var) t = inr d ∧
                     da_values da = plain (NdArray (1 :: shape d) (cells d))
    | None => da_values da = plain (vdata var)
    end.
Proof.
  unfold run, _build_data_array. intros H.
  apply bind_inv in H as (var & c1 & [Hvar ->]%lift_inv & H).
  apply bind_inv in H as (data & c2 & [Hdata ->]%lift_inv & H).
  apply bind_inv in H as (names & c3 & _ & H).
  destruct names as [[lon_coord lat_coord] time_coord].
  apply bind_inv in H as ([coords attrs] & c4 & _ & H).
  apply bind_inv in H as (d0 & c5 & _ & H).
  apply bind_inv in H as (coords' & c6 & _ & H).
  apply lift_inv in H as [Hmk _].
  unfold mkDataArray in Hmk. case_decide; [|done]. injection Hmk as <-.
  exists var. split; [done|]. cbn [da_values].
  destruct timeidx as [t|].
  - destruct (getitem_row (vdata var) t) as [?|d]; [done|].
    cbn [mbind result_bind] in Hdata. unfold newaxis in Hdata.
    case_decide; [done|]. injection Hdata as <-. eauto.
  - unfold getitem_all in Hdata. case_decide; [done|]. by injection Hdata as <-.
Qed.

Lemma _cat_files_ignores_squeeze xe wrfseq varname timeidx mv sq meta key :
  _cat_files xe wrfseq varname timeidx mv sq meta key
  = _cat_files xe wrfseq varname timeidx mv false meta key.
Proof. reflexivity. Qed.

Lemma combine_files_squeeze xe fill wrfseq varname timeidx mv method meta key c :
  run (combine_files xe fill wrfseq varname timeidx mv method true meta key) c
  = then_squeeze
      (run (combine_files xe fill wrfseq varname timeidx mv method false meta key) c).
Proof.
  unfold run, combine_files.
  rewrite (_cat_files_ignores_squeeze _ _ _ _ _ true).
  apply bind_squeeze_if.
Qed.

Lemma _extract_var_squeeze xe fill wrfnc varname timeidx mv method cache meta key c :
  cache ≫= (.!! varname) = None →
  is_time_coord_var varname = false →
  run (_extract_var xe fill wrfnc varname timeidx mv method true cache meta key) c
  = then_squeeze
      (run (_extract_var xe fill wrfnc varname timeidx mv method false cache meta key) c).
Proof.
  intros Hcache Htime. unfold run.
  destruct wrfnc as [s|l|d]; cbn [_extract_var]; rewrite Hcache, Htime.
  - apply bind_squeeze_if.
  - rewrite (_cat_files_ignores_squeeze _ _ _ _ _ true). apply bind_squeeze_if.
  - apply bind_squeeze_if.
Qed.

Lemma read_time_leading_axis xe s varname t mv meta key c x c' :
  run (read_time xe s varname t mv meta key) c = (inr x, c') →
  ∃ rest, out_shape x = 1 :: rest.
Proof.
  unfold run, read_time. destruct meta.
  - intros (da & Hda & ->)%fmap_inv.
    apply _build_data_array_values in Hda as (var & _ & d & _ & Hv).
    exists (shape d). unfold out_shape. cbn. by rewrite Hv.
  - intros [H _]%lift_inv.
    destruct (getvar s varname) as [?|var]; [done|]. cbn [mbind result_bind] in H.
    destruct (getitem_row (vdata var) t) as [?|d]; [done|].
    cbn [mbind result_bind] in H. unfold newaxis in H.
    case_decide; [done|]. injection H as <-. by exists (shape d).
Qed.

Lemma _extract_var_single_time xe fill s varname t mv method meta key c x c' :
  is_time_coord_var varname = false →
  run (_extract_var xe fill (Single s) varname (Some t) mv method false None meta key) c
  = (inr x, c') →
  ∃ rest, out_shape x = 1 :: rest.
Proof.
  intros Htime. unfold run. cbn [_extract_var mbind option_bind]. rewrite Htime.
  intros (r & c1 & H & [[= <-] _]%lift_inv)%bind_inv.
  destruct (xe && meta).
  - apply bind_inv in H as (b & c2 & _ & H).
    apply fmap_inv in H as (da & Hda & ->).
    apply _build_data_array_values in Hda as (var & _ & d & _ & Hv).
    exists (shape d). unfold out_shape. cbn. by rewrite Hv.
  - apply lift_inv in H as [H _].
    destruct (getvar s varname) as [?|var]; [done|]. cbn [mbind result_bind] in H.
    destruct (getitem_row (vdata var) t) as [?|d]; [done|].
    cbn [mbind result_bind] in H. unfold newaxis in H.
    case_decide; [done|]. injection H as <-. by exists (shape d).
Qed.

(** C6. Squeeze: a request with squeeze is the request without it followed
    by [.squeeze()], which removes the axes of length 1 and no others and
    keeps the cells and the mask; without squeeze the result of the
    combination is returned as it is, and for a request of one time it
    begins with the time axis of length 1 that was put back. *)
Theorem squeeze_semantics xe fill wrfseq varname timeidx mv method meta key c :
  run (combine_files xe fill wrfseq varname timeidx mv method true meta key) c
  = then_squeeze
      (run (combine_files xe fill wrfseq varname timeidx mv method false meta key) c) ∧
  (∀ cache, cache ≫= (.!! varname) = None → is_time_coord_var varname = false →
     run (_extract_var xe fill wrfseq varname timeidx mv method true cache meta key) c
     = then_squeeze
         (run (_extract_var xe fill wrfseq varname timeidx mv method false cache
                 meta key) c)) ∧
  (∀ x, is_Some (out_values x) →
     ∃ y, squeeze x = inr y ∧
          out_shape y = filter (λ n, n ≠ 1) (out_shape x) ∧
          (cells ∘ arr <$> out_values y) = (cells ∘ arr <$> out_values x) ∧
          (mask <$> out_values y) = (mask <$> out_values x)) ∧
  (∀ s t x c', is_time_coord_var varname = false →
     run (_extract_var xe fill (Single s) varname (Some t) mv method false None
            meta key) c = (inr x, c') →
     ∃ rest, out_shape x = 1 :: rest) ∧
  (∀ s t b x c',
     run (read_time xe s varname t b meta key) c = (inr x, c') →
     ∃ rest, out_shape x = 1 :: rest).
Proof.
  split; [apply combine_files_squeeze|].
  split; [intros; by apply _extract_var_squeeze|].
  split; [|split].
  - intros x [a Ha].
    assert (∃ y, squeeze x = inr y) as [y Hy] by (destruct x; naive_solver).
    exists y. split; [done|]. by apply squeeze_shape.
  - intros s t x c' Htime H. by eapply _extract_var_single_time.
  - intros s t b x c' H. by eapply read_time_leading_axis.
Qed.

Lemma squeeze_semantics_witness :
  (out_shape <$> (run (combine_files true 999 (Seq sample_files) "T" (Some 4%Z) None
                          "cat" false false None) ∅).1) = inr [1; 2; 2] ∧
  (out_shape <$> (run (combine_files true 999 (Seq sample_files) "T" (Some 4%Z) None
                          "cat" true false None) ∅).1) = inr [2; 2] ∧
  (out_shape <$> (run (_extract_var true 999 (Single file3) "T" (Some 1%Z) None
                          "cat" true None false None) ∅).1) = inr [2; 2].
Proof.
  destruct (squeeze_semantics true 999 (Seq sample_files) "T" (Some 4%Z) None "cat"
              false None ∅) as (Hc & _).
  destruct (squeeze_semantics true 999 (Single file3) "T" (Some 1%Z) None "cat"
              false None ∅) as (_ & He & _).
  rewrite Hc, (He None) by (vm_compute; reflexivity).
  repeat split; vm_compute; reflexivity.
Defined.

(** ** The dict combiner and the coordinate cache *)

(** C9, at the failing input.  A dictionary of two static single-file
    entries, with metadata: the combination succeeds, the moving flag is
    stored once (under the token of the first entry), and the coordinate
    grids of each entry are stored under that entry's token, because
    [_combine_dict] hands [_key[key]] down where its comment says it sets
    the token to [None]. *)
Lemma dict_entries_fill_coordinate_cache :
  let out := run (_combine_dict true 999 sample_dict "T" None "cat" true
                    sample_dict_key) ∅ in
  is_error out.1 = false ∧
  Forall (λ product, is_Some (out.2 !! (1, product))) coordinate_products ∧
  Forall (λ product, is_Some (out.2 !! (2, product))) coordinate_products ∧
  out.2 !! (1, "is_moving_XLAT_XLONG") = Some (CBool false) ∧
  out.2 !! (2, "is_moving_XLAT_XLONG") = None.
Proof.
  cbv zeta. split; [vm_compute; reflexivity|].
  split; [repeat constructor; vm_compute; eauto|].
  split; [repeat constructor; vm_compute; eauto|].
  split; vm_compute; reflexivity.
Qed.

(** Without a token [_combine_dict] cannot even index it. *)
Lemma dict_without_token_fails :
  (run (_combine_dict true 999 sample_dict "T" None "cat" false None) ∅).1
  = inl (TypeError "'NoneType' object is not subscriptable").
Proof. vm_compute. reflexivity. Qed.

(** ** The sequence normaliser *)

Import Normalizer.

Lemma get_iterable_unchanged {A} (x : pyseq A) :
  match x with
  | OneFile _ | ListOrTuple _ | IterWrapper _ | Dict _ => get_iterable x = x
  | OtherMapping d => get_iterable x = Dict d
  | GeneratorObj _ | CustomObj _ => get_iterable x = IterWrapper x
  end.
Proof. by destruct x. Qed.

Lemma drain_TestGen fuel total i :
  total - i ≤ fuel →
  drain TestGen_next fuel {| _total := total; _i := i |}
  = Z.of_nat <$> seq i (total - i).
Proof.
  revert i. induction fuel as [|fuel IH]; intros i Hfuel.
  - by replace (total - i) with 0 by lia.
  - cbn [drain]. unfold TestGen_next. cbn [_total _i]. case_decide.
    + by replace (total - i) with 0 by lia.
    + rewrite IH by lia. replace (total - i) with (S (total - (i + 1))) by lia.
      cbn [seq fmap list_fmap]. by replace (S i) with (i + 1) by lia.
Qed.

(** Every pass over a wrapped [TestGen] yields all of its items. *)
Lemma wrapped_TestGen_items env count fuel :
  count ≤ fuel →
  items env fuel (get_iterable (CustomObj (TestGen_obj (TestGen_init count))))
  = inr (Z.of_nat <$> seq 0 count).
Proof.
  intros Hfuel. cbn. unfold TestGen_init.
  rewrite drain_TestGen by lia. by rewrite Nat.sub_0_r.
Qed.

(** A generator made in an interpreter session (no module is found for its
    frame) is rebuilt from the function of its name in [__main__]. *)
Lemma wrapped_main_generator_items fuel :
  let env := {| sys_modules := ∅; main_module := {[ "test" := test ]} |} in
  ∃ g, call_genfunc "test" None test [] = inr g ∧
       items env fuel (get_iterable (GeneratorObj g)) = inr [1; 2; 3]%Z.
Proof. cbv zeta. eexists. split; [reflexivity|]. vm_compute. reflexivity. Qed.

(** C4, at the failing input.  The generator [test()] of the module
    [wrf.util] is wrapped, and every pass over the wrapper fails:
    [_generator_copy] asks the module object for an attribute [get]. *)
Lemma wrapped_module_generator_fails :
  ∃ g, test_call = inr g ∧
       gen_rest g = [1; 2; 3]%Z ∧
       get_iterable (GeneratorObj g) = IterWrapper (GeneratorObj g) ∧
       ∀ fuel, items util_env fuel (get_iterable (GeneratorObj g))
               = inl (AttributeError "get").
Proof.
  eexists. split; [reflexivity|]. split; [reflexivity|]. split; [reflexivity|].
  intros fuel. vm_compute. reflexivity.
Qed.

(** ** Arrays: assignment of a value of the shape of its target *)

Lemma concat_chunks {A} k n (c : list A) :
  concat (chunks k n c) = take (n * k) c.
Proof.
  revert c. induction n as [|n IH]; intros c; [done|].
  cbn [chunks concat]. rewrite IH.
  replace (S n * k) with (k + n * k) by lia. by rewrite take_take_drop.
Qed.

Lemma chunks_fmap_id {A} (f : list A → list A) k n (c : list A) :
  (∀ x, length x = k → f x = x) →
  n * k ≤ length c →
  f <$> chunks k n c = chunks k n c.
Proof.
  intros Hf. revert c. induction n as [|n IH]; intros c Hlen; [done|].
  cbn [chunks fmap list_fmap]. f_equal.
  - apply Hf. rewrite length_take. lia.
  - apply IH. rewrite length_drop. lia.
Qed.

Lemma bcast_same {A} s (c : list A) :
  length c = nd_size s → bcast s s c = c.
Proof.
  revert c. induction s as [|n s IH]; intros c Hlen; [done|].
  cbn [bcast]. rewrite decide_True by done.
  cbn [nd_size foldr] in Hlen. fold (nd_size s) in Hlen.
  rewrite chunks_fmap_id; [|apply IH|lia].
  rewrite concat_chunks. apply take_ge. lia.
Qed.

Lemma compatible_refl s : compatible s s = true.
Proof.
  unfold compatible. apply bool_decide_eq_true.
  induction s; constructor; auto.
Qed.

Lemma strip_ones_0 vs : strip_ones 0 vs = vs.
Proof. by destruct vs. Qed.

Lemma broadcast_to_same {A} s (c : list A) :
  length c = nd_size s → broadcast_to s c s = Some c.
Proof.
  intros Hlen. unfold broadcast_to.
  rewrite Nat.sub_diag, strip_ones_0, Nat.sub_diag. cbn [replicate app].
  by rewrite compatible_refl, bcast_same.
Qed.

(** A value whose rank is that of the target and one of whose axes has
    neither the size of the target nor size 1 is refused. *)
Lemma broadcast_to_mismatch {A} vs (c : list A) ts :
  length vs = length ts →
  (∃ a v t, vs !! a = Some v ∧ ts !! a = Some t ∧ v ≠ t ∧ v ≠ 1) →
  broadcast_to vs c ts = None.
Proof.
  intros Hlen (a & v & t & Hv & Ht & Hne & Hne1). unfold broadcast_to.
  rewrite Hlen, Nat.sub_diag, strip_ones_0, Hlen, Nat.sub_diag. cbn [replicate app].
  unfold compatible. rewrite bool_decide_false; [done|].
  intros Hall. destruct (Forall2_lookup_lr _ _ _ _ _ _ Hall Hv Ht); done.
Qed.

(** ** The dict combiner *)

Lemma bind_run {A B} (m : M A) (f : A → M B) c x c1 :
  run m c = (inr x, c1) → (m ≫= f) c = f x c1.
Proof. unfold run, mbind, M_bind. by intros ->. Qed.

Lemma bind_bind_lift_inr {A B C} (x : A) (f : A → M B) (g : B → M C) c :
  ((lift (inr x) ≫= f) ≫= g) c = (f x ≫= g) c.
Proof. reflexivity. Qed.

Lemma bind_mret {A B} (x : A) (f : A → M B) c : (mret x ≫= f) c = f x c.
Proof. reflexivity. Qed.














(** ** The cat combiner *)

Lemma run_bind_error {A B} (m : M A) (f : A → M B) c :
  (∀ x c1, m c = (inr x, c1) → ∃ e, (f x c1).1 = inl e) →
  ∃ e, ((m ≫= f) c).1 = inl e.
Proof.
  intros H. unfold mbind, M_bind. destruct (m c) as [[e|x] c1]; [by exists e|].
  by apply H.
Qed.

Lemma result_bind_error {A B} (r : result A) (f : A → result B) :
  (∀ x, r = inr x → ∃ e, f x = inl e) → ∃ e, r ≫= f = inl e.
Proof. intros H. destruct r as [e|x]; [by exists e|]. by apply H. Qed.

Lemma setitem_rows_shape {A} (out v out' : array A) start stop :
  setitem_rows out start stop v = inr out' → shape out' = shape out.
Proof.
  unfold setitem_rows. destruct (shape out) as [|n [|m s]] eqn:Hs; try done.
  destruct (broadcast_to _ _ _); [|done]. by intros [= <-].
Qed.

Lemma setitem_rows_mismatch {A} (out v : array A) start stop nt s0 n sj :
  shape out = nt :: s0 → shape v = n :: sj → length sj = length s0 →
  (∃ a x t, sj !! a = Some x ∧ s0 !! a = Some t ∧ x ≠ t ∧ x ≠ 1) →
  setitem_rows out start stop v = inl broadcast_error.
Proof.
  intros Hout Hv Hlen (a & x & t & Hx & Ht & Hne & Hne1).
  unfold setitem_rows. rewrite Hout. destruct s0 as [|m s0]; [done|].
  rewrite Hv, broadcast_to_mismatch; [done|by cbn; rewrite Hlen|].
  by exists (S a), x, t.
Qed.

(** The loop of [_cat_files] fails at the latest at the file whose array
    does not fit the rows of the output. *)
Lemma cat_loop_mismatch varname with_meta mv latname lonname timename
    nt s0 n sj f var :
  getvar f varname = inr var →
  shape (vdata var) = n :: sj →
  length sj = length s0 →
  (∃ a x t, sj !! a = Some x ∧ s0 !! a = Some t ∧ x ≠ t ∧ x ≠ 1) →
  ∀ wrf_iter j startidx outdata ag,
    wrf_iter !! j = Some f →
    shape outdata = nt :: s0 →
    ∃ e, cat_loop wrf_iter varname with_meta mv latname lonname timename
           startidx outdata ag = inl e.
Proof.
  intros Hvar Hshape Hlen Hbad.
  induction wrf_iter as [|f0 wrf_iter IH]; intros j startidx outdata ag Hj Hout; [done|].
  cbn [cat_loop]. destruct j as [|j]; simpl in Hj.
  - injection Hj as ->. rewrite Hvar. cbn [fmap result_fmap mbind result_bind].
    unfold shape0. rewrite Hshape. cbn [lookup list_lookup from_option mbind result_bind].
    rewrite (setitem_rows_mismatch _ _ _ _ nt s0 n sj); by eauto.
  - apply result_bind_error. intros vardata _.
    apply result_bind_error. intros numtimes _.
    apply result_bind_error. intros outdata' Hset.
    apply result_bind_error. intros ag' _.
    apply (IH j); [done|]. by rewrite (setitem_rows_shape _ _ _ _ _ Hset).
Qed.

(** C7 (amended). Cat, all times: when the array of a file after the first
    has the rank of the first file's array and a non-time axis whose size is
    neither that of the first file nor 1, the combination raises an error
    and returns no array. *)
Theorem cat_refuses_unfit_shapes xe first rest varname mv sq meta key c
    var0 n0 s0 j f var n sj :
  getvar first varname = inr var0 →
  shape (vdata var0) = n0 :: s0 →
  rest !! j = Some f →
  getvar f varname = inr var →
  shape (vdata var) = n :: sj →
  length sj = length s0 →
  (∃ a x t, sj !! a = Some x ∧ s0 !! a = Some t ∧ x ≠ t ∧ x ≠ 1) →
  ∃ e, (run (_cat_files xe (Seq (first :: rest)) varname None mv sq meta key) c).1
       = inl e.
Proof.
  intros Hvar0 Hshape0 Hj Hvar Hshape Hlen Hbad.
  unfold run, _cat_files.
  apply run_bind_error. intros is_moving c1 _.
  apply run_bind_error. intros file_times c2 _.
  cbn [iter_files]. rewrite bind_lift_inr. cbn [next]. rewrite bind_lift_inr.
  apply run_bind_error. intros first_var c3 Hfirst.
  assert (Hdata : values_of first_var = inr (plain (vdata var0))).
  { destruct (xe && meta).
    - apply fmap_inv in Hfirst as (da & Hda & ->).
      apply _build_data_array_values in Hda as (var' & Hvar' & Hv).
      rewrite Hvar0 in Hvar'. injection Hvar' as <-. cbn. by rewrite Hv.
    - apply lift_inv in Hfirst as [Hfirst _]. rewrite Hvar0 in Hfirst.
      by injection Hfirst as <-. }
  rewrite Hdata. cbn [fmap result_fmap arr plain]. rewrite bind_lift_inr.
  apply run_bind_error. intros ntimes c4 _.
  apply run_bind_error. intros numtimes c5 _.
  apply run_bind_error. intros outdata c6 [Hset _]%lift_inv.
  apply setitem_rows_shape in Hset. cbn [np_empty np_full shape] in Hset.
  rewrite Hshape0 in Hset. cbn [tail] in Hset.
  destruct first_var as [a|fv| |].
  - destruct (cat_loop_mismatch varname false is_moving None None None
                ntimes s0 n sj f var Hvar Hshape Hlen Hbad rest j numtimes
                outdata no_aggregates Hj Hset) as [e He].
    exists e. unfold mbind, M_bind, lift. by rewrite He.
  - destruct (_find_coord_names (da_coords fv)) as [[latname lonname] timename].
    apply run_bind_error. intros ag c7 _.
    destruct (cat_loop_mismatch varname true is_moving latname lonname timename
                ntimes s0 n sj f var Hvar Hshape Hlen Hbad rest j numtimes
                outdata ag Hj Hset) as [e He].
    exists e. unfold mbind, M_bind, lift. by rewrite He.
  - done.
  - done.
Qed.

Lemma cat_refuses_unfit_shapes_witness :
  (run (_cat_files true (Seq [file3; file2; wide_file]) "T" None (Some false)
          true false None) ∅).1 = inl broadcast_error.
Proof.
  destruct (cat_refuses_unfit_shapes true file3 [file2; wide_file] "T" (Some false)
              true false None ∅ (sample_field 3 0) 3 [2; 2] 1 wide_file
              {| vdimensions := ["Time"; "south_north"; "west_east"];
                 coordinates := Some ["XLONG"; "XLAT"]; stagger := None;
                 vdtype := Floating;
                 vdata := NdArray [2; 2; 3] (Z.of_nat <$> seq 0 12) |}
              2 [2; 3]) as [e He];
    [vm_compute; reflexivity..| |].
  - exists 1, 3, 2. repeat split; done.
  - rewrite He. revert He. vm_compute. congruence.
Defined.

(** C7, as stated, fails: the second file has one cell per time where the
    first has a 2 x 2 grid; its cells are repeated over the grid and an
    array is returned. *)
Lemma cat_refuses_unfit_shapes_counterexample :
  (tail ∘ shape ∘ vdata <$> variables file3 !! "T") = Some [2; 2] ∧
  (tail ∘ shape ∘ vdata <$> variables unit_file !! "T") = Some [1; 1] ∧
  (run (_cat_files true (Seq [file3; unit_file]) "T" None (Some false)
          true false None) ∅).1
  = inr (PlainArray (plain (NdArray [5; 2; 2]
           [0; 1; 2; 3; 4; 5; 6; 7; 8; 9; 10; 11; 7; 7; 7; 7; 8; 8; 8; 8]%Z))).
Proof. repeat split; vm_compute; reflexivity. Qed.

(** ** The join combiner *)

Lemma max_time_loop_spec varname s files exts datas :
  Forall3 (holds_field varname s) files exts datas →
  ∀ m, max_time_loop files m = inr (m `max` max_list exts).
Proof.
  induction 1 as [|f n d files exts datas (Hn & _) _ IH]; intros m.
  - cbn. f_equal. lia.
  - cbn [max_time_loop extract_dim]. rewrite (extract_dim_time _ _ Hn).
    cbn [mbind result_bind]. rewrite IH. f_equal. cbn. case_decide; lia.
Qed.

Lemma broadcast_to_newaxis {A} n s (d : list A) :
  length d = nd_size (n :: s) → broadcast_to (1 :: n :: s) d (n :: s) = Some d.
Proof.
  intros Hd. unfold broadcast_to. cbn [length].
  replace (S (S (length s)) - S (length s)) with 1 by lia.
  cbn [strip_ones length]. rewrite Nat.sub_diag. cbn [replicate app].
  by rewrite compatible_refl, bcast_same.
Qed.

Lemma setitem_file_rows_fit {A} (out v : array A) k m s i n (d pre post : list A) :
  s ≠ [] → i < k → n ≤ m →
  broadcast_to (shape v) (cells v) (n :: s) = Some d →
  length pre = i * (m * nd_size s) →
  length post = n * nd_size s →
  ∀ rest,
    out = NdArray (k :: m :: s) (pre ++ post ++ rest) →
    setitem_file_rows out i n v = inr (NdArray (k :: m :: s) (pre ++ d ++ rest)).
Proof.
  intros Hs Hi Hn Hd Hpre Hpost rest ->. unfold setitem_file_rows. cbn [shape cells].
  destruct s as [|a s]; [done|]. rewrite decide_False by lia.
  rewrite Nat.min_l by lia. rewrite Hd.
  do 2 f_equal. rewrite <-Hpre, take_app_length. f_equal.
  rewrite drop_app_add, <-Hpost. by rewrite drop_app_length.
Qed.

Lemma join_step_cells (fill : Z) k m sz i n :
  i < k → n ≤ m →
  replicate ((k - i) * (m * sz)) fill
  = replicate (n * sz) fill ++ replicate ((m - n) * sz) fill
    ++ replicate ((k - S i) * (m * sz)) fill.
Proof.
  intros Hi Hn. rewrite <-!replicate_add. f_equal.
  replace (k - i) with (S (k - S i)) by lia.
  assert (n * sz + (m - n) * sz = m * sz)
    by (rewrite <-Nat.mul_add_distr_r; f_equal; lia).
  cbn [Nat.mul]. lia.
Qed.

(** The loop of [_join_files] without metadata: each file fills its block
    of the buffer, for a request of all times and of one time alike. *)
Lemma join_loop_spec xe fill varname multitime mv k m s files exts datas :
  s ≠ [] →
  Forall3 (holds_field varname s) files exts datas →
  Forall (λ n, n ≤ m) exts →
  ∀ idx pre less tc ag,
    length pre = idx * (m * nd_size s) →
    idx + length files ≤ k →
    join_loop xe files varname multitime false mv None None None m idx
      {| j_outdata := NdArray (k :: m :: s)
                        (pre ++ replicate ((k - idx) * (m * nd_size s)) fill);
         j_less_than_max := less; j_time_coord := tc; j_aggregates := ag |}
    = inr {| j_outdata :=
               NdArray (k :: m :: s)
                 (pre ++ concat (zip_with (join_block fill m (nd_size s)) exts datas)
                  ++ replicate ((k - idx - length files) * (m * nd_size s)) fill);
             j_less_than_max := less || bool_decide (Exists (λ n, n < m) exts);
             j_time_coord := tc; j_aggregates := ag |}.
Proof.
  intros Hs Hall. induction Hall as [|f n d files exts datas (Hn & Hd & var & Hvar & Hdata) _ IH];
    intros Hle idx pre less tc ag Hpre Hidx.
  - cbn [join_loop zip_with concat length app].
    rewrite Nat.sub_0_r, orb_false_r. done.
  - apply Forall_cons in Hle as [Hnm Hle]. cbn [length] in Hidx.
    cbn [join_loop extract_dim]. rewrite (extract_dim_time _ _ Hn).
    cbn [mbind result_bind]. unfold getvar. rewrite Hvar.
    cbn [from_option fmap result_fmap mbind result_bind j_outdata
         j_less_than_max j_time_coord j_aggregates].
    rewrite Hdata.
    assert (Hfit : ∃ outvar,
      (if negb multitime then newaxis (NdArray (n :: s) d) else inr (NdArray (n :: s) d))
      = inr outvar ∧ broadcast_to (shape outvar) (cells outvar) (n :: s) = Some d).
    { destruct multitime; cbn [negb].
      - eexists. split; [done|]. by apply broadcast_to_same.
      - eexists. split; [done|]. by apply broadcast_to_newaxis. }
    destruct Hfit as (outvar & -> & Hfit). cbn [mbind result_bind].
    rewrite (setitem_file_rows_fit _ outvar k m s idx n d pre (replicate (n * nd_size s) fill)
               Hs ltac:(lia) Hnm Hfit Hpre ltac:(by rewrite length_replicate)
               (replicate ((m - n) * nd_size s) fill
                ++ replicate ((k - S idx) * (m * nd_size s)) fill)).
    2:{ f_equal. f_equal. apply join_step_cells; lia. }
    cbn [mbind result_bind].
    specialize (IH Hle (S idx) (pre ++ join_block fill m (nd_size s) n d)
                  (if decide (n < m) then true else less) tc ag).
    assert (Hcells :
      pre ++ d ++ replicate ((m - n) * nd_size s) fill
      ++ replicate ((k - S idx) * (m * nd_size s)) fill
      = (pre ++ join_block fill m (nd_size s) n d)
        ++ replicate ((k - S idx) * (m * nd_size s)) fill).
    { unfold join_block. by rewrite <-!app_assoc. }
    rewrite Hcells, IH.
    + f_equal. f_equal.
      * f_equal. cbn [zip_with concat length]. rewrite <-!app_assoc.
        do 3 f_equal. f_equal. lia.
      * destruct (decide (n < m)) as [Hlt|Hge].
        -- rewrite (bool_decide_true (Exists _ (n :: exts))) by (by left).
           by rewrite orb_true_r.
        -- f_equal. apply bool_decide_ext.
           rewrite Exists_cons. split; [by right|intros [?|?]; [lia|done]].
    + unfold join_block.
      rewrite !length_app, Hpre, Hd, length_replicate.
      assert (n * nd_size s + (m - n) * nd_size s = m * nd_size s)
        by (rewrite <-Nat.mul_add_distr_r; f_equal; lia).
      cbn [Nat.mul]. lia.
    + lia.
Qed.

(** With metadata the loop fills the buffer with the same cells. *)
Lemma join_loop_meta_data xe varname multitime mv latname lonname timename m files :
  ∀ idx st st',
    join_loop xe files varname multitime true mv latname lonname timename m idx st
    = inr st' →
    ∀ tc ag, ∃ st0,
      join_loop xe files varname multitime false mv None None None m idx
        {| j_outdata := j_outdata st; j_less_than_max := j_less_than_max st;
           j_time_coord := tc; j_aggregates := ag |} = inr st0 ∧
      j_outdata st0 = j_outdata st' ∧
      j_less_than_max st0 = j_less_than_max st'.
Proof.
  induction files as [|f files IH]; intros idx st st' Hrun tc ag.
  - cbn [join_loop] in *. injection Hrun as <-. by eexists.
  - cbn [join_loop] in *.
    destruct (extract_dim (Single f) "Time") as [?|numtimes]; [done|].
    cbn [mbind result_bind] in *.
    destruct (vdata <$> getvar f varname) as [?|outvar]; [done|].
    cbn [mbind result_bind] in *.
    destruct (if negb multitime then newaxis outvar else inr outvar) as [?|outvar'];
      [done|].
    cbn [mbind result_bind j_outdata j_less_than_max j_time_coord j_aggregates] in *.
    destruct (setitem_file_rows (j_outdata st) idx numtimes outvar') as [?|outdata];
      [done|].
    cbn [mbind result_bind] in *.
    destruct (join_coords_step _ _ _ _ _ _ _ _ _ _ _) as [?|[tc' ag']]; [done|].
    cbn [mbind result_bind] in Hrun.
    destruct (IH _ _ _ Hrun tc ag) as (st0 & Hst0 & ? & ?).
    exists st0. by rewrite <-Hst0.
Qed.

Lemma join_metadata_values fill fv numfiles timeidx mv latname lonname timename
    time_coord ag outdata da :
  join_metadata fill fv numfiles timeidx mv latname lonname timename
    time_coord ag outdata = inr da →
  match timeidx with
  | None => inr outdata
  | Some t => ma_select_time outdata t
  end = inr (da_values da).
Proof.
  unfold join_metadata. intros H.
  repeat match type of H with
  | (?r ≫= _) = inr _ =>
      let x := fresh "x" in
      destruct r as [?|x]; [done|]; cbn [mbind result_bind] in H;
      try (destruct x as [? ?])
  end.
  unfold mkDataArray in H. case_decide; [|done]. injection H as <-. cbn [da_values].
  by destruct timeidx.
Qed.

Lemma masks_cell_fill t fill : masks_cell t fill fill = true.
Proof.
  destruct t; cbn [masks_cell]; try by apply bool_decide_eq_true.
  unfold isclose. apply bool_decide_eq_true. lia.
Qed.

Lemma mask_of_blocks t fill m sz exts datas :
  masks_cell t fill <$> concat (zip_with (join_block fill m sz) exts datas)
  = concat (zip_with (join_mask_block t fill m sz) exts datas).
Proof.
  revert datas. induction exts as [|n exts IH]; intros [|d datas]; try done.
  cbn [zip_with concat]. rewrite fmap_app, IH. f_equal.
  unfold join_block, join_mask_block. rewrite fmap_app, fmap_replicate.
  by rewrite masks_cell_fill.
Qed.

Lemma join_result_buffer t fill k m s n d exts datas e :
  t ≠ Character →
  m = max_list (n :: exts) →
  k = length (n :: exts) →
  e = 0 →
  (if bool_decide (n < m) || bool_decide (Exists (λ n, n < m) exts)
   then masked_values t
          (NdArray (k :: m :: s)
             (join_block fill m (nd_size s) n d
              ++ concat (zip_with (join_block fill m (nd_size s)) exts datas)
              ++ replicate (e * (m * nd_size s)) fill)) fill
   else inr (plain
          (NdArray (k :: m :: s)
             (join_block fill m (nd_size s) n d
              ++ concat (zip_with (join_block fill m (nd_size s)) exts datas)
              ++ replicate (e * (m * nd_size s)) fill))))
  = join_buffer t fill s (n :: exts) (d :: datas).
Proof.
  intros Ht Hm Hk ->. unfold join_buffer. rewrite <-Hm, <-Hk.
  assert (Hcells :
    join_block fill m (nd_size s) n d
    ++ concat (zip_with (join_block fill m (nd_size s)) exts datas)
    ++ replicate (0 * (m * nd_size s)) fill
    = concat (zip_with (join_block fill m (nd_size s)) (n :: exts) (d :: datas))).
  { cbn [zip_with concat Nat.mul replicate]. by rewrite app_nil_r. }
  rewrite Hcells.
  assert (Hragged :
    bool_decide (n < m) || bool_decide (Exists (λ n, n < m) exts)
    = bool_decide (Exists (λ n, n < m) (n :: exts))).
  { symmetry. destruct (decide (n < m)) as [Hlt|Hge].
    - rewrite (bool_decide_true (n < m)) by done.
      by rewrite (bool_decide_true (Exists _ (n :: exts))) by (by left).
    - rewrite (bool_decide_false (n < m)) by done. cbn [orb].
      apply bool_decide_ext. rewrite Exists_cons.
      split; [intros [?|?]; [lia|done]|by right]. }
  rewrite Hragged. destruct (bool_decide (Exists _ (n :: exts))); [|done].
  unfold masked_values. cbn [cells]. rewrite mask_of_blocks. by destruct t.
Qed.

Lemma first_dtype_cons varname f files var t :
  first_dtype varname (f :: files) = Some t →
  variables f !! varname = Some var → vdtype var = t.
Proof. unfold first_dtype. cbn. intros H Hvar. rewrite Hvar in H. by injection H. Qed.

Lemma holds_field_lengths varname s files exts datas :
  Forall3 (holds_field varname s) files exts datas → length files = length exts.
Proof. induction 1; cbn [length]; congruence. Qed.

(** [_join_files] when it returns plain arrays. *)
Lemma join_files_plain xe fill files exts datas varname s t timeidx is_moving meta
    key c mv c1 :
  files ≠ [] → s ≠ [] →
  Forall3 (holds_field varname s) files exts datas →
  first_dtype varname files = Some t → t ≠ Character →
  run (match is_moving with
       | None => is_moving_domain (Seq files) (Some varname)
                   default_latvar default_lonvar key
       | Some b => mret b
       end) c = (inr mv, c1) →
  xe && meta = false →
  run (_join_files xe fill (Seq files) varname timeidx is_moving meta key) c
  = (PlainArray <$> (join_buffer t fill s exts datas ≫= requested timeidx), c1).
Proof.
  intros Hfiles Hs Hall Ht Hnum Hdet Hplain.
  pose proof (max_time_loop_spec _ _ _ _ _ Hall 0) as Hmax.
  pose proof (holds_field_lengths _ _ _ _ _ Hall) as Hlen.
  set (m := max_list exts) in *.
  assert (Hle : Forall (λ n, n ≤ m) exts).
  { apply Forall_forall. intros n Hn. by apply max_list_elem_of_le. }
  destruct Hall as [|f n d rest exts datas (Hn & Hd & var & Hvar & Hdata) Hall]; [done|].
  apply Forall_cons in Hle as [Hnm Hle]. cbn [length] in Hlen.
  unfold run at 1, _join_files.
  rewrite (bind_run _ _ _ _ _ Hdet).
  cbn [iter_files]. rewrite bind_lift_inr.
  unfold _find_max_time_size. rewrite Hmax, bind_lift_inr. cbn [Nat.max].
  cbn [next]. rewrite bind_lift_inr.
  cbn [extract_dim]. rewrite (extract_dim_time _ _ Hn), bind_lift_inr.
  rewrite Hplain. unfold getvar. rewrite Hvar.
  cbn [from_option fmap result_fmap]. rewrite bind_bind_lift_inr, bind_mret.
  rewrite bind_lift_inr, (first_dtype_cons _ _ _ _ _ Ht Hvar).
  cbn [values_of fmap result_fmap plain arr]. rewrite bind_lift_inr.
  rewrite Hdata. cbn [shape tail _get_numfiles length].
  rewrite (setitem_file_rows_fit _ (NdArray (n :: s) d) (S (length rest)) m s 0 n d []
             (replicate (n * nd_size s) fill) Hs ltac:(lia) Hnm
             ltac:(by apply broadcast_to_same) eq_refl
             ltac:(by rewrite length_replicate)
             (replicate ((m - n) * nd_size s) fill
              ++ replicate ((S (length rest) - 1) * (m * nd_size s)) fill)).
  2:{ unfold np_full. f_equal. cbn [app nd_size foldr]. fold (nd_size s).
      rewrite <-(join_step_cells fill (S (length rest)) m (nd_size s) 0 n) by lia.
      f_equal; lia. }
  rewrite bind_lift_inr. cbn [app].
  pose proof (join_loop_spec xe fill varname (is_multi_time_req timeidx) mv
                (S (length rest)) m s rest exts datas
                Hs Hall Hle 1 (join_block fill m (nd_size s) n d)
                (bool_decide (n < m)) (np_full [S (length rest); m] NaT) no_aggregates)
    as Hloop.
  unfold join_block in Hloop at 1 2. rewrite <-!app_assoc in Hloop.
  rewrite Hloop.
  - rewrite bind_lift_inr. cbn [j_less_than_max j_outdata].
    rewrite (join_result_buffer t fill (S (length rest)) m s n d exts datas).
    + destruct (join_buffer t fill s (n :: exts) (d :: datas)) as [e|full]; [done|].
      rewrite bind_lift_inr. cbn [mbind result_bind].
      fold (requested timeidx full).
      unfold fmap at 1, M_fmap, lift. by destruct (requested _ _).
    + done.
    + reflexivity.
    + cbn [length]. lia.
    + lia.
  - rewrite !length_app, Hd, length_replicate.
    assert (n * nd_size s + (m - n) * nd_size s = m * nd_size s)
      by (rewrite <-Nat.mul_add_distr_r; f_equal; lia).
    lia.
  - lia.
Qed.

(** [_join_files] when it returns arrays with metadata: whenever it
    returns, the values are those of the plain path. *)
Lemma join_files_meta fill files exts datas varname s t timeidx is_moving key c out c' :
  files ≠ [] → s ≠ [] →
  Forall3 (holds_field varname s) files exts datas →
  first_dtype varname files = Some t → t ≠ Character →
  run (_join_files true fill (Seq files) varname timeidx is_moving true key) c
  = (inr out, c') →
  values_of out = join_buffer t fill s exts datas ≫= requested timeidx.
Proof.
  intros Hfiles Hs Hall Ht Hnum H.
  pose proof (max_time_loop_spec _ _ _ _ _ Hall 0) as Hmax.
  pose proof (holds_field_lengths _ _ _ _ _ Hall) as Hlen.
  set (m := max_list exts) in *.
  assert (Hle : Forall (λ n, n ≤ m) exts).
  { apply Forall_forall. intros n Hn. by apply max_list_elem_of_le. }
  destruct Hall as [|f n d rest exts datas (Hn & Hd & var & Hvar & Hdata) Hall]; [done|].
  apply Forall_cons in Hle as [Hnm Hle]. cbn [length] in Hlen.
  unfold run, _join_files in H.
  apply bind_inv in H as (mv & c1 & _ & H).
  cbn [iter_files] in H. rewrite bind_lift_inr in H.
  unfold _find_max_time_size in H. rewrite Hmax, bind_lift_inr in H. cbn [Nat.max] in H.
  cbn [next] in H. rewrite bind_lift_inr in H.
  cbn [extract_dim] in H. rewrite (extract_dim_time _ _ Hn), bind_lift_inr in H.
  cbn [andb] in H.
  apply bind_inv in H as ([fv0 tc] & c2 & Hfv & H).
  apply bind_inv in Hfv as (fv & c3 & Hbuild & Hfv).
  apply bind_inv in Hfv as (tc0 & c4 & [Htc ->]%lift_inv & Hfv).
  injection Hfv as <- <- <-.
  apply _build_data_array_values in Hbuild as (var' & Hvar' & Hvals).
  unfold getvar in Hvar'. rewrite Hvar in Hvar'. injection Hvar' as <-.
  unfold getvar in H. rewrite Hvar in H.
  cbn [from_option fmap result_fmap] in H. rewrite bind_lift_inr in H.
  rewrite (first_dtype_cons _ _ _ _ _ Ht Hvar) in H.
  cbn [values_of fmap result_fmap] in H. rewrite bind_lift_inr in H.
  rewrite Hvals in H. cbn [plain arr] in H. rewrite Hdata in H.
  cbn [shape tail _get_numfiles length] in H.
  rewrite (setitem_file_rows_fit _ (NdArray (n :: s) d) (S (length rest)) m s 0 n d []
             (replicate (n * nd_size s) fill) Hs ltac:(lia) Hnm
             ltac:(by apply broadcast_to_same) eq_refl
             ltac:(by rewrite length_replicate)
             (replicate ((m - n) * nd_size s) fill
              ++ replicate ((S (length rest) - 1) * (m * nd_size s)) fill)) in H.
  2:{ unfold np_full. f_equal. cbn [app nd_size foldr]. fold (nd_size s).
      rewrite <-(join_step_cells fill (S (length rest)) m (nd_size s) 0 n) by lia.
      f_equal; lia. }
  rewrite bind_lift_inr in H. cbn [app] in H.
  destruct (_find_coord_names (da_coords fv)) as [[la lo] ti].
  apply bind_inv in H as (ag & c5 & _ & H).
  apply bind_inv in H as (st & c6 & [Hloop ->]%lift_inv & H).
  apply bind_inv in H as (outdata & c8 & [Hmask ->]%lift_inv & H).
  apply bind_inv in H as (u & c7 & _ & H).
  apply fmap_inv in H as (da & H & ->).
  apply lift_inv in H as [Hmeta _].
  apply join_metadata_values in Hmeta. cbn [values_of].
  fold (requested timeidx outdata) in Hmeta.
  rewrite <-Hmeta. revert Hmask.
  destruct (join_loop_meta_data _ _ _ _ _ _ _ _ _ _ _ _ Hloop
              (np_full [S (length rest); m] NaT) no_aggregates)
    as (st0 & Hst0 & <- & <-).
  cbn [j_outdata j_less_than_max] in Hst0.
  pose proof (join_loop_spec true fill varname (is_multi_time_req timeidx) mv
                (S (length rest)) m s rest exts datas
                Hs Hall Hle 1 (join_block fill m (nd_size s) n d)
                (bool_decide (n < m)) (np_full [S (length rest); m] NaT) no_aggregates)
    as Hspec.
  unfold join_block in Hspec at 1 2. rewrite <-!app_assoc in Hspec.
  rewrite Hspec in Hst0.
  - injection Hst0 as <-. cbn [j_less_than_max j_outdata].
    rewrite (join_result_buffer t fill (S (length rest)) m s n d exts datas).
    + by intros ->.
    + done.
    + reflexivity.
    + cbn [length]. lia.
    + lia.
  - rewrite !length_app, Hd, length_replicate.
    assert (n * nd_size s + (m - n) * nd_size s = m * nd_size s)
      by (rewrite <-Nat.mul_add_distr_r; f_equal; lia).
    lia.
  - lia.
Qed.

(** Time [k] of a buffer of blocks of [m] times each. *)
Lemma take_axis1_concat {A} m k sz (blocks : list (list A)) :
  Forall (λ b, length b = m * sz) blocks → k < m →
  take_axis1 (length blocks) m k sz (concat blocks)
  = concat (block_row sz k <$> blocks).
Proof.
  intros Hall Hk. unfold take_axis1.
  induction Hall as [|b blocks Hb _ IH]; [done|].
  cbn [length seq fmap list_fmap concat]. f_equal.
  - unfold block_row. cbn [Nat.mul Nat.add].
    assert (k * sz + sz ≤ m * sz) by nia.
    rewrite drop_app_le by lia. rewrite take_app_le; [done|].
    rewrite length_drop. lia.
  - rewrite <-IH, <-fmap_S_seq, <-list_fmap_compose. f_equal.
    apply list_fmap_ext. intros _ j _. cbn [compose]. f_equal.
    replace ((S j * m + k) * sz) with (length b + (j * m + k) * sz) by (rewrite Hb; lia).
    by rewrite drop_app_add.
Qed.

Lemma join_blocks_length {B} varname s (g : nat → list Z → list B) m files exts datas :
  Forall3 (holds_field varname s) files exts datas →
  (∀ n d, n ≤ m → length d = n * nd_size s → length (g n d) = m * nd_size s) →
  Forall (λ n, n ≤ m) exts →
  Forall (λ b, length b = m * nd_size s) (zip_with g exts datas) ∧
  length (zip_with g exts datas) = length files.
Proof.
  intros Hall Hg.
  induction Hall as [|f n d files exts datas (_ & Hd & _) _ IH]; intros Hle; [done|].
  apply Forall_cons in Hle as [Hn Hle]. destruct (IH Hle) as [IH1 IH2].
  cbn [zip_with length]. split; [|by rewrite IH2].
  constructor; [by apply Hg|done].
Qed.

Lemma ma_select_time_blocks m sz s k i (blocks : list (list Z)) (masks : option (list (list bool))) :
  s ≠ [] → sz = nd_size s →
  Forall (λ b, length b = m * sz) blocks →
  (∀ ms, masks = Some ms →
         Forall (λ b, length b = m * sz) ms ∧ length ms = length blocks) →
  norm_index m i = Some k → k < m →
  ma_select_time (MArray (NdArray (length blocks :: m :: s) (concat blocks))
                    ((λ ms, concat ms) <$> masks)) i
  = inr (MArray (NdArray (length blocks :: 1 :: s) (concat (block_row sz k <$> blocks)))
           ((λ ms, concat (block_row sz k <$> ms)) <$> masks)).
Proof.
  intros Hs -> Hall Hmasks Hi Hk.
  unfold ma_select_time, select_axis1_rows, select_axis1, ndim.
  cbn [arr shape cells length mask]. rewrite decide_False by (destruct s; [done|cbn; lia]).
  rewrite Hi. cbn [mbind result_bind].
  unfold insert_axis1_rows, insert_axis1, ndim. cbn [shape cells length].
  rewrite decide_False by (destruct s; [done|cbn; lia]).
  cbn [mbind result_bind]. rewrite take_axis1_concat by done.
  destruct masks as [ms|]; cbn [fmap option_fmap option_map]; [|done].
  destruct (Hmasks ms eq_refl) as [Hms Hlen].
  pose proof (take_axis1_concat m k (nd_size s) ms Hms Hk) as Hm.
  rewrite Hlen in Hm.
  rewrite ?decide_False by (destruct s; [done|cbn; lia]).
  cbn [mbind result_bind cells]. rewrite ?Hi. cbn [mbind result_bind cells].
  by rewrite ?Hm.
Qed.

Lemma norm_index_lt n i k : norm_index n i = Some k → k < n.
Proof.
  unfold norm_index. repeat case_decide; intros [= <-]; lia.
Qed.

(** C2 (amended). Join of files over an extra leading axis: the buffer has
    one block per file and as many times as the longest file; the block of
    a file holds its cells followed by fill values up to that many times.
    With equal extents nothing is masked.  Otherwise the buffer goes
    through [np.ma.masked_values]: for a variable of a type that holds the
    sentinel, the positions beyond the extent of each file are masked, and
    so is any position within it whose value the masking test takes for the
    sentinel (on floating data: within the tolerance of it; on integer
    data: equal to it); for a variable of a type that cannot hold the
    sentinel the join raises [TypeError].  A request for one time gives that
    time of every block, of buffer and mask alike, with a time axis of
    length 1, and an index beyond the longest extent is an [IndexError].
    Without metadata this is the result; with metadata these are its
    values whenever it returns.  The variable has one numeric element type
    in all the files. *)
Theorem join_masking xe fill files exts datas varname s t timeidx is_moving meta key c :
  files ≠ [] → s ≠ [] →
  Forall3 (holds_field varname s) files exts datas →
  Forall (has_dtype varname t) files → t ≠ Character →
  let m := max_list exts in
  let sz := nd_size s in
  let ragged := bool_decide (Exists (λ n, n < m) exts) in
  let blocks := zip_with (join_block fill m sz) exts datas in
  let masks := zip_with (join_mask_block t fill m sz) exts datas in
  let final : result marray :=
    if ragged && negb (holds_value t fill) then inl fill_value_error
    else
      match timeidx with
      | None =>
          inr (MArray (NdArray (length files :: m :: s) (concat blocks))
                 (if ragged then Some (concat masks) else None))
      | Some i =>
          match norm_index m i with
          | Some k =>
              inr (MArray (NdArray (length files :: 1 :: s)
                             (concat (block_row sz k <$> blocks)))
                     (if ragged then Some (concat (block_row sz k <$> masks))
                      else None))
          | None => inl (IndexError "index out of bounds for axis 1")
          end
      end in
  let detected :=
    run (match is_moving with
         | None => is_moving_domain (Seq files) (Some varname)
                     default_latvar default_lonvar key
         | Some b => mret b
         end) c in
  let joined := run (_join_files xe fill (Seq files) varname timeidx is_moving meta key) c in
  (∀ mv, detected.1 = inr mv → xe && meta = false →
         joined = (PlainArray <$> final, detected.2)) ∧
  (∀ out, joined.1 = inr out → values_of out = final) ∧
  ((∀ n, n ∈ exts → n = m) → ragged = false) ∧
  (ragged = true → holds_value t fill = false → is_error joined.1 = true).
Proof.
  intros Hfiles Hs Hall Htypes Hnum m sz ragged blocks masks final detected joined.
  assert (Ht : first_dtype varname files = Some t).
  { destruct Htypes as [|f files' (var & Hvar & Hv) _]; [done|].
    unfold first_dtype. cbn. by rewrite Hvar, <-Hv. }
  assert (Hle : Forall (λ n, n ≤ m) exts).
  { apply Forall_forall. intros n Hn. by apply max_list_elem_of_le. }
  assert (Hblock : ∀ n d, n ≤ m → length d = n * sz →
                          length (join_block fill m sz n d) = m * sz).
  { intros n d Hn Hd. unfold join_block. rewrite length_app, length_replicate, Hd. nia. }
  assert (Hmblock : ∀ n d, n ≤ m → length d = n * sz →
                           length (join_mask_block t fill m sz n d) = m * sz).
  { intros n d Hn Hd. unfold join_mask_block.
    rewrite length_app, length_fmap, length_replicate, Hd. nia. }
  destruct (join_blocks_length varname s (join_block fill m sz) m files exts datas
              Hall Hblock Hle) as [Hblocks Hnb].
  destruct (join_blocks_length varname s (join_mask_block t fill m sz) m files exts datas
              Hall Hmblock Hle) as [Hmasks Hnm].
  fold blocks in Hblocks, Hnb. fold masks in Hmasks, Hnm.
  assert (Hfinal : final = join_buffer t fill s exts datas ≫= requested timeidx).
  { unfold final, join_buffer. fold m sz ragged blocks masks.
    rewrite <-(holds_field_lengths _ _ _ _ _ Hall).
    assert (Hone : ∀ (ms : option (list (list bool))),
      (∀ l, ms = Some l → l = masks) →
      requested timeidx (MArray (NdArray (length files :: m :: s) (concat blocks))
                           ((λ l, concat l) <$> ms))
      = match timeidx with
        | None => inr (MArray (NdArray (length files :: m :: s) (concat blocks))
                         ((λ l, concat l) <$> ms))
        | Some i =>
            match norm_index m i with
            | Some k =>
                inr (MArray (NdArray (length files :: 1 :: s)
                               (concat (block_row sz k <$> blocks)))
                       ((λ l, concat (block_row sz k <$> l)) <$> ms))
            | None => inl (IndexError "index out of bounds for axis 1")
            end
        end).
    { intros ms Hms. destruct timeidx as [i|]; [|done]. cbn [requested].
      destruct (norm_index m i) as [k|] eqn:Hi.
      - rewrite <-Hnb.
        apply (ma_select_time_blocks m sz s k i blocks ms); try done.
        + intros l Hl. rewrite (Hms l Hl). split; [done|congruence].
        + by apply norm_index_lt in Hi.
      - unfold ma_select_time, select_axis1_rows, select_axis1, ndim.
        cbn [arr shape cells length].
        rewrite decide_False by (destruct s; [done|cbn; lia]).
        by rewrite Hi. }
    destruct ragged; cbn [andb].
    - destruct (holds_value t fill); cbn [negb]; [|done].
      cbn [mbind result_bind].
      pose proof (Hone (Some masks) ltac:(by intros ? [= <-])) as H1.
      cbn [fmap option_fmap option_map] in H1. by rewrite H1.
    - cbn [mbind result_bind]. unfold plain.
      pose proof (Hone None ltac:(done)) as H1.
      cbn [fmap option_fmap option_map] in H1. by rewrite H1. }
  assert (Hplain : ∀ mv, detected.1 = inr mv → xe && meta = false →
                         joined = (PlainArray <$> final, detected.2)).
  { intros mv Hmv Hxe. rewrite Hfinal. subst joined.
    destruct detected as [rv c1] eqn:Hdet. cbn [fst snd] in *. subst rv.
    by apply (join_files_plain _ _ _ _ _ _ _ _ _ _ _ _ _ mv). }
  assert (Hvalues : ∀ out, joined.1 = inr out → values_of out = final).
  { intros out Hout. destruct (xe && meta) eqn:Hxe.
    - apply andb_true_iff in Hxe as [-> ->]. rewrite Hfinal.
      subst joined. destruct (run _ c) as [r c'] eqn:Hrun in Hout.
      cbn [fst] in Hout. subst r. by eapply join_files_meta.
    - assert (∃ mv, detected.1 = inr mv) as [mv Hmv].
      { destruct joined as [r c'] eqn:Hrun. cbn [fst] in Hout. subst r joined.
        unfold run at 1, _join_files in Hrun.
        apply bind_inv in Hrun as (mv & c1 & Hdet & _).
        exists mv. subst detected. unfold run. by rewrite Hdet. }
      subst joined. rewrite (Hplain mv Hmv eq_refl) in Hout. cbn [fst] in Hout.
      destruct final as [e|a]; [done|]. injection Hout as <-. done. }
  split; [done|]. split; [done|]. split.
  - intros Heq. apply bool_decide_eq_false. rewrite Exists_exists.
    intros (n & Hn & Hlt). specialize (Heq n Hn). lia.
  - intros Hr Hh. destruct joined.1 as [e|out] eqn:Hj; [done|].
    specialize (Hvalues out eq_refl). unfold final in Hvalues.
    rewrite Hr, Hh in Hvalues. cbn [andb negb] in Hvalues.
    by destruct out.
Qed.

Lemma join_masking_witness :
  (run (_join_files true 999 (Seq [file3; file2]) "T" None (Some false)
          false None) ∅).1
  = inr (PlainArray
           (MArray (NdArray [2; 3; 2; 2]
                      [0; 1; 2; 3; 4; 5; 6; 7; 8; 9; 10; 11;
                       100; 101; 102; 103; 104; 105; 106; 107;
                       999; 999; 999; 999]%Z)
                   (Some (replicate 20 false ++ replicate 4 true)))) ∧
  (run (_join_files true 999 (Seq [file3; file2]) "T" (Some 2%Z) (Some false)
          false None) ∅).1
  = inr (PlainArray
           (MArray (NdArray [2; 1; 2; 2] [8; 9; 10; 11; 999; 999; 999; 999]%Z)
                   (Some (replicate 4 false ++ replicate 4 true)))) ∧
  match (run (_join_files true 999 (Seq [file3; file2]) "T" None (Some false)
                true None) ∅).1 with
  | inr out =>
      values_of out
      = inr (MArray (NdArray [2; 3; 2; 2]
                       [0; 1; 2; 3; 4; 5; 6; 7; 8; 9; 10; 11;
                        100; 101; 102; 103; 104; 105; 106; 107;
                        999; 999; 999; 999]%Z)
                    (Some (replicate 20 false ++ replicate 4 true)))
  | inl _ => False
  end ∧
  (run (_join_files true 999 (Seq [file3; file3]) "T" None (Some false)
          false None) ∅).1
  = inr (PlainArray
           (plain (NdArray [2; 3; 2; 2]
                     (((λ i, Z.of_nat i) <$> seq 0 12) ++ ((λ i, Z.of_nat i) <$> seq 0 12))))) ∧
  (run (_join_files true NC_FILL (Seq [near_sentinel_file; short_file]) "T" None
          (Some false) false None) ∅).1
  = inr (PlainArray
           (MArray (NdArray [2; 2; 1; 2]
                      [NC_FILL + 2 ^ 100; 1; 2; 3; 10; 11; NC_FILL; NC_FILL]%Z)
                   (Some [true; false; false; false; false; false; true; true]))) ∧
  (run (_join_files true NC_FILL (Seq [category_file 2 0; category_file 1 10]) "ISLTYP"
          None (Some false) false None) ∅).1
  = inl fill_value_error ∧
  (run (_join_files true NC_FILL (Seq [category_file 2 0; category_file 2 10]) "ISLTYP"
          None (Some false) false None) ∅).1
  = inr (PlainArray (plain (NdArray [2; 2; 1; 2] [0; 1; 2; 3; 10; 11; 12; 13]%Z))).
Proof.
  split; [|split; [|split; [|split; [|split; [|split]]]]].
  - destruct (join_masking true 999 [file3; file2] [3; 2]
                [(λ i, 0 + Z.of_nat i)%Z <$> seq 0 12;
                 (λ i, 100 + Z.of_nat i)%Z <$> seq 0 8]
                "T" [2; 2] Floating None (Some false) false None ∅) as (H & _ & _);
      [discriminate|discriminate| | |discriminate|].
    + repeat constructor; eexists; split; reflexivity.
    + repeat constructor; eexists; split; reflexivity.
    + rewrite (H false eq_refl eq_refl). vm_compute. reflexivity.
  - destruct (join_masking true 999 [file3; file2] [3; 2]
                [(λ i, 0 + Z.of_nat i)%Z <$> seq 0 12;
                 (λ i, 100 + Z.of_nat i)%Z <$> seq 0 8]
                "T" [2; 2] Floating (Some 2%Z) (Some false) false None ∅) as (H & _ & _);
      [discriminate|discriminate| | |discriminate|].
    + repeat constructor; eexists; split; reflexivity.
    + repeat constructor; eexists; split; reflexivity.
    + rewrite (H false eq_refl eq_refl). vm_compute. reflexivity.
  - destruct (join_masking true 999 [file3; file2] [3; 2]
                [(λ i, 0 + Z.of_nat i)%Z <$> seq 0 12;
                 (λ i, 100 + Z.of_nat i)%Z <$> seq 0 8]
                "T" [2; 2] Floating None (Some false) true None ∅) as (_ & H & _);
      [discriminate|discriminate| | |discriminate|].
    + repeat constructor; eexists; split; reflexivity.
    + repeat constructor; eexists; split; reflexivity.
    + destruct (run _ ∅).1 as [e|out] eqn:Hrun.
      * vm_compute in Hrun. discriminate.
      * rewrite (H out eq_refl). vm_compute. reflexivity.
  - destruct (join_masking true 999 [file3; file3] [3; 3]
                [(λ i, 0 + Z.of_nat i)%Z <$> seq 0 12;
                 (λ i, 0 + Z.of_nat i)%Z <$> seq 0 12]
                "T" [2; 2] Floating None (Some false) false None ∅) as (H & _ & Heq);
      [discriminate|discriminate| | |discriminate|].
    + repeat constructor; eexists; split; reflexivity.
    + repeat constructor; eexists; split; reflexivity.
    + rewrite (H false eq_refl eq_refl). vm_compute. reflexivity.
  - destruct (join_masking true NC_FILL [near_sentinel_file; short_file] [2; 1]
                [[NC_FILL + 2 ^ 100; 1; 2; 3]; [10; 11]]%Z
                "T" [1; 2] Floating None (Some false) false None ∅) as (H & _ & _);
      [discriminate|discriminate| | |discriminate|].
    + repeat constructor; eexists; split; reflexivity.
    + repeat constructor; eexists; split; reflexivity.
    + rewrite (H false eq_refl eq_refl). vm_compute. reflexivity.
  - destruct (join_masking true NC_FILL [category_file 2 0; category_file 1 10] [2; 1]
                [[0; 1; 2; 3]; [10; 11]]%Z
                "ISLTYP" [1; 2] (Integer 32) None (Some false) false None ∅)
      as (H & _ & _); [discriminate|discriminate| | |discriminate|].
    + repeat constructor; eexists; split; reflexivity.
    + repeat constructor; eexists; split; reflexivity.
    + rewrite (H false eq_refl eq_refl). vm_compute. reflexivity.
  - destruct (join_masking true NC_FILL [category_file 2 0; category_file 2 10] [2; 2]
                [[0; 1; 2; 3]; [10; 11; 12; 13]]%Z
                "ISLTYP" [1; 2] (Integer 32) None (Some false) false None ∅)
      as (H & _ & _); [discriminate|discriminate| | |discriminate|].
    + repeat constructor; eexists; split; reflexivity.
    + repeat constructor; eexists; split; reflexivity.
    + rewrite (H false eq_refl eq_refl). vm_compute. reflexivity.
Defined.

(** C2, as stated, fails: with the NetCDF default as fill value, the first
    cell of the first file (time 0 of 2) holds that value and is masked,
    though it lies within the time extent of its file. *)
Lemma join_masking_counterexample :
  let joined := run (_join_files true NC_FILL (Seq [sentinel_file; short_file]) "T"
                       None (Some false) false None) ∅ in
  ∃ out bits,
    joined.1 = inr (PlainArray out) ∧
    shape (arr out) = [2; 2; 1; 2] ∧
    mask out = Some bits ∧
    bits !! 0 = Some true ∧
    spec_join_mask 2 2 [2; 1] !! 0 = Some false ∧
    bits ≠ spec_join_mask 2 2 [2; 1].
Proof.
  cbv zeta. eexists _, _. split; [vm_compute; reflexivity|].
  repeat split; try (vm_compute; reflexivity). vm_compute. discriminate.
Qed.

(** * Further properties of the module *)

(** ** Iteration in the error monad *)

Lemma mapM_result_ok {A B} (f : A → result B) (l : list A) :
  Forall (λ x, ∃ y, f x = inr y) l →
  ∃ ys, mapM f l = inr ys ∧ Forall2 (λ x y, f x = inr y) l ys.
Proof.
  induction 1 as [|x l [y Hy] _ (ys & Hys & Hall)].
  - exists []. by split; [|constructor].
  - exists (y :: ys). cbn [mapM]. rewrite Hy. cbn [mbind result_bind].
    rewrite Hys. split; [done|]. by constructor.
Qed.

Lemma mapM_result_Forall2 {A B} (f : A → result B) (l : list A) ys :
  Forall2 (λ x y, f x = inr y) l ys → mapM f l = inr ys.
Proof.
  induction 1 as [|x y l ys Hy _ IH]; [done|].
  cbn [mapM]. rewrite Hy. cbn [mbind result_bind]. by rewrite IH.
Qed.

(** ** The cat combiner: the output is the concatenation *)

Lemma norm_index_nat n i : i < n → norm_index n (Z.of_nat i) = Some i.
Proof.
  intros Hi. unfold norm_index. rewrite decide_True by lia. by rewrite Nat2Z.id.
Qed.

Lemma _make_time_scalar r y : _make_time r = inr y → shape y = [].
Proof.
  unfold _make_time. destruct (npbytes_to_str r); [done|]. cbn [mbind result_bind].
  destruct (strptime _); [done|]. cbn [mbind result_bind]. by intros [= <-].
Qed.

Lemma mapM_result_compose {A B C} (f : A → result B) (g : B → result C) l ys :
  Forall2 (λ x y, f x = inr y) l ys →
  Forall (λ x, is_error (f x ≫= g) = false) l →
  ∃ zs, mapM g ys = inr zs ∧ Forall2 (λ y z, g y = inr z) ys zs.
Proof.
  induction 1 as [|x y l ys Hy _ IH]; intros Hall.
  - exists []. by split; [|constructor].
  - apply Forall_cons in Hall as [Hx Hall]. destruct (IH Hall) as (zs & Hzs & Hall2).
    rewrite Hy in Hx. cbn [mbind result_bind] in Hx.
    destruct (g y) as [?|z] eqn:Hz; [done|].
    exists (z :: zs). cbn [mapM]. rewrite Hz. cbn [mbind result_bind]. rewrite Hzs.
    split; [done|]. by constructor.
Qed.

(** The time stamps of a file: one item per row of [Times]. *)
Lemma _file_times_stamps f n :
  time_stamps f n →
  ∃ rows, _file_times f false = inr rows ∧ length rows = n ∧
          Forall (λ r, shape r = []) rows.
Proof.
  intros (tv & w & Htv & Hshape & Hvalid). unfold _file_times, getvar. cbn [negb].
  rewrite Htv. cbn [from_option fmap result_fmap mbind result_bind].
  unfold getitem_all, ndim. rewrite Hshape. cbn [length].
  rewrite decide_False by lia. cbn [mbind result_bind].
  unfold shape0. rewrite Hshape. cbn [lookup list_lookup from_option mbind result_bind].
  destruct (mapM_result_ok (λ i, getitem_row (vdata tv) (Z.of_nat i)) (seq 0 n))
    as (rows & Hrows & Hall).
  { apply Forall_forall. intros i Hi%elem_of_seq.
    unfold getitem_row, ndim, getitem. rewrite Hshape. cbn [length].
    rewrite decide_False by lia. rewrite norm_index_nat by lia. by eexists. }
  unfold rows2_of. rewrite Hrows. cbn [mbind result_bind].
  destruct (mapM_result_compose _ _make_time _ _ Hall) as (stamps & Hstamps & Hall2).
  { eapply Forall_impl; [exact Hvalid|]. intros i Hi. cbn beta in *.
    unfold getitem_row, ndim. rewrite Hshape. cbn [length].
    by rewrite decide_False by lia. }
  exists stamps. split; [done|]. split.
  - apply Forall2_length in Hall, Hall2. rewrite length_seq in Hall. lia.
  - assert (Hscalar : ∀ ys zs, Forall2 (λ y z, _make_time y = inr z) ys zs →
                               Forall (λ r : ndarray, shape r = []) zs).
    { induction 1; constructor; eauto using _make_time_scalar. }
    by eapply Hscalar.
Qed.

Lemma np_stack_scalars (rows : list ndarray) :
  Forall (λ r, shape r = []) rows →
  ∃ cs, np_stack rows = inr (NdArray [length rows] cs).
Proof.
  intros Hall. unfold np_stack. destruct rows as [|r rows]; [by eexists|].
  rewrite bool_decide_true.
  - apply Forall_cons in Hall as [-> _]. by eexists.
  - apply Forall_cons in Hall as [Hr Hall]. rewrite Hr.
    constructor; [done|]. done.
Qed.

Lemma extract_times_cat_length xe files exts :
  Forall2 time_stamps files exts →
  ∃ ft, extract_times xe (Seq files) None "cat" false false = inr ft ∧
        py_len ft = inr (sum_list exts).
Proof.
  intros Hall.
  assert (∃ rows, mapM (λ f, _file_times f false) files = inr rows ∧
                  length (concat rows) = sum_list exts ∧
                  Forall (λ r, shape r = []) (concat rows)) as (rows & Hrows & Hlen & Hsh).
  { induction Hall as [|f n files exts Hf _ (rows & Hrows & Hlen & Hsh)].
    - exists []. by repeat split.
    - destruct (_file_times_stamps f n Hf) as (r & Hr & Hrl & Hrs).
      exists (r :: rows). cbn [mapM]. rewrite Hr. cbn [mbind result_bind].
      rewrite Hrows. cbn [mbind result_bind mret result_ret concat].
      split; [done|]. split; [by rewrite length_app, Hrl, Hlen|].
      by apply Forall_app. }
  unfold extract_times. rewrite decide_True by done. rewrite Hrows.
  cbn [mbind result_bind].
  destruct (np_stack_scalars _ Hsh) as (cs & ->).
  rewrite andb_false_r. cbn [mbind result_bind].
  eexists. split; [done|]. cbn. by rewrite Hlen.
Qed.

Lemma setitem_rows_fit {A} (out : array A) N s start n (d pre post : list A) :
  s ≠ [] → start + n ≤ N →
  length d = n * nd_size s →
  length pre = start * nd_size s →
  length post = n * nd_size s →
  ∀ rest,
    out = NdArray (N :: s) (pre ++ post ++ rest) →
    setitem_rows out start (start + n) (NdArray (n :: s) d)
    = inr (NdArray (N :: s) (pre ++ d ++ rest)).
Proof.
  intros Hs Hn Hd Hpre Hpost rest ->. unfold setitem_rows. cbn [shape cells].
  destruct s as [|a s]; [done|].
  rewrite (Nat.min_l start) by lia. rewrite (Nat.min_l (start + n)) by lia.
  rewrite Nat.max_l by lia. replace (start + n - start) with n by lia.
  rewrite broadcast_to_same by done.
  do 2 f_equal. rewrite <-Hpre, take_app_length. f_equal.
  rewrite Nat.mul_add_distr_r, <-Hpre, <-Hpost.
  replace (length pre + length post) with (length (pre ++ post))
    by (by rewrite length_app).
  by rewrite app_assoc, drop_app_length.
Qed.

(** The loop of [_cat_files] without metadata: each file fills the rows
    after those of the files before it. *)
Lemma cat_loop_spec varname mv N s files exts datas :
  s ≠ [] →
  Forall3 (cat_field varname s) files exts datas →
  ∀ start pre ag,
    length pre = start * nd_size s →
    start + sum_list exts ≤ N →
    cat_loop files varname false mv None None None start
      (NdArray (N :: s) (pre ++ replicate ((N - start) * nd_size s) 0%Z)) ag
    = inr (NdArray (N :: s)
             (pre ++ concat datas
              ++ replicate ((N - start - sum_list exts) * nd_size s) 0%Z), ag).
Proof.
  intros Hs Hall.
  induction Hall as [|f n d files exts datas (Hd & (var & Hvar & Hdata) & _) _ IH];
    intros start pre ag Hpre Hle.
  - cbn [cat_loop concat sum_list sum_list_with app]. by rewrite Nat.sub_0_r.
  - change (start + (n + sum_list exts) ≤ N) in Hle.
    cbn [cat_loop]. unfold getvar. rewrite Hvar.
    cbn [from_option fmap result_fmap mbind result_bind]. rewrite Hdata.
    unfold shape0. cbn [shape lookup list_lookup from_option mbind result_bind].
    rewrite (setitem_rows_fit _ N s start n d pre (replicate (n * nd_size s) 0%Z)
               Hs ltac:(lia) Hd Hpre ltac:(by rewrite length_replicate)
               (replicate ((N - (start + n)) * nd_size s) 0%Z)).
    2:{ f_equal. f_equal. rewrite <-replicate_add. f_equal.
        rewrite <-Nat.mul_add_distr_r. f_equal. lia. }
    cbn [mbind result_bind].
    specialize (IH (start + n) (pre ++ d) ag).
    rewrite <-app_assoc in IH. rewrite IH.
    + change (sum_list (n :: exts)) with (n + sum_list exts). cbn [concat].
      rewrite <-!app_assoc.
      by replace (N - (start + n) - sum_list exts)
        with (N - start - (n + sum_list exts)) by lia.
    + rewrite length_app, Hpre, Hd. lia.
    + lia.
Qed.

Lemma cat_field_times varname s files exts datas :
  Forall3 (cat_field varname s) files exts datas →
  Forall2 time_stamps files exts.
Proof. induction 1 as [|f n d ? ? ? (_ & _ & ?)]; by constructor. Qed.

Lemma sum_list_concat_length s (exts : list nat) (datas : list (list Z)) :
  Forall2 (λ n d, length d = n * nd_size s) exts datas →
  length (concat datas) = sum_list exts * nd_size s.
Proof.
  induction 1 as [|n d exts datas Hd _ IH]; [done|].
  change (sum_list (n :: exts)) with (n + sum_list exts).
  cbn [concat]. rewrite length_app, Hd, IH. lia.
Qed.

(** The first assignment and the loop of [_cat_files] together. *)
Lemma cat_fill varname mv s f n d files exts datas ag :
  s ≠ [] →
  Forall3 (cat_field varname s) (f :: files) (n :: exts) (d :: datas) →
  (outdata ← setitem_rows (np_empty (sum_list (n :: exts) :: s)) 0 n (NdArray (n :: s) d);
   cat_loop files varname false mv None None None n outdata ag)
  = inr (NdArray (sum_list (n :: exts) :: s) (concat (d :: datas)), ag).
Proof.
  intros Hs Hall.
  inversion Hall as [|? ? ? ? ? ? (Hd & _ & _) Hall']; subst; clear Hall.
  rename Hall' into Hall.
  change (sum_list (n :: exts)) with (n + sum_list exts).
  pose proof (setitem_rows_fit (np_empty ((n + sum_list exts) :: s))
                (n + sum_list exts) s 0 n d [] (replicate (n * nd_size s) 0%Z)
                Hs ltac:(lia) Hd eq_refl ltac:(by rewrite length_replicate)
                (replicate (sum_list exts * nd_size s) 0%Z)) as Hfirst.
  cbn [Nat.add app] in Hfirst. rewrite Hfirst.
  2:{ unfold np_empty, np_full. f_equal. cbn [nd_size foldr]. fold (nd_size s).
      rewrite <-replicate_add. f_equal. lia. }
  cbn [mbind result_bind].
  pose proof (cat_loop_spec varname mv (n + sum_list exts) s files exts datas Hs Hall
                n d ag Hd ltac:(lia)) as Hloop.
  replace (n + sum_list exts - n) with (sum_list exts) in Hloop by lia.
  rewrite Hloop. rewrite Nat.sub_diag. cbn [Nat.mul replicate concat].
  by rewrite app_nil_r.
Qed.

(** [_cat_files] when it returns plain arrays. *)
Lemma cat_files_plain xe files exts datas varname s is_moving sq meta key c mv c1 :
  files ≠ [] → s ≠ [] →
  Forall3 (cat_field varname s) files exts datas →
  run (match is_moving with
       | None => is_moving_domain (Seq files) (Some varname)
                   default_latvar default_lonvar key
       | Some b => mret b
       end) c = (inr mv, c1) →
  xe && meta = false →
  run (_cat_files xe (Seq files) varname None is_moving sq meta key) c
  = (inr (PlainArray (plain (NdArray (sum_list exts :: s) (concat datas)))), c1).
Proof.
  intros Hfiles Hs Hall Hdet Hplain.
  destruct (extract_times_cat_length xe files exts (cat_field_times _ _ _ _ _ Hall))
    as (ft & Hft & Hlen).
  inversion Hall as [|f n d rest exts' datas' (Hd & (var & Hvar & Hdata) & Ht) Hrest];
    subst; [done|].
  unfold run at 1, _cat_files.
  rewrite (bind_run _ _ _ _ _ Hdet).
  rewrite Hft, bind_lift_inr.
  cbn [iter_files]. rewrite bind_lift_inr. cbn [next]. rewrite bind_lift_inr.
  rewrite Hplain. unfold getvar. rewrite Hvar.
  cbn [from_option fmap result_fmap compose]. rewrite bind_lift_inr.
  cbn [values_of fmap result_fmap plain arr]. rewrite bind_lift_inr.
  rewrite Hlen, bind_lift_inr. rewrite Hdata.
  unfold shape0. cbn [shape tail lookup list_lookup from_option]. rewrite bind_lift_inr.
  pose proof (cat_fill varname mv s f n d rest exts' datas' no_aggregates Hs Hall)
    as Hfill.
  destruct (setitem_rows _ 0 n _) as [e|outdata]; [done|].
  cbn [mbind result_bind] in Hfill. rewrite bind_lift_inr.
  rewrite Hfill. by rewrite bind_lift_inr.
Qed.

(** With metadata the loop fills the output with the same cells. *)
Lemma cat_loop_meta_data varname mv latname lonname timename files :
  ∀ start outdata ag out ag',
    cat_loop files varname true mv latname lonname timename start outdata ag
    = inr (out, ag') →
    ∀ ag0, cat_loop files varname false mv None None None start outdata ag0
           = inr (out, ag0).
Proof.
  induction files as [|f files IH]; intros start outdata ag out ag' Hrun ag0.
  - cbn [cat_loop] in *. by injection Hrun as <- _.
  - cbn [cat_loop] in *.
    destruct (vdata <$> getvar f varname) as [?|vardata]; [done|].
    cbn [mbind result_bind] in *.
    destruct (shape0 vardata) as [?|numtimes]; [done|].
    cbn [mbind result_bind] in *.
    destruct (setitem_rows outdata start (start + numtimes) vardata) as [?|outdata'];
      [done|].
    cbn [mbind result_bind] in *.
    destruct (cat_coords_step _ _ _ _ _ _ _ _ _) as [?|ag1]; [done|].
    cbn [mbind result_bind] in Hrun. by eapply IH.
Qed.

Lemma cat_metadata_values fv times mv latname lonname timename ag outdata da :
  cat_metadata fv times mv latname lonname timename ag outdata = inr da →
  da_values da = plain outdata.
Proof.
  unfold cat_metadata, mkDataArray. case_decide; [|done]. by intros [= <-].
Qed.

(** [_cat_files] when it returns arrays with metadata: whenever it returns,
    the values are those of the plain path. *)
Lemma cat_files_meta files exts datas varname s is_moving sq key c out c' :
  files ≠ [] → s ≠ [] →
  Forall3 (cat_field varname s) files exts datas →
  run (_cat_files true (Seq files) varname None is_moving sq true key) c
  = (inr out, c') →
  values_of out = inr (plain (NdArray (sum_list exts :: s) (concat datas))).
Proof.
  intros Hfiles Hs Hall H.
  destruct (extract_times_cat_length true files exts (cat_field_times _ _ _ _ _ Hall))
    as (ft & Hft & Hlen).
  inversion Hall as [|f n d rest exts' datas' (Hd & (var & Hvar & Hdata) & Ht) Hrest];
    subst; [done|].
  unfold run, _cat_files in H.
  apply bind_inv in H as (mv & c1 & _ & H).
  rewrite Hft, bind_lift_inr in H.
  cbn [iter_files] in H. rewrite bind_lift_inr in H.
  cbn [next] in H. rewrite bind_lift_inr in H. cbn [andb] in H.
  apply bind_inv in H as (fv0 & c2 & Hfv & H).
  apply fmap_inv in Hfv as (fv & Hbuild & ->).
  apply _build_data_array_values in Hbuild as (var' & Hvar' & Hvals).
  unfold getvar in Hvar'. rewrite Hvar in Hvar'. injection Hvar' as <-.
  cbn [values_of fmap result_fmap] in H. rewrite bind_lift_inr in H.
  rewrite Hvals in H. cbn [plain arr] in H. rewrite Hdata in H.
  rewrite Hlen, bind_lift_inr in H.
  unfold shape0 in H. cbn [shape tail lookup list_lookup from_option] in H.
  rewrite bind_lift_inr in H.
  apply bind_inv in H as (outdata & c3 & [Hset ->]%lift_inv & H).
  destruct (_find_coord_names (da_coords fv)) as [[la lo] ti].
  apply bind_inv in H as (ag & c4 & _ & H).
  apply bind_inv in H as ([out' ag'] & c5 & [Hloop ->]%lift_inv & H).
  apply bind_inv in H as (u & c6 & _ & H).
  apply bind_inv in H as (times & c7 & _ & H).
  apply fmap_inv in H as (da & H & ->).
  apply lift_inv in H as [Hmeta _].
  apply cat_metadata_values in Hmeta. cbn [values_of]. rewrite Hmeta.
  pose proof (cat_fill varname mv s f n d rest exts' datas' no_aggregates Hs Hall)
    as Hfill.
  rewrite Hset in Hfill. cbn [mbind result_bind] in Hfill.
  rewrite (cat_loop_meta_data _ _ _ _ _ _ _ _ _ _ _ Hloop no_aggregates) in Hfill.
  by injection Hfill as ->.
Qed.

(** X1. Cat, all times: when every file holds the variable with one non-time
    shape and one element type, and as many time stamps as it has times,
    each of them a time [strptime] accepts, the output is the concatenation
    of the files' arrays along the time axis, in the order of the files:
    its time axis has the sum of the time extents.  Without metadata this
    is the result; with metadata these are its values whenever it
    returns. *)
Theorem cat_concatenates xe files exts datas varname s t is_moving sq meta key c :
  files ≠ [] → s ≠ [] →
  Forall3 (cat_field varname s) files exts datas →
  Forall (has_dtype varname t) files →
  let full := plain (NdArray (sum_list exts :: s) (concat datas)) in
  let detected :=
    run (match is_moving with
         | None => is_moving_domain (Seq files) (Some varname)
                     default_latvar default_lonvar key
         | Some b => mret b
         end) c in
  let catted := run (_cat_files xe (Seq files) varname None is_moving sq meta key) c in
  (∀ mv, detected.1 = inr mv → xe && meta = false →
         catted = (inr (PlainArray full), detected.2)) ∧
  (∀ out, catted.1 = inr out → values_of out = inr full).
Proof.
  intros Hfiles Hs Hall _ full detected catted.
  assert (Hplain : ∀ mv, detected.1 = inr mv → xe && meta = false →
                         catted = (inr (PlainArray full), detected.2)).
  { intros mv Hmv Hxe. subst catted.
    destruct detected as [rv c1] eqn:Hdet. cbn [fst snd] in *. subst rv.
    by apply (cat_files_plain _ _ _ _ _ _ _ _ _ _ _ mv). }
  split; [done|].
  intros out Hout. destruct (xe && meta) eqn:Hxe.
  - apply andb_true_iff in Hxe as [-> ->].
    subst catted. destruct (run _ c) as [r c'] eqn:Hrun in Hout.
    cbn [fst] in Hout. subst r. by eapply cat_files_meta.
  - assert (∃ mv, detected.1 = inr mv) as [mv Hmv].
    { destruct catted as [r c'] eqn:Hrun. cbn [fst] in Hout. subst r catted.
      unfold run at 1, _cat_files in Hrun.
      apply bind_inv in Hrun as (mv & c1 & Hdet & _).
      exists mv. subst detected. unfold run. by rewrite Hdet. }
    subst catted. rewrite (Hplain mv Hmv eq_refl) in Hout. cbn [fst] in Hout.
    by injection Hout as <-.
Qed.

(** The time stamps of a file are checked by reading them. *)
Lemma time_stamps_check f n tv w :
  variables f !! "Times" = Some tv →
  shape (vdata tv) = [n; w] →
  forallb (λ i, negb (is_error (getitem (vdata tv) (Z.of_nat i) ≫= _make_time)))
    (seq 0 n) = true →
  time_stamps f n.
Proof.
  intros Htv Hshape Hall. exists tv, w. split; [done|]. split; [done|].
  apply Forall_forall. intros i Hi.
  rewrite forallb_forall in Hall. apply negb_true_iff, Hall.
  by apply list_elem_of_In.
Qed.

Local Ltac sample_fields :=
  repeat constructor; try reflexivity;
  first [ eapply time_stamps_check; [reflexivity|reflexivity|vm_compute; reflexivity]
        | eexists; split; reflexivity ].

Lemma cat_concatenates_witness :
  (run (_cat_files true (Seq [file3; file2]) "T" None (Some false) false false None) ∅).1
  = inr (PlainArray
           (plain (NdArray [5; 2; 2]
                     [0; 1; 2; 3; 4; 5; 6; 7; 8; 9; 10; 11;
                      100; 101; 102; 103; 104; 105; 106; 107]%Z))) ∧
  match (run (_cat_files true (Seq [file3; file2]) "T" None (Some false) false true
                None) ∅).1 with
  | inr out =>
      values_of out
      = inr (plain (NdArray [5; 2; 2]
                      [0; 1; 2; 3; 4; 5; 6; 7; 8; 9; 10; 11;
                       100; 101; 102; 103; 104; 105; 106; 107]%Z))
  | inl _ => False
  end.
Proof.
  split.
  - destruct (cat_concatenates true [file3; file2] [3; 2]
                [(λ i, 0 + Z.of_nat i)%Z <$> seq 0 12;
                 (λ i, 100 + Z.of_nat i)%Z <$> seq 0 8]
                "T" [2; 2] Floating (Some false) false false None ∅) as (H & _);
      [discriminate|discriminate| | |].
    + sample_fields.
    + repeat constructor; eexists; split; reflexivity.
    + rewrite (H false eq_refl eq_refl). vm_compute. reflexivity.
  - destruct (cat_concatenates true [file3; file2] [3; 2]
                [(λ i, 0 + Z.of_nat i)%Z <$> seq 0 12;
                 (λ i, 100 + Z.of_nat i)%Z <$> seq 0 8]
                "T" [2; 2] Floating (Some false) false true None ∅) as (_ & H);
      [discriminate|discriminate| | |].
    + sample_fields.
    + repeat constructor; eexists; split; reflexivity.
    + destruct (run _ ∅).1 as [e|out] eqn:Hrun.
      * vm_compute in Hrun. discriminate.
      * rewrite (H out eq_refl). vm_compute. reflexivity.
Defined.

(** ** The cat combiner: a request for one time *)

Lemma read_time_plain xe f varname l mv key c var n s d :
  s ≠ [] →
  variables f !! varname = Some var →
  vdata var = NdArray (n :: s) d →
  l < n →
  run (read_time xe f varname (Z.of_nat l) mv false key) c
  = (inr (PlainArray (time_row s d l)), c).
Proof.
  intros Hs Hvar Hdata Hl. unfold run, read_time, lift, getvar. rewrite Hvar.
  cbn [from_option mbind result_bind]. rewrite Hdata.
  unfold getitem_row, ndim, getitem. cbn [shape cells length].
  destruct s as [|a s]; [done|]. cbn [length]. rewrite decide_False by lia.
  rewrite norm_index_nat by done. cbn [mbind result_bind].
  unfold newaxis, ndim. cbn [shape length]. rewrite decide_False by lia.
  done.
Qed.

Lemma read_time_meta_values xe f varname l mv key c out c' var n s d :
  s ≠ [] →
  variables f !! varname = Some var →
  vdata var = NdArray (n :: s) d →
  l < n →
  run (read_time xe f varname (Z.of_nat l) mv true key) c = (inr out, c') →
  values_of out = inr (time_row s d l).
Proof.
  intros Hs Hvar Hdata Hl. unfold run, read_time.
  intros (da & Hda & ->)%fmap_inv.
  apply _build_data_array_values in Hda as (var' & Hvar' & r & Hr & Hv).
  unfold getvar in Hvar'. rewrite Hvar in Hvar'. injection Hvar' as <-.
  rewrite Hdata in Hr. unfold getitem_row, ndim, getitem in Hr.
  cbn [shape cells length] in Hr. destruct s as [|a s]; [done|].
  cbn [length] in Hr. rewrite decide_False in Hr by lia.
  rewrite norm_index_nat in Hr by done. injection Hr as <-.
  cbn [values_of]. by rewrite Hv.
Qed.

Lemma read_time_row xe f varname l mv meta key c var n s d :
  s ≠ [] →
  variables f !! varname = Some var →
  vdata var = NdArray (n :: s) d →
  l < n →
  let r := run (read_time xe f varname (Z.of_nat l) mv meta key) c in
  (meta = false → r = (inr (PlainArray (time_row s d l)), c)) ∧
  (∀ out, r.1 = inr out → values_of out = inr (time_row s d l)).
Proof.
  intros Hs Hvar Hdata Hl r. split.
  - intros ->. by eapply read_time_plain.
  - intros out Hout. destruct meta.
    + destruct r as [x c'] eqn:Hr. cbn [fst] in Hout. subst x.
      by eapply read_time_meta_values.
    + subst r. rewrite (read_time_plain _ _ _ _ _ _ _ _ _ _ _ Hs Hvar Hdata Hl) in Hout.
      by injection Hout as <-.
Qed.

Lemma time_row_app_l s (a b : list Z) k :
  (S k) * nd_size s ≤ length a → time_row s (a ++ b) k = time_row s a k.
Proof.
  intros Hk. unfold time_row. do 2 f_equal.
  rewrite drop_app_le by lia. rewrite take_app_le; [done|].
  rewrite length_drop. lia.
Qed.

Lemma time_row_app_r s (a b : list Z) n k :
  length a = n * nd_size s → time_row s (a ++ b) (n + k) = time_row s b k.
Proof.
  intros Ha. unfold time_row. do 2 f_equal.
  rewrite Nat.mul_add_distr_r, <-Ha. by rewrite drop_app_add.
Qed.

Lemma holds_field_cells varname s files exts datas :
  Forall3 (holds_field varname s) files exts datas →
  length (concat datas) = sum_list exts * nd_size s.
Proof.
  induction 1 as [|f n d files exts datas (_ & Hd & _) _ IH]; [done|].
  change (sum_list (n :: exts)) with (n + sum_list exts).
  cbn [concat]. rewrite length_app, Hd, IH. lia.
Qed.

(** The forward walk returns the row the index names among the rows of all
    the files. *)
Lemma forward_loop_row xe varname s mv meta key t files exts datas :
  s ≠ [] →
  Forall3 (holds_field varname s) files exts datas →
  ∀ combo k c,
    t = (combo + Z.of_nat k)%Z → k < sum_list exts →
    let r := forward_loop xe files combo varname t mv meta key c in
    (meta = false → r = (inr (PlainArray (time_row s (concat datas) k)), c)) ∧
    (∀ out, r.1 = inr out → values_of out = inr (time_row s (concat datas) k)).
Proof.
  intros Hs Hall.
  induction Hall as [|f n d files exts datas (Hn & Hd & var & Hvar & Hdata) Hall IH];
    intros combo k c -> Hk; [cbn in Hk; lia|].
  change (sum_list (n :: exts)) with (n + sum_list exts) in Hk.
  cbn [forward_loop extract_dim]. rewrite (extract_dim_time _ _ Hn).
  rewrite bind_lift_inr. cbn [concat].
  destruct (decide (combo + Z.of_nat k < combo + Z.of_nat n)%Z) as [Hlt|Hge].
  - replace (combo + Z.of_nat k - combo)%Z with (Z.of_nat k) by lia.
    rewrite time_row_app_l by (rewrite Hd; nia).
    apply (read_time_row xe f varname k mv meta key c var n s d); [done..|lia].
  - assert (Hrow : time_row s (d ++ concat datas) k = time_row s (concat datas) (k - n)).
    { replace k with (n + (k - n)) at 1 by lia. by apply time_row_app_r. }
    rewrite Hrow. apply IH; lia.
Qed.

Lemma Forall3_reverse {A B C} (P : A → B → C → Prop) l k k' :
  Forall3 P l k k' → Forall3 P (reverse l) (reverse k) (reverse k').
Proof.
  induction 1 as [|x y z l k k' Hx _ IH]; [constructor|].
  rewrite !reverse_cons. apply Forall3_app; [done|]. by repeat constructor.
Qed.

Lemma Forall3_impl {A B C} (P Q : A → B → C → Prop) l k k' :
  Forall3 P l k k' → (∀ x y z, P x y z → Q x y z) → Forall3 Q l k k'.
Proof. intros H HPQ. induction H; constructor; auto. Qed.

Lemma concat_reverse_cons {A} (d : list A) datas :
  concat (reverse (d :: datas)) = concat (reverse datas) ++ d.
Proof. rewrite reverse_cons, concat_app. cbn [concat]. by rewrite app_nil_r. Qed.

Lemma concat_reverse_length {A} (datas : list (list A)) :
  length (concat (reverse datas)) = length (concat datas).
Proof.
  induction datas as [|d datas IH]; [done|].
  rewrite concat_reverse_cons. cbn [concat]. rewrite !length_app, IH. lia.
Qed.

Lemma norm_index_cases n t k :
  norm_index n t = Some k →
  ((0 ≤ t < Z.of_nat n)%Z ∧ k = Z.to_nat t) ∨
  ((- Z.of_nat n ≤ t < 0)%Z ∧ k = Z.to_nat (Z.of_nat n + t)).
Proof.
  unfold norm_index. intros H.
  destruct (decide (0 ≤ t < Z.of_nat n)%Z); [left; by injection H as <-|].
  destruct (decide (- Z.of_nat n ≤ t < 0)%Z); [right; by injection H as <-|done].
Qed.

(** The reverse walk, over the files from the last to the first, returns
    the row the index names counted from the end. *)
Lemma reverse_loop_row xe varname s mv meta key t r files exts datas :
  s ≠ [] →
  Forall3 (holds_field varname s) files exts datas →
  ∀ combo k c,
    r = (combo + Z.of_nat k)%Z → k < sum_list exts →
    let row := time_row s (concat (reverse datas)) (sum_list exts - 1 - k) in
    let res := reverse_loop xe files combo varname t r mv meta key c in
    (meta = false → res = (inr (PlainArray row), c)) ∧
    (∀ out, res.1 = inr out → values_of out = inr row).
Proof.
  intros Hs Hall.
  induction Hall as [|f n d files exts datas (Hn & Hd & var & Hvar & Hdata) Hall IH];
    intros combo k c -> Hk; [cbn in Hk; lia|].
  change (sum_list (n :: exts)) with (n + sum_list exts) in *.
  pose proof (holds_field_cells _ _ _ _ _ Hall) as Hcells.
  rewrite <-concat_reverse_length in Hcells.
  cbn [reverse_loop extract_dim]. rewrite (extract_dim_time _ _ Hn).
  rewrite bind_lift_inr. rewrite concat_reverse_cons.
  destruct (decide (combo + Z.of_nat k < combo + Z.of_nat n)%Z) as [Hlt|Hge].
  - replace (Z.of_nat n - (combo + Z.of_nat k - combo) - 1)%Z
      with (Z.of_nat (n - 1 - k)) by lia.
    replace (n + sum_list exts - 1 - k) with (sum_list exts + (n - 1 - k)) by lia.
    rewrite (time_row_app_r s _ d (sum_list exts) (n - 1 - k)) by done.
    apply (read_time_row xe f varname (n - 1 - k) mv meta key c var n s d); [done..|lia].
  - rewrite time_row_app_l by (rewrite Hcells; nia).
    replace (n + sum_list exts - 1 - k) with (sum_list exts - 1 - (k - n)) by lia.
    apply IH; lia.
Qed.

(** X2. Cat, one time: when every file holds the variable with one non-time
    shape, and as many times by its [Time] dimension as it has rows and
    time stamps, each stamp a time [strptime] accepts, the result is the row
    of that index (negative indices count from the end) among the rows of
    all the files, that is row [t] of the all-times output, kept with a
    time axis of length 1.  Without metadata this is the result; with
    metadata these are its values whenever it returns. *)
Theorem cat_one_time xe files exts datas varname s t k is_moving sq meta key c :
  s ≠ [] →
  Forall3 (timed_field varname s) files exts datas →
  norm_index (sum_list exts) t = Some k →
  let row := time_row s (concat datas) k in
  let detected :=
    run (match is_moving with
         | None => is_moving_domain (Seq files) (Some varname)
                     default_latvar default_lonvar key
         | Some b => mret b
         end) c in
  let catted := run (_cat_files xe (Seq files) varname (Some t) is_moving sq meta key) c in
  (∀ mv, detected.1 = inr mv → meta = false →
         catted = (inr (PlainArray row), detected.2)) ∧
  (∀ out, catted.1 = inr out → values_of out = inr row) ∧
  (plain <$> (getitem (NdArray (sum_list exts :: s) (concat datas)) t ≫= newaxis))
  = inr row.
Proof.
  intros Hs Hall Hk row detected catted.
  pose proof (Forall3_impl _ (holds_field varname s) _ _ _ Hall ltac:(by intros ??? [??]))
    as Hhold.
  pose proof (Forall3_impl _ (cat_field varname s) _ _ _ Hall ltac:(by intros ??? [??]))
    as Hcat.
  destruct (extract_times_cat_length xe files exts (cat_field_times _ _ _ _ _ Hcat))
    as (ft & Hft & _).
  assert (Hwalk : ∀ mv c1,
    let res := _find_arr_for_time xe files varname t mv meta key c1 in
    (meta = false → res = (inr (PlainArray row), c1)) ∧
    (∀ out, res.1 = inr out → values_of out = inr row)).
  { intros mv c1. unfold _find_arr_for_time.
    destruct (norm_index_cases _ _ _ Hk) as [[Ht ->]|[Ht ->]].
    - rewrite decide_True by lia.
      apply (forward_loop_row xe varname s mv meta key t files exts datas Hs Hhold
               0%Z (Z.to_nat t) c1); lia.
    - rewrite decide_False by lia. unfold _find_reverse.
      pose proof (reverse_loop_row xe varname s mv meta key t (- t - 1)
                    (reverse files) (reverse exts) (reverse datas) Hs
                    (Forall3_reverse _ _ _ _ Hhold) 0%Z (Z.to_nat (- t - 1)) c1
                    ltac:(lia)) as Hrev.
      rewrite sum_list_with_reverse, reverse_involutive in Hrev.
      replace (sum_list exts - 1 - Z.to_nat (- t - 1))
        with (Z.to_nat (Z.of_nat (sum_list exts) + t)) in Hrev by lia.
      apply Hrev. lia. }
  assert (Hplain : ∀ mv, detected.1 = inr mv → meta = false →
                         catted = (inr (PlainArray row), detected.2)).
  { intros mv Hmv ->. subst catted.
    destruct detected as [rv c1] eqn:Hdet. cbn [fst snd] in *. subst rv.
    unfold run at 1, _cat_files. rewrite (bind_run _ _ _ _ _ Hdet).
    rewrite Hft, bind_lift_inr. cbn [iter_files]. rewrite bind_lift_inr.
    by apply Hwalk. }
  split; [done|]. split.
  - intros out Hout. subst catted.
    destruct (run _ c) as [x c'] eqn:Hrun in Hout. cbn [fst] in Hout. subst x.
    unfold run, _cat_files in Hrun.
    apply bind_inv in Hrun as (mv & c1 & _ & Hrun).
    rewrite Hft, bind_lift_inr in Hrun. cbn [iter_files] in Hrun.
    rewrite bind_lift_inr in Hrun.
    apply (Hwalk mv c1). by rewrite Hrun.
  - unfold getitem. cbn [shape cells]. rewrite Hk. cbn [mbind result_bind].
    unfold newaxis, ndim. cbn [shape]. destruct s as [|a s]; [done|].
    cbn [length]. by rewrite decide_False by lia.
Qed.

Lemma sample_files_timed :
  Forall3 (timed_field "T" [2; 2]) sample_files [3; 2; 4]
    [(λ i, 0 + Z.of_nat i)%Z <$> seq 0 12;
     (λ i, 100 + Z.of_nat i)%Z <$> seq 0 8;
     (λ i, 200 + Z.of_nat i)%Z <$> seq 0 16].
Proof.
  sample_fields.
Qed.

Lemma cat_one_time_witness :
  (run (_cat_files true (Seq sample_files) "T" (Some 4%Z) (Some false) false false
          None) ∅).1
  = inr (PlainArray (plain (NdArray [1; 2; 2] [104; 105; 106; 107]%Z))) ∧
  (run (_cat_files true (Seq sample_files) "T" (Some (-1)%Z) (Some false) false false
          None) ∅).1
  = inr (PlainArray (plain (NdArray [1; 2; 2] [212; 213; 214; 215]%Z))).
Proof.
  split.
  - destruct (cat_one_time true sample_files [3; 2; 4] _ "T" [2; 2] 4 4
                (Some false) false false None ∅ ltac:(discriminate)
                sample_files_timed eq_refl) as (H & _).
    rewrite (H false eq_refl eq_refl). vm_compute. reflexivity.
  - destruct (cat_one_time true sample_files [3; 2; 4] _ "T" [2; 2] (-1) 8
                (Some false) false false None ∅ ltac:(discriminate)
                sample_files_timed eq_refl) as (H & _).
    rewrite (H false eq_refl eq_refl). vm_compute. reflexivity.
Defined.

(** ** Without a token nothing is cached *)

Lemma keeps_lift {A} (r : result A) : keeps_cache (lift r).
Proof. by intros c. Qed.

Lemma keeps_mret {A} (x : A) : keeps_cache (mret x).
Proof. by intros c. Qed.

Lemma keeps_raise {A} (e : error) : keeps_cache (raise e : M A).
Proof. by intros c. Qed.

Lemma keeps_bind {A B} (m : M A) (f : A → M B) :
  keeps_cache m → (∀ x, keeps_cache (f x)) → keeps_cache (m ≫= f).
Proof.
  intros Hm Hf c. unfold mbind, M_bind. specialize (Hm c).
  destruct (m c) as [[e|x] c1]; cbn in *; subst; [done|]. apply Hf.
Qed.

Lemma keeps_fmap {A B} (m : M A) (f : A → B) :
  keeps_cache m → keeps_cache (f <$> m).
Proof.
  intros Hm c. unfold fmap, M_fmap. specialize (Hm c).
  by destruct (m c) as [[e|x] c1].
Qed.

Lemma keeps_bind_lift_inr {A B} (x : A) (f : A → M B) :
  keeps_cache (f x) → keeps_cache (lift (inr x) ≫= f).
Proof. intros Hf c. apply Hf. Qed.

Lemma keeps_bind_lift_inl {A B} (e : error) (f : A → M B) :
  keeps_cache (lift (inl e) ≫= f).
Proof. by intros c. Qed.

Lemma keeps_get key product : keeps_cache (get_cached_item key product).
Proof. intros c. unfold get_cached_item. by destruct key as [[]|]. Qed.

Lemma keeps_put_none product v : keeps_cache (cache_item None product v).
Proof. by intros c. Qed.

Create HintDb keeps.

Local Ltac keeps_step :=
  first
    [ solve [eauto 1 with keeps nocore]
    | apply keeps_lift | apply keeps_mret | apply keeps_raise
    | apply keeps_get | apply keeps_put_none
    | apply keeps_fmap
    | apply keeps_bind; [|intros ?]
    | match goal with
      | |- keeps_cache (match ?x with _ => _ end) => destruct x
      | |- keeps_cache (if ?b then _ else _) => destruct b
      end ].

Local Ltac keeps := repeat keeps_step.

Lemma Collection_first_ind (P : Collection → Prop) :
  (∀ s, P (Single s)) →
  (∀ l, P (Seq l)) →
  P (Mapping []) →
  (∀ k e d, P e → P (Mapping ((k, e) :: d))) →
  ∀ c, P c.
Proof.
  intros Hs Hl Hnil Hcons. fix IH 1. intros [s|l|[|[k e] d]].
  - apply Hs.
  - apply Hl.
  - apply Hnil.
  - apply Hcons, IH.
Qed.

Lemma keeps_is_moving_seq wrfseq varname latvar lonvar :
  keeps_cache (is_moving_seq wrfseq varname latvar lonvar None).
Proof. unfold is_moving_seq. keeps. Qed.
#[local] Hint Resolve keeps_is_moving_seq : keeps.

Lemma keeps_is_moving_domain wrfseq varname latvar lonvar :
  keeps_cache (is_moving_domain wrfseq varname latvar lonvar None).
Proof.
  revert latvar lonvar.
  induction wrfseq as [s|l| |k e d IH] using Collection_first_ind;
    intros latvar lonvar; cbn [is_moving_domain].
  - keeps; apply keeps_is_moving_seq.
  - keeps; apply keeps_is_moving_seq.
  - keeps.
  - apply keeps_bind; [keeps|intros la]. apply keeps_bind; [keeps|intros lo].
    apply keeps_bind_lift_inr, IH.
Qed.
#[local] Hint Resolve keeps_is_moving_domain : keeps.

Lemma keeps_cached_grid wrfnc name mv :
  keeps_cache (cached_grid wrfnc name mv None).
Proof. unfold cached_grid. keeps. Qed.
#[local] Hint Resolve keeps_cached_grid : keeps.

Lemma keeps__build_data_array xe wrfnc varname timeidx mv mf :
  keeps_cache (_build_data_array xe wrfnc varname timeidx mv mf None).
Proof. unfold _build_data_array. keeps; try apply keeps_cached_grid. Qed.
#[local] Hint Resolve keeps__build_data_array : keeps.

Lemma keeps_read_time xe wrfnc varname t mv meta :
  keeps_cache (read_time xe wrfnc varname t mv meta None).
Proof. unfold read_time. keeps; try apply keeps__build_data_array. Qed.
#[local] Hint Resolve keeps_read_time : keeps.

Lemma keeps_forward_loop xe wrf_iter combo varname t mv meta :
  keeps_cache (forward_loop xe wrf_iter combo varname t mv meta None).
Proof.
  revert combo. induction wrf_iter as [|f wrf_iter IH]; intros combo;
    cbn [forward_loop]; keeps; first [apply IH|apply keeps_read_time].
Qed.
#[local] Hint Resolve keeps_forward_loop : keeps.

Lemma keeps_reverse_loop xe wrf_iter combo varname t r mv meta :
  keeps_cache (reverse_loop xe wrf_iter combo varname t r mv meta None).
Proof.
  revert combo. induction wrf_iter as [|f wrf_iter IH]; intros combo;
    cbn [reverse_loop]; keeps; first [apply IH|apply keeps_read_time].
Qed.
#[local] Hint Resolve keeps_reverse_loop : keeps.

Lemma keeps__find_arr_for_time xe wrfseq varname t mv meta :
  keeps_cache (_find_arr_for_time xe wrfseq varname t mv meta None).
Proof.
  unfold _find_arr_for_time, _find_forward, _find_reverse.
  keeps; first [apply keeps_forward_loop|apply keeps_reverse_loop].
Qed.
#[local] Hint Resolve keeps__find_arr_for_time : keeps.

Lemma keeps_cached_or_new {A} key (as_val : cval → result A) init :
  keeps_cache (cached_or_new None key as_val init).
Proof. unfold cached_or_new. keeps. Qed.
#[local] Hint Resolve keeps_cached_or_new : keeps.

Lemma keeps_cache_unless {A} key cached (out : option A) to_val :
  keeps_cache (cache_unless None key cached out to_val).
Proof. unfold cache_unless. keeps. Qed.
#[local] Hint Resolve keeps_cache_unless : keeps.

Lemma keeps_cache_aggregates latkey lonkey projkey timekey ag :
  keeps_cache (cache_aggregates None latkey lonkey projkey timekey ag).
Proof. unfold cache_aggregates. keeps; apply keeps_cache_unless. Qed.
#[local] Hint Resolve keeps_cache_aggregates : keeps.

Lemma keeps__cat_files xe wrfseq varname timeidx mv sq meta :
  keeps_cache (_cat_files xe wrfseq varname timeidx mv sq meta None).
Proof.
  unfold _cat_files, cat_first_coords.
  keeps;
    try first [ apply keeps_is_moving_domain | apply keeps__find_arr_for_time
              | apply keeps__build_data_array | apply keeps_cached_or_new
              | apply keeps_cache_aggregates | apply keeps_cache_unless ].
Qed.
#[local] Hint Resolve keeps__cat_files : keeps.

Lemma keeps__join_files xe fill wrfseq varname timeidx mv meta :
  keeps_cache (_join_files xe fill wrfseq varname timeidx mv meta None).
Proof.
  unfold _join_files, join_first_coords.
  keeps;
    try first [ apply keeps_is_moving_domain | apply keeps__build_data_array
              | apply keeps_cached_or_new | apply keeps_cache_aggregates
              | apply keeps_cache_unless ].
Qed.
#[local] Hint Resolve keeps__join_files : keeps.

Lemma keeps_combine_dict_with xe extract wrfdict varname meta :
  keeps_cache (combine_dict_with xe extract wrfdict varname meta None).
Proof.
  unfold combine_dict_with. destruct wrfdict as [|[first_key first_entry] key_iter];
    [apply keeps_raise|].
  apply keeps_bind; [apply keeps_is_moving_domain|intros is_moving].
  cbn [key_getitem]. apply keeps_bind_lift_inl.
Qed.
#[local] Hint Resolve keeps_combine_dict_with : keeps.

Lemma keeps__extract_var xe fill wrfnc varname timeidx mv method sq cache meta :
  keeps_cache (_extract_var xe fill wrfnc varname timeidx mv method sq cache meta None).
Proof.
  destruct wrfnc as [s|l|d]; cbn [_extract_var];
    (destruct (cache ≫= (.!! varname)); [apply keeps_mret|]);
    (destruct (is_time_coord_var varname); [apply keeps_lift|]).
  - keeps; try first [apply keeps_is_moving_domain | apply keeps__build_data_array].
  - keeps; try first [apply keeps__cat_files | apply keeps__join_files].
  - keeps; try apply keeps_combine_dict_with.
Qed.
#[local] Hint Resolve keeps__extract_var : keeps.

(** X3. Without a cache token ([_key=None]) the facade reads and writes no
    coordinate cache entry: whatever the input, the request and the
    outcome, [_extract_var] and [combine_files] leave the cache as it
    was. *)
Theorem no_token_no_caching xe fill wrfnc varname timeidx mv method sq cache meta c :
  (run (_extract_var xe fill wrfnc varname timeidx mv method sq cache meta None) c).2 = c ∧
  (run (combine_files xe fill wrfnc varname timeidx mv method sq meta None) c).2 = c.
Proof.
  split; [apply keeps__extract_var|].
  unfold run. revert c. fold (keeps_cache
    (combine_files xe fill wrfnc varname timeidx mv method sq meta None)).
  unfold combine_files, _combine_dict. keeps;
    try first [ apply keeps_combine_dict_with | apply keeps__cat_files
              | apply keeps__join_files ].
Qed.

(** ** Inputs the facade refuses *)

(** X4. A mapping combined without a cache token: [_combine_dict] indexes
    the token by the first key, so with [_key=None] (the default of
    [combine_files]) every mapping is refused: an empty one with
    [StopIteration], another one with the error of the moving-domain
    detection or, when that succeeds, with [TypeError]; the cache is left as
    it was. *)
Theorem mapping_needs_token xe fill wrfdict varname timeidx mv method sq meta c :
  let detected :=
    run (is_moving_domain (Mapping wrfdict) (Some varname)
           default_latvar default_lonvar None) c in
  run (combine_files xe fill (Mapping wrfdict) varname timeidx mv method sq meta None) c
  = (inl match wrfdict, detected.1 with
         | [], _ => StopIteration
         | _ :: _, inl e => e
         | _ :: _, inr _ => TypeError "'NoneType' object is not subscriptable"
         end, c).
Proof.
  intros detected. unfold run, combine_files, _combine_dict, combine_dict_with.
  destruct wrfdict as [|[first_key first_entry] key_iter]; [done|].
  pose proof (keeps_is_moving_domain (Mapping ((first_key, first_entry) :: key_iter))
                (Some varname) default_latvar default_lonvar c) as Hkeep.
  subst detected. unfold run. unfold mbind at 1 2, M_bind at 1 2.
  destruct (is_moving_domain _ _ _ _ _ c) as [[e|b] c1]; cbn [fst snd] in *; by subst.
Qed.

(** X5. An empty sequence of files, or a method that is neither [cat] nor
    [join] in any letter case: [combine_files] returns no array.  With the
    moving flag given, an empty sequence ends in [StopIteration] at the
    first [next], except for cat with a time index, where the time-index
    locator reports the index as out of bounds; a wrong method on a
    sequence is a [ValueError].  The cache is left as it was. *)
Theorem empty_or_wrong_method xe fill l varname timeidx b method sq meta key c :
  (str_lower method = "cat" →
   run (combine_files xe fill (Seq []) varname timeidx (Some b) method sq meta key) c
   = (inl match timeidx with
          | Some t => out_of_bounds t
          | None => StopIteration
          end, c)) ∧
  (str_lower method = "join" →
   run (combine_files xe fill (Seq []) varname timeidx (Some b) method sq meta key) c
   = (inl StopIteration, c)) ∧
  (str_lower method ≠ "cat" → str_lower method ≠ "join" →
   ∀ mv, run (combine_files xe fill (Seq l) varname timeidx mv method sq meta key) c
         = (inl invalid_method, c)).
Proof.
  split; [|split].
  - intros Hm. unfold run, combine_files. rewrite decide_True by done.
    destruct (extract_times_cat_length xe [] [] ltac:(constructor)) as (ft & Hft & _).
    assert (Hcat : _cat_files xe (Seq []) varname timeidx (Some b) sq meta key c
                   = (inl match timeidx with
                          | Some t => out_of_bounds t
                          | None => StopIteration
                          end, c)).
    { unfold _cat_files. rewrite bind_mret, Hft, bind_lift_inr.
      destruct timeidx as [t|]; [|done].
      cbn [iter_files]. rewrite bind_lift_inr.
      unfold _find_arr_for_time, _find_forward, _find_reverse.
      by destruct (decide (t >= 0)%Z). }
    unfold mbind, M_bind. by rewrite Hcat.
  - intros Hm. unfold run, combine_files.
    rewrite decide_False by (rewrite Hm; discriminate). by rewrite decide_True by done.
  - intros Hc Hj mv. unfold run, combine_files. by rewrite !decide_False by done.
Qed.

Lemma empty_or_wrong_method_witness :
  run (combine_files true 999 (Seq []) "T" (Some 0%Z) (Some false) "CAT" true true None) ∅
  = (inl (out_of_bounds 0), ∅) ∧
  run (combine_files true 999 (Seq []) "T" None (Some false) "Join" true true None) ∅
  = (inl StopIteration, ∅) ∧
  run (combine_files true 999 (Seq sample_files) "T" None None "stack" true true None) ∅
  = (inl invalid_method, ∅).
Proof.
  split; [|split].
  - by apply (empty_or_wrong_method true 999 [] "T" (Some 0%Z) false "CAT" true true
                None ∅).
  - by apply (empty_or_wrong_method true 999 [] "T" None false "Join" true true None ∅).
  - by apply (empty_or_wrong_method true 999 sample_files "T" None false "stack" true
                true None ∅).
Defined.

(** ** The moving-domain detector and the cache *)

Lemma is_moving_seq_hit first rest varname latvar lonvar lon_coord lat_coord k b c :
  moving_coords first varname latvar lonvar = inr (lon_coord, lat_coord) →
  c !! (k, moving_product lat_coord lon_coord) = Some (CBool b) →
  is_moving_seq (first :: rest) varname latvar lonvar (Some (KId k)) c = (inr b, c).
Proof.
  intros Hcoords Hhit. unfold is_moving_seq. cbn [next].
  rewrite bind_lift_inr, Hcoords, bind_lift_inr.
  unfold mbind, M_bind, get_cached_item. by rewrite Hhit.
Qed.

Lemma is_moving_seq_stores first rest varname latvar lonvar lon_coord lat_coord k b c c1 :
  moving_coords first varname latvar lonvar = inr (lon_coord, lat_coord) →
  is_moving_seq (first :: rest) varname latvar lonvar (Some (KId k)) c = (inr b, c1) →
  c1 !! (k, moving_product lat_coord lon_coord) = Some (CBool b).
Proof.
  intros Hcoords. unfold is_moving_seq. cbn [next].
  rewrite bind_lift_inr, Hcoords, bind_lift_inr.
  unfold mbind at 1, M_bind at 1, get_cached_item.
  destruct (c !! (k, moving_product lat_coord lon_coord)) as [v|] eqn:Hc.
  - intros [Hv ->]%lift_inv. destruct v; try done. by injection Hv as ->.
  - intros (corners & c2 & [_ ->]%lift_inv & H)%bind_inv.
    destruct corners as [ll ur].
    apply bind_inv in H as (moved & c3 & [_ ->]%lift_inv & H).
    unfold mbind, M_bind, cache_item, mret, M_ret in H.
    injection H as <- <-. apply lookup_insert_eq.
Qed.

(** X6. The moving flag is memoised per token and coordinate pair: once a
    detection under a scalar token has returned, the cache holds its answer,
    and a later detection under that token for files whose first file names
    the same coordinates returns that answer without looking at any grid,
    whatever the later files hold; the cache stays as it is. *)
Theorem detector_memoised first rest first' rest' varname latvar lonvar
    lon_coord lat_coord k c b c1 :
  either ["XLAT"; "XLAT_M"] (Single first) = inr latvar →
  either ["XLONG"; "XLONG_M"] (Single first) = inr lonvar →
  moving_coords first varname latvar lonvar = inr (lon_coord, lat_coord) →
  either ["XLAT"; "XLAT_M"] (Single first') = inr latvar →
  either ["XLONG"; "XLONG_M"] (Single first') = inr lonvar →
  moving_coords first' varname latvar lonvar = inr (lon_coord, lat_coord) →
  run (is_moving_domain (Seq (first :: rest)) varname default_latvar default_lonvar
         (Some (KId k))) c = (inr b, c1) →
  c1 !! (k, moving_product lat_coord lon_coord) = Some (CBool b) ∧
  run (is_moving_domain (Seq (first' :: rest')) varname default_latvar default_lonvar
         (Some (KId k))) c1 = (inr b, c1).
Proof.
  intros Hlat Hlon Hcoords Hlat' Hlon' Hcoords'.
  unfold run. cbn [is_moving_domain resolve_coord default_latvar default_lonvar either next
                    mbind result_bind].
  cbn [either] in Hlat, Hlon, Hlat', Hlon'.
  rewrite Hlat, Hlon, Hlat', Hlon', !bind_lift_inr.
  intros Hrun.
  pose proof (is_moving_seq_stores _ _ _ _ _ _ _ _ _ _ _ Hcoords Hrun) as Hstored.
  split; [done|]. by eapply is_moving_seq_hit.
Qed.

Lemma detector_memoised_witness :
  let first_run := run (is_moving_domain (Seq [file3; file2]) (Some "T")
                          default_latvar default_lonvar (Some (KId 1))) ∅ in
  first_run.1 = inr false ∧
  (run (is_moving_domain (Seq [file3; shifted_file]) (Some "T")
          default_latvar default_lonvar (Some (KId 1))) first_run.2).1 = inr false ∧
  (run (is_moving_domain (Seq [file3; shifted_file]) (Some "T")
          default_latvar default_lonvar (Some (KId 1))) ∅).1 = inr true.
Proof.
  cbv zeta.
  destruct (run (is_moving_domain (Seq [file3; file2]) (Some "T")
                   default_latvar default_lonvar (Some (KId 1))) ∅)
    as [r c1] eqn:Hrun.
  assert (Hr : r = inr false).
  { apply (f_equal fst) in Hrun. cbn [fst] in Hrun. rewrite <-Hrun.
    vm_compute. reflexivity. }
  subst r. split; [done|]. split; [|vm_compute; reflexivity].
  destruct (detector_memoised file3 [file2] file3 [shifted_file] (Some "T")
              "XLAT" "XLONG" "XLONG" "XLAT" 1 ∅ false c1
              eq_refl eq_refl eq_refl eq_refl eq_refl eq_refl Hrun) as [_ H].
  cbn [snd]. by rewrite H.
Defined.

(** For a mapping the detector answers for its first entry. *)
Lemma is_moving_domain_named e varname lats lons key c :
  is_moving_domain e varname (Either lats) (Either lons) key c
  = (latvar ← lift (either lats e);
     lonvar ← lift (either lons e);
     is_moving_domain e varname (Named latvar) (Named lonvar) key) c.
Proof.
  destruct e as [s|l|[|[k0 e0] d]]; cbn [is_moving_domain resolve_coord].
  - unfold mbind, M_bind, lift. destruct (either lats (Single s)); [done|].
    by destruct (either lons (Single s)).
  - unfold mbind, M_bind, lift. destruct (either lats (Seq l)); [done|].
    by destruct (either lons (Seq l)).
  - done.
  - unfold mbind at 1 2 6 7, M_bind at 1 2 6 7, lift at 1 2 5 6.
    destruct (either lats (Mapping ((k0, e0) :: d))); [done|].
    by destruct (either lons (Mapping ((k0, e0) :: d))).
Qed.

(** X7. For a mapping the moving-domain detector looks at the first entry
    only, under that entry's part of the token: its answer, its error and
    its effect on the cache are those of the detection for the first entry
    alone, so motion in the files of any other entry is never seen. *)
Theorem detector_first_entry_only k e d varname key key' c :
  match key with
  | Some _ => Some <$> key_getitem key k
  | None => inr None
  end = inr key' →
  run (is_moving_domain (Mapping ((k, e) :: d)) varname
         default_latvar default_lonvar key) c
  = run (is_moving_domain e varname default_latvar default_lonvar key') c.
Proof.
  intros Hkey. unfold run, default_latvar, default_lonvar.
  rewrite (is_moving_domain_named e).
  cbn [is_moving_domain resolve_coord either].
  unfold mbind at 1 2 4 5, M_bind at 1 2 4 5, lift at 1 2 4 5.
  destruct (either ["XLAT"; "XLAT_M"] e) as [?|latvar]; [done|].
  destruct (either ["XLONG"; "XLONG_M"] e) as [?|lonvar]; [done|].
  by rewrite Hkey, bind_lift_inr.
Qed.

Lemma detector_first_entry_only_witness :
  (run (is_moving_domain
          (Mapping [("a", Seq [file3; file2]); ("b", Seq [file3; shifted_file])])
          (Some "T") default_latvar default_lonvar
          (Some (KMap [("a", KId 1); ("b", KId 2)]))) ∅).1 = inr false ∧
  (run (is_moving_domain (Seq [file3; shifted_file])
          (Some "T") default_latvar default_lonvar (Some (KId 2))) ∅).1 = inr true.
Proof.
  split; [|vm_compute; reflexivity].
  rewrite (detector_first_entry_only "a" (Seq [file3; file2])
             [("b", Seq [file3; shifted_file])] (Some "T")
             (Some (KMap [("a", KId 1); ("b", KId 2)])) (Some (KId 1)) ∅ eq_refl).
  vm_compute. reflexivity.
Defined.

(** ** The single-array builder *)

Lemma get_proj_params_needs_coordinates wrfnc timeidx varname var :
  variables wrfnc !! varname = Some var →
  coordinates var = None →
  is_coordvar varname = false →
  get_proj_params wrfnc timeidx varname = inl (AttributeError "coordinates").
Proof.
  intros Hvar Hc Hcv. unfold get_proj_params, getvar. rewrite Hcv, Hvar. cbn [negb].
  cbn [from_option mbind result_bind]. by rewrite Hc.
Qed.

(** X8. A variable without a [coordinates] attribute whose [stagger]
    attribute names its grids (a met_em file) cannot be given metadata:
    [_build_data_array] takes the grid names from [stagger], but
    [get_proj_params] reads the [coordinates] attribute again and fails, so
    the builder, and [_extract_var] with metadata on one file, return no
    array; without metadata the variable is read. *)
Theorem stagger_variable_not_built xe fill wrfnc varname timeidx mv mf method sq key c
    var st :
  variables wrfnc !! varname = Some var →
  coordinates var = None →
  stagger var = Some st →
  is_coordvar varname = false →
  is_time_coord_var varname = false →
  (∃ e, (run (_build_data_array xe wrfnc varname timeidx mv mf key) c).1 = inl e) ∧
  (∃ e, (run (_extract_var true fill (Single wrfnc) varname timeidx (Some mv) method sq
                None true key) c).1 = inl e) ∧
  run (_extract_var xe fill (Single wrfnc) varname None (Some mv) method false
         None false key) c
  = (inr (PlainArray (plain (vdata var))), c).
Proof.
  intros Hvar Hc Hst Hcv Htv.
  assert (Hbuild : ∀ xe' mf' c',
    ∃ e, (run (_build_data_array xe' wrfnc varname timeidx mv mf' key) c').1 = inl e).
  { intros xe' mf' c'. unfold run, _build_data_array, getvar. rewrite Hvar.
    cbn [from_option]. rewrite bind_lift_inr.
    apply run_bind_error. intros data c1 _.
    unfold coord_names_of. rewrite Hc, Hcv, Htv, Hst. rewrite bind_lift_inr.
    apply run_bind_error. intros [coords attrs] c2 H. exfalso.
    apply bind_inv in H as ([lon_dims lon_vals] & c3 & _ & H).
    apply bind_inv in H as ([lat_dims lat_vals] & c4 & _ & H).
    rewrite bind_mret in H. apply lift_inv in H as [H _].
    pose proof (get_proj_params_needs_coordinates wrfnc timeidx varname var Hvar Hc Hcv)
      as Hp.
    pose proof (get_proj_params_needs_coordinates wrfnc (Some 0%Z) varname var Hvar Hc Hcv)
      as Hp0.
    destruct timeidx as [t|].
    - rewrite Hp0 in H.
      destruct (getitem_row lon_vals t); [done|]. cbn [mbind result_bind] in H.
      by destruct (getitem_row lat_vals t).
    - destruct mv.
      + by rewrite Hp in H.
      + rewrite Hp0 in H.
        destruct (getitem_row lon_vals 0); [done|]. cbn [mbind result_bind] in H.
        by destruct (getitem_row lat_vals 0). }
  split; [apply Hbuild|]. split.
  - unfold run. cbn [_extract_var mbind option_bind andb]. rewrite Htv.
    destruct (Hbuild true false c) as [e He]. unfold run in He. exists e.
    unfold mbind, M_bind, fmap, M_fmap, mret, M_ret.
    destruct (_build_data_array _ _ _ _ _ _ _ c) as [[e'|x] c']; cbn in He |- *;
      congruence.
  - unfold run. cbn [_extract_var mbind option_bind]. rewrite Htv, andb_false_r.
    unfold getvar. rewrite Hvar. done.
Qed.

Lemma stagger_variable_not_built_witness :
  is_error (run (_build_data_array true metem_file "TT" None false false None) ∅).1
  = true ∧
  (run (_extract_var true 999 (Single metem_file) "TT" None (Some false) "cat" false
          None false None) ∅).1
  = inr (PlainArray (plain (NdArray [1; 2; 2] [1; 2; 3; 4]%Z))).
Proof.
  destruct (stagger_variable_not_built true 999 metem_file "TT" None false false "cat"
              false None ∅ _ "M" eq_refl eq_refl eq_refl eq_refl eq_refl)
    as ([e He] & _ & H).
  split; [by rewrite He|]. by rewrite H.
Defined.

(** ** The time coordinate *)

Lemma singletons_concat {A} (x : list A) :
  concat ((λ i, take 1 (drop (i * 1) x)) <$> seq 0 (length x)) = x.
Proof.
  induction x as [|a x IH]; [done|].
  cbn [length seq fmap list_fmap concat]. cbn [Nat.mul Nat.add drop take app].
  rewrite take_0. cbn [app]. f_equal. rewrite <-fmap_S_seq, <-list_fmap_compose.
  etrans; [|exact IH]. f_equal.
Qed.

Lemma _file_times_xtime f n x :
  xtime_field f n x →
  ∃ rows, _file_times f true = inr rows ∧
          Forall (λ r, shape r = []) rows ∧ length rows = n ∧
          concat (cells <$> rows) = x.
Proof.
  intros (Hx & var & Hvar & Hdata). unfold _file_times, getvar. cbn [negb].
  rewrite Hvar. cbn [from_option fmap result_fmap mbind result_bind]. rewrite Hdata.
  unfold shape0. cbn [shape lookup list_lookup from_option mbind result_bind].
  exists ((λ i, NdArray [] (take 1 (drop (i * 1) x))) <$> seq 0 n).
  split; [|split; [|split]].
  - unfold rows_of. apply mapM_result_Forall2. apply Forall2_fmap_r, Forall_Forall2_diag.
    apply Forall_forall. intros i Hi%elem_of_seq.
    unfold getitem. cbn [shape cells]. by rewrite norm_index_nat by lia.
  - apply Forall_fmap, Forall_forall. done.
  - by rewrite length_fmap, length_seq.
  - rewrite <-list_fmap_compose. subst n. apply singletons_concat.
Qed.

Lemma np_stack_scalar_cells (rows : list ndarray) :
  Forall (λ r, shape r = []) rows →
  np_stack rows = inr (NdArray [length rows] (concat (cells <$> rows))).
Proof.
  intros Hall. unfold np_stack. destruct rows as [|r rows]; [done|].
  pose proof Hall as [Hr _]%Forall_cons. rewrite Hr.
  by rewrite bool_decide_true.
Qed.

(** X9. The time coordinate [XTIME] goes through [extract_times]: for a
    sequence of files that hold it, cat over all times gives the values of
    the files one after the other, whatever the moving flag, the squeeze
    flag and the token; when the first file does not hold it (files written
    before WRF 3.7) the answer is [None], not an error, for cat and join
    and for any time index.  The coordinate cache is not touched. *)
Theorem xtime_through_extract_times xe fill files exts xs timeidx mv method sq meta
    key c :
  (Forall3 xtime_field files exts xs → str_lower method = "cat" →
   run (_extract_var xe fill (Seq files) "XTIME" None mv method sq None false key) c
   = (inr (PlainArray (plain (NdArray [sum_list exts] (concat xs)))), c)) ∧
  (∀ f rest, files = f :: rest → variables f !! "XTIME" = None →
   str_lower method = "cat" ∨ str_lower method = "join" →
   run (_extract_var xe fill (Seq files) "XTIME" timeidx mv method sq None meta key) c
   = (inr PyNone, c)).
Proof.
  split.
  - intros Hall Hm. unfold run. cbn [_extract_var mbind option_bind].
    change (is_time_coord_var "XTIME") with true. cbv iota. unfold lift. f_equal.
    assert (∃ rows, mapM (λ f, _file_times f true) files = inr rows ∧
                    Forall (λ r, shape r = []) (concat rows) ∧
                    length (concat rows) = sum_list exts ∧
                    concat (cells <$> concat rows) = concat xs)
      as (rows & Hrows & Hsh & Hlen & Hcells).
    { induction Hall as [|f n x files exts xs Hf _ (rows & Hrows & Hsh & Hlen & Hcells)].
      - exists []. by repeat split.
      - destruct (_file_times_xtime f n x Hf) as (r & Hr & Hrs & Hrl & Hrc).
        exists (r :: rows). cbn [mapM]. rewrite Hr. cbn [mbind result_bind].
        rewrite Hrows. cbn [mbind result_bind mret result_ret concat].
        split; [done|]. split; [by apply Forall_app|].
        split; [by rewrite length_app, Hrl, Hlen|].
        by rewrite fmap_app, concat_app, Hrc, Hcells. }
    unfold extract_times. rewrite decide_True by done. rewrite Hrows.
    cbn [mbind result_bind]. rewrite (np_stack_scalar_cells _ Hsh).
    rewrite andb_false_r. cbn [mbind result_bind]. by rewrite Hlen, Hcells.
  - intros f rest -> Hf Hm. unfold run. cbn [_extract_var mbind option_bind].
    change (is_time_coord_var "XTIME") with true. cbv iota. unfold lift. f_equal.
    assert (Hfail : ∀ (k : list (list ndarray) → result ndarray),
              (mapM (λ f, _file_times f true) (f :: rest) ≫= k)
              = inl (KeyError "XTIME")).
    { intros k. cbn [mapM].
      assert (_file_times f true = inl (KeyError "XTIME")) as ->; [|done].
      unfold _file_times, getvar. by rewrite Hf. }
    unfold extract_times. destruct Hm as [Hm|Hm].
    + rewrite decide_True by done. by rewrite Hfail.
    + rewrite decide_False by (rewrite Hm; discriminate).
      rewrite decide_True by done. by rewrite Hfail.
Qed.

Lemma xtime_through_extract_times_witness :
  run (_extract_var true 999 (Seq [xtime_file 2 0; xtime_file 1 120]) "XTIME" None None
         "cat" true None false None) ∅
  = (inr (PlainArray (plain (NdArray [3] [0; 60; 120]%Z))), ∅) ∧
  run (_extract_var true 999 (Seq sample_files) "XTIME" (Some 1%Z) None "join" true
         None true None) ∅
  = (inr PyNone, ∅).
Proof.
  split.
  - apply (proj1 (xtime_through_extract_times true 999
                    [xtime_file 2 0; xtime_file 1 120] [2; 1] [[0; 60]; [120]]%Z
                    None None "cat" true false None ∅)); [|done].
    repeat constructor; by eexists.
  - apply (proj2 (xtime_through_extract_times true 999 sample_files [] [] (Some 1%Z)
                    None "join" true true None ∅) file3 [file2; file4]);
      [done|done|by right].
Defined.

(** ** Coordinate tables *)

(** X10. The table of coordinate pairs and the list of coordinate
    variables agree: [get_coord_pairs] answers exactly for the names
    [is_coordvar] accepts and raises [KeyError] for every other name; the
    pair is a latitude name and a longitude name, the asked name is one of
    them, and both of them map to the same pair. *)
Theorem coord_pairs_table varname :
  if is_coordvar varname then
    ∃ lat lon,
      get_coord_pairs varname = inr (lat, lon) ∧
      lat ∈ _LAT_COORDS ∧ lon ∈ _LON_COORDS ∧
      (varname = lat ∨ varname = lon) ∧
      get_coord_pairs lat = inr (lat, lon) ∧
      get_coord_pairs lon = inr (lat, lon)
  else get_coord_pairs varname = inl (KeyError varname).
Proof.
  unfold is_coordvar. case_bool_decide as Hin.
  - unfold _COORD_VARS in Hin.
    repeat (apply elem_of_cons in Hin as [->|Hin];
            [eexists _, _; split; [reflexivity|];
             repeat split; unfold _LAT_COORDS, _LON_COORDS;
             solve [repeat first [reflexivity | by left | right]]
            |]).
    by apply elem_of_nil in Hin.
  - unfold get_coord_pairs, _COORD_PAIR_MAP. cbn [assoc].
    unfold _COORD_VARS in Hin.
    repeat (rewrite decide_False;
            [|intros <-; apply Hin; solve [repeat first [reflexivity | by left | right]]]).
    done.
Qed.

Lemma head_filter_list_find {A} (P Q : A → Prop) `{∀ x, Decision (P x)}
    `{∀ x, Decision (Q x)} (l : list A) :
  (∀ x, P x ↔ Q x) → head (filter P l) = snd <$> list_find Q l.
Proof.
  intros HPQ. induction l as [|x l IH]; [done|].
  rewrite filter_cons. cbn [list_find].
  destruct (decide (P x)) as [HP|HP].
  - by rewrite decide_True by (by apply HPQ).
  - rewrite decide_False by (by rewrite <-HPQ). rewrite IH.
    by destruct (list_find Q l) as [[i y]|].
Qed.

(** X11. [_find_coord_names] and [latlon_coordvars] choose alike: over the
    same set of names both answer the first latitude name among XLAT,
    XLAT_M, XLAT_U, XLAT_V, CLAT and the first longitude name among XLONG,
    XLONG_M, XLONG_U, XLONG_V, CLONG that is present ([None] when there is
    none), and [_find_coord_names] answers XTIME for the time when it is
    present. *)
Theorem coord_name_choice {A} (coords : list (string * coord)) (d : gmap string A) :
  (∀ name, is_Some (assoc name coords) ↔ is_Some (d !! name)) →
  (_find_coord_names coords).1 = latlon_coordvars d ∧
  (_find_coord_names coords).2
  = if decide (is_Some (d !! "XTIME")) then Some "XTIME" else None.
Proof.
  intros Hsame. unfold _find_coord_names, latlon_coordvars. cbn [fst snd]. split.
  - change (every_other _COORD_VARS) with _LAT_COORDS.
    change (every_other (tail _COORD_VARS)) with _LON_COORDS.
    f_equal; by apply head_filter_list_find.
  - unfold _TIME_COORD_VARS. rewrite filter_cons, filter_nil.
    destruct (decide (is_Some (assoc "XTIME" coords))) as [H|H].
    + by rewrite decide_True by (by apply Hsame).
    + by rewrite decide_False by (by rewrite <-Hsame).
Qed.

Lemma coord_name_choice_witness :
  latlon_coordvars ({[ "XLONG_U" := (); "XTIME" := (); "XLAT_M" := () ]} : gmap string ())
  = (Some "XLAT_M", Some "XLONG_U").
Proof.
  pose proof (coord_name_choice
                [("XLONG_U", NoneCoord); ("XTIME", NoneCoord); ("XLAT_M", NoneCoord)]
                ({[ "XLONG_U" := (); "XTIME" := (); "XLAT_M" := () ]} : gmap string ()))
    as [H _].
  { intros name. split; intros [x Hx].
    - cbn [assoc] in Hx. repeat case_decide; simplify_eq; by vm_compute; eauto.
    - apply lookup_insert_Some in Hx as [[<- _]|[? Hx]]; [by eexists|].
      apply lookup_insert_Some in Hx as [[<- _]|[? Hx]]; [by eexists|].
      apply lookup_singleton_Some in Hx as [<- _]. by eexists. }
  rewrite <-H. vm_compute. reflexivity.
Defined.

(** ** Helpers that look at the first file *)

(** X12. [either(names)] answers the first of its names that is a variable
    of the file, and raises [ValueError] exactly when none is; for a
    sequence it looks at the first file only, for a mapping at the first
    entry only, and an empty sequence or mapping is [StopIteration]. *)
Theorem either_first_present names f rest k e d :
  either names (Seq (f :: rest)) = either names (Single f) ∧
  either names (Mapping ((k, e) :: d)) = either names e ∧
  either names (Seq []) = inl StopIteration ∧
  either names (Mapping []) = inl StopIteration ∧
  (∀ v, either names (Single f) = inr v ↔
        ∃ i, names !! i = Some v ∧ is_Some (variables f !! v) ∧
             ∀ j w, j < i → names !! j = Some w → variables f !! w = None) ∧
  (is_error (either names (Single f)) = true ↔
   Forall (λ w, variables f !! w = None) names).
Proof.
  repeat split; try reflexivity.
  - cbn [either]. unfold either_single. intros Hv.
    destruct (list_find _ names) as [[i w]|] eqn:Hfind; [|done].
    injection Hv as ->. apply list_find_Some in Hfind as (Hi & Hv & Hbefore).
    exists i. split; [done|]. split; [done|].
    intros j w Hj Hw. specialize (Hbefore j w Hw Hj).
    by apply eq_None_not_Some.
  - intros (i & Hi & Hv & Hbefore). cbn [either]. unfold either_single.
    assert (list_find (λ v, is_Some (variables f !! v)) names = Some (i, v)) as ->; [|done].
    apply list_find_Some. split; [done|]. split; [done|].
    intros j w Hw Hj. rewrite (Hbefore j w Hj Hw). by intros [? ?].
  - cbn [either]. unfold either_single.
    destruct (list_find _ names) as [[i w]|] eqn:Hfind; [done|]. intros _.
    apply list_find_None in Hfind. eapply Forall_impl; [exact Hfind|].
    intros w Hw. by apply eq_None_not_Some.
  - intros Hall. cbn [either]. unfold either_single.
    assert (list_find (λ v, is_Some (variables f !! v)) names = None) as ->; [|done].
    apply list_find_None. eapply Forall_impl; [exact Hall|].
    intros w Hw [? ?]. congruence.
Qed.

(** ** Staggering and left-most dimensions *)

Lemma shape_m_app {A} (a : array A) pre post i :
  shape a = pre ++ post → 0 < i ≤ length post →
  shape_m a i = from_option (IndexError "tuple index out of range")
                  (post !! (length post - i)).
Proof.
  intros Hs Hi. unfold shape_m, ndim. rewrite Hs, length_app.
  rewrite decide_False by lia. f_equal.
  rewrite lookup_app_r by lia. f_equal. lia.
Qed.

Lemma shape_m_short {A} (a : array A) i :
  ndim a < i → shape_m a i = inl (IndexError "tuple index out of range").
Proof. intros Hi. unfold shape_m. by rewrite decide_True. Qed.

(** X13. [is_staggered] compares the last three axes of the variable with
    the sizes [bottom_top], [south_north], [west_east] of the (first) file,
    from the right and stopping at the first difference.  It answers
    [False] exactly when the shape ends in those three sizes; a variable of
    two axes that agrees with the horizontal grid is not classified: the
    look-up of a third axis raises [IndexError]. *)
Theorem is_staggered_last_three {A} (var : array A) wrfnc bt sn we :
  extract_dim wrfnc "west_east" = inr we →
  extract_dim wrfnc "south_north" = inr sn →
  extract_dim wrfnc "bottom_top" = inr bt →
  (is_staggered var wrfnc = inr false ↔ ∃ pre, shape var = pre ++ [bt; sn; we]) ∧
  (shape var = [sn; we] →
   is_staggered var wrfnc = inl (IndexError "tuple index out of range")) ∧
  (∀ pre x, shape var = pre ++ [x] → x ≠ we → is_staggered var wrfnc = inr true).
Proof.
  intros Hwe Hsn Hbt. unfold is_staggered. rewrite Hwe, Hsn, Hbt.
  cbn [mbind result_bind]. split; [split|split].
  - intros H.
    destruct (shape_m var 1) as [?|s1] eqn:H1; [done|]. cbn [mbind result_bind] in H.
    case_bool_decide as E1; [done|].
    destruct (shape_m var 2) as [?|s2] eqn:H2; [done|]. cbn [mbind result_bind] in H.
    case_bool_decide as E2; [done|].
    destruct (shape_m var 3) as [?|s3] eqn:H3; [done|]. cbn [mbind result_bind] in H.
    case_bool_decide as E3; [done|].
    subst.
    unfold shape_m in H1, H2, H3. unfold ndim in *.
    destruct (decide (length (shape var) < 3)) as [|Hlen]; [done|].
    rewrite decide_False in H1 by lia. rewrite decide_False in H2 by lia.
    cbn [from_option] in *.
    destruct (shape var !! (length (shape var) - 1)) as [x1|] eqn:L1; [|done].
    destruct (shape var !! (length (shape var) - 2)) as [x2|] eqn:L2; [|done].
    destruct (shape var !! (length (shape var) - 3)) as [x3|] eqn:L3; [|done].
    injection H1 as ->. injection H2 as ->. injection H3 as ->.
    exists (take (length (shape var) - 3) (shape var)).
    rewrite <-(take_drop (length (shape var) - 3) (shape var)) at 1. f_equal.
    apply list_eq. intros [|[|[|i]]].
    + rewrite lookup_drop. by rewrite Nat.add_0_r.
    + rewrite lookup_drop. cbn. rewrite <-L2. f_equal. lia.
    + rewrite lookup_drop. cbn. rewrite <-L1. f_equal. lia.
    + rewrite lookup_drop. cbn. apply lookup_ge_None_2. lia.
  - intros [pre Hs].
    rewrite (shape_m_app var pre [bt; sn; we] 1 Hs) by (cbn; lia).
    cbn [length Nat.sub lookup list_lookup from_option mbind result_bind].
    rewrite bool_decide_false by (by intros ?).
    rewrite (shape_m_app var pre [bt; sn; we] 2 Hs) by (cbn; lia).
    cbn [length Nat.sub lookup list_lookup from_option mbind result_bind].
    rewrite bool_decide_false by (by intros ?).
    rewrite (shape_m_app var pre [bt; sn; we] 3 Hs) by (cbn; lia).
    cbn [length Nat.sub lookup list_lookup from_option mbind result_bind].
    by rewrite bool_decide_false by (by intros ?).
  - intros Hs.
    rewrite (shape_m_app var [] [sn; we] 1 Hs) by (cbn; lia).
    cbn [length Nat.sub lookup list_lookup from_option mbind result_bind].
    rewrite bool_decide_false by (by intros ?).
    rewrite (shape_m_app var [] [sn; we] 2 Hs) by (cbn; lia).
    cbn [length Nat.sub lookup list_lookup from_option mbind result_bind].
    rewrite bool_decide_false by (by intros ?).
    rewrite shape_m_short; [done|]. unfold ndim. rewrite Hs. cbn. lia.
  - intros pre x Hs Hx.
    rewrite (shape_m_app var pre [x] 1 Hs) by (cbn; lia).
    cbn [length Nat.sub lookup list_lookup from_option mbind result_bind].
    by rewrite bool_decide_true.
Qed.

Lemma is_staggered_last_three_witness :
  is_staggered (NdArray [2; 3; 4; 5] ([] : list Z)) (Seq [grid_file 3 4 5]) = inr false ∧
  is_staggered (NdArray [4; 5] ([] : list Z)) (Seq [grid_file 3 4 5])
  = inl (IndexError "tuple index out of range") ∧
  is_staggered (NdArray [4; 6] ([] : list Z)) (Seq [grid_file 3 4 5]) = inr true.
Proof.
  destruct (is_staggered_last_three (NdArray [2; 3; 4; 5] ([] : list Z))
              (Seq [grid_file 3 4 5]) 3 4 5 eq_refl eq_refl eq_refl) as ([_ H1] & _ & _).
  destruct (is_staggered_last_three (NdArray [4; 5] ([] : list Z))
              (Seq [grid_file 3 4 5]) 3 4 5 eq_refl eq_refl eq_refl) as (_ & H2 & _).
  destruct (is_staggered_last_three (NdArray [4; 6] ([] : list Z))
              (Seq [grid_file 3 4 5]) 3 4 5 eq_refl eq_refl eq_refl) as (_ & _ & H3).
  split; [apply H1; by exists [2]|]. split; [by apply H2|].
  by apply (H3 [4] 6).
Defined.

Lemma mapM_lookup_take {A} (l : list A) e n k :
  k + n ≤ length l →
  mapM (λ x, from_option e (l !! x)) (seq k n) = inr (take n (drop k l)).
Proof.
  revert k. induction n as [|n IH]; intros k Hk; [by rewrite take_0|].
  cbn [seq mapM].
  destruct (lookup_lt_is_Some_2 l k ltac:(lia)) as [x Hx]. rewrite Hx.
  cbn [from_option mbind result_bind]. rewrite IH by lia.
  cbn [mbind result_bind mret result_ret]. f_equal.
  rewrite (drop_S l x k Hx). by rewrite <-Nat.add_1_r, <-take_take_drop, Nat.add_1_r
    || done.
Qed.

(** X14. For a variable of rank [n] and [e] expected right-most axes,
    [get_left_indexes] answers the sizes of the [n - e] axes on the left
    (none when [e >= n]), and [get_right_slices] an index of a fixed value
    for each of those axes followed by [e] full slices: together they name
    every axis once when [e <= n]. *)
Theorem left_indexes_and_right_slices {A} (var : array A) (e : nat) (fixed : Z) :
  get_left_indexes var (Z.of_nat e) = inr (take (ndim var - e) (shape var)) ∧
  get_right_slices var e fixed
  = replicate (ndim var - e) (Idx fixed) ++ replicate e SliceAll ∧
  (e ≤ ndim var →
   take (ndim var - e) (shape var) ++ drop (ndim var - e) (shape var) = shape var ∧
   length (get_right_slices var e fixed) = ndim var).
Proof.
  split; [|split].
  - unfold get_left_indexes. case_decide as Hz.
    + by replace (ndim var - e) with 0 by lia.
    + rewrite (mapM_lookup_take (shape var) _ _ 0).
      * f_equal. rewrite drop_0. f_equal. lia.
      * unfold ndim. lia.
  - unfold get_right_slices. case_decide as Hz.
    + by replace (ndim var - e) with 0 by lia.
    + do 2 f_equal. lia.
  - intros He. split; [apply take_drop|].
    unfold get_right_slices. case_decide as Hz.
    + rewrite length_replicate. lia.
    + rewrite length_app, !length_replicate. lia.
Qed.

Lemma left_indexes_and_right_slices_witness :
  let var := NdArray [4; 3; 2; 5] (replicate 120 0%Z) in
  get_left_indexes var 2 = inr [4; 3] ∧
  get_right_slices var 2 0 = [Idx 0; Idx 0; SliceAll; SliceAll] ∧
  length (get_right_slices var 2 0) = ndim var.
Proof.
  cbv zeta.
  destruct (left_indexes_and_right_slices (NdArray [4; 3; 2; 5] (replicate 120 0%Z))
              2 0) as (H1 & H2 & H3).
  split; [exact H1|]. split; [exact H2|]. apply H3. cbn. lia.
Defined.

Lemma mapM_result_app {A B} (f : A → result B) l1 l2 :
  mapM f (l1 ++ l2) = (xs ← mapM f l1; ys ← mapM f l2; inr (xs ++ ys)).
Proof.
  induction l1 as [|x l1 IH]; cbn [app mapM].
  - cbn [mret result_ret mbind result_bind]. by destruct (mapM f l2).
  - destruct (f x) as [?|y]; [done|]. cbn [mbind result_bind]. rewrite IH.
    destruct (mapM f l1) as [?|ys]; [done|]. cbn [mbind result_bind].
    by destruct (mapM f l2).
Qed.

Lemma mapM_result_fmap {A B C} (g : A → B) (f : B → result C) l :
  mapM f (g <$> l) = mapM (λ x, f (g x)) l.
Proof.
  induction l as [|x l IH]; [done|]. cbn [fmap list_fmap mapM].
  destruct (f (g x)); [done|]. cbn [mbind result_bind]. fold (g <$> l). by rewrite IH.
Qed.

Lemma mapM_result_ext {A B} (f g : A → result B) l :
  (∀ x, f x = g x) → mapM f l = mapM g l.
Proof. intros Hfg. induction l as [|x l IH]; [done|]. cbn [mapM]. by rewrite Hfg, IH. Qed.

Lemma iter_left_indexes_cons n dims :
  iter_left_indexes (n :: dims) = x ← seq 0 n; (x ::.) <$> iter_left_indexes dims.
Proof. reflexivity. Qed.

Lemma iter_left_indexes_elem dims idx :
  idx ∈ iter_left_indexes dims ↔ Forall2 (λ i d, i < d) idx dims.
Proof.
  revert idx. induction dims as [|n dims IH]; intros idx.
  - change (iter_left_indexes []) with [[] : list nat].
    rewrite list_elem_of_singleton. split; [intros ->; constructor|by inversion 1].
  - rewrite iter_left_indexes_cons, list_elem_of_bind. split.
    + intros (i & (idx' & -> & Hidx')%list_elem_of_fmap & Hi%elem_of_seq).
      constructor; [lia|]. by apply IH.
    + inversion 1 as [|i d idx' dims' Hi Hidx']; subst.
      exists i. split; [|apply elem_of_seq; lia].
      apply list_elem_of_fmap. exists idx'. split; [done|]. by apply IH.
Qed.

Lemma iter_left_indexes_length dims :
  length (iter_left_indexes dims) = nd_size dims.
Proof.
  induction dims as [|n dims IH]; [done|].
  rewrite iter_left_indexes_cons. cbn [nd_size foldr]. fold (nd_size dims).
  generalize 0. induction n as [|n IHn]; intros k; [done|].
  cbn [seq]. rewrite bind_cons, length_app, length_fmap, IH, IHn. done.
Qed.

Lemma iter_left_indexes_NoDup dims : NoDup (iter_left_indexes dims).
Proof.
  induction dims as [|n dims IH]; [apply NoDup_singleton|].
  rewrite iter_left_indexes_cons. apply NoDup_bind.
  - intros i j idx _ _ (? & -> & _)%list_elem_of_fmap (? & [= -> _] & _)%list_elem_of_fmap.
    done.
  - intros i _. apply NoDup_fmap; [|done]. by intros ?? [= ->].
  - apply NoDup_seq.
Qed.

(** The blocks at the left-most indexes, in the order of the iteration,
    make up the cells of the array. *)
Lemma blocks_cover {A} left right :
  ∀ a : array A,
    shape a = left ++ right → well_shaped a →
    ∃ blocks,
      mapM (λ idx, getitems a (Z.of_nat <$> idx)) (iter_left_indexes left) = inr blocks ∧
      Forall (λ b, shape b = right) blocks ∧
      concat (cells <$> blocks) = cells a.
Proof.
  induction left as [|n left IH]; intros a Hs Hw.
  - exists [a]. split; [done|]. split; [by repeat constructor|].
    cbn. by rewrite app_nil_r.
  - set (sz := nd_size (left ++ right)).
    assert (Hlen : length (cells a) = n * sz).
    { unfold well_shaped in Hw. by rewrite Hw, Hs. }
    assert (Hrows : ∀ m k, k + m ≤ n →
      ∃ blocks,
        mapM (λ idx, getitems a (Z.of_nat <$> idx))
          (x ← seq k m; (x ::.) <$> iter_left_indexes left) = inr blocks ∧
        Forall (λ b, shape b = right) blocks ∧
        concat (cells <$> blocks) = take (m * sz) (drop (k * sz) (cells a))).
    { induction m as [|m IHm]; intros k Hk.
      - exists []. split; [done|]. split; [constructor|]. by rewrite take_0.
      - cbn [seq]. rewrite bind_cons, mapM_result_app, mapM_result_fmap.
        set (a_k := NdArray (left ++ right) (take sz (drop (k * sz) (cells a)))).
        assert (Hget : getitem a (Z.of_nat k) = inr a_k).
        { unfold getitem. rewrite Hs. cbn [app]. by rewrite norm_index_nat by lia. }
        destruct (IH a_k eq_refl) as (b1 & Hb1 & Hs1 & Hc1).
        { unfold well_shaped, a_k. cbn [cells shape].
          rewrite length_take, length_drop, Hlen. fold sz.
          assert (k * sz + sz ≤ n * sz) by nia. lia. }
        rewrite (mapM_result_ext (λ x, getitems a (Z.of_nat <$> k :: x))
                   (λ idx, getitems a_k (Z.of_nat <$> idx))).
        2:{ intros idx. cbn [fmap list_fmap getitems]. by rewrite Hget. }
        rewrite Hb1. cbn [mbind result_bind].
        destruct (IHm (S k) ltac:(lia)) as (b2 & Hb2 & Hs2 & Hc2).
        rewrite Hb2. cbn [mbind result_bind].
        exists (b1 ++ b2). split; [done|]. split; [by apply Forall_app|].
        rewrite fmap_app, concat_app, Hc1, Hc2. unfold a_k. cbn [cells].
        change (S m * sz) with (sz + m * sz).
        rewrite <-take_take_drop, drop_drop. do 3 f_equal. cbn. lia. }
    destruct (Hrows n 0 ltac:(lia)) as (blocks & Hb & Hsh & Hc).
    exists blocks. split; [by rewrite iter_left_indexes_cons|]. split; [done|].
    rewrite Hc, drop_0, <-Hlen. apply take_ge. lia.
Qed.

(** X15. [iter_left_indexes(dims)] yields every index tuple within the
    sizes [dims] exactly once, the product of the sizes in all (one empty
    tuple for no sizes, none when a size is 0), the right-most index
    advancing first; so for an array whose shape begins with [dims], the
    blocks at the tuples, in the order yielded, are the cells of the array
    in storage order. *)
Theorem left_index_iteration {A} dims right (a : array A) :
  shape a = dims ++ right → well_shaped a →
  length (iter_left_indexes dims) = nd_size dims ∧
  NoDup (iter_left_indexes dims) ∧
  (∀ idx, idx ∈ iter_left_indexes dims ↔ Forall2 (λ i d, i < d) idx dims) ∧
  ∃ blocks,
    mapM (λ idx, getitems a (Z.of_nat <$> idx)) (iter_left_indexes dims) = inr blocks ∧
    Forall (λ b, shape b = right) blocks ∧
    concat (cells <$> blocks) = cells a.
Proof.
  intros Hs Hw. split; [apply iter_left_indexes_length|].
  split; [apply iter_left_indexes_NoDup|].
  split; [apply iter_left_indexes_elem|]. by apply blocks_cover.
Qed.

Lemma left_index_iteration_witness :
  iter_left_indexes [2; 3] = [[0; 0]; [0; 1]; [0; 2]; [1; 0]; [1; 1]; [1; 2]] ∧
  mapM (λ idx, getitems (NdArray [2; 3; 2] (Z.of_nat <$> seq 0 12)) (Z.of_nat <$> idx))
    (iter_left_indexes [2; 3])
  = inr ((λ k, NdArray [2] [Z.of_nat (2 * k); Z.of_nat (2 * k + 1)]) <$> seq 0 6).
Proof.
  split; [reflexivity|].
  assert (Hw : well_shaped (NdArray [2; 3; 2] (Z.of_nat <$> seq 0 12))) by reflexivity.
  destruct (left_index_iteration [2; 3] [2] (NdArray [2; 3; 2] (Z.of_nat <$> seq 0 12))
              eq_refl Hw) as (_ & _ & _ & blocks & Hb & _).
  rewrite Hb. f_equal.
  assert (inr blocks
          = (inr ((λ k, NdArray [2] [Z.of_nat (2 * k); Z.of_nat (2 * k + 1)])
                    <$> seq 0 6) : result (list ndarray))) as [= ->]; [|done].
  rewrite <-Hb. vm_compute. reflexivity.
Defined.

(** ** Cache tokens *)

Lemma assoc_fmap {A B} (f : A → B) k (d : list (string * A)) :
  assoc k ((λ p, (p.1, f p.2)) <$> d) = f <$> assoc k d.
Proof.
  induction d as [|[k' v] d IH]; [done|].
  cbn [fmap list_fmap assoc fst snd]. fold ((λ p : string * A, (p.1, f p.2)) <$> d).
  by destruct (decide (k' = k)).
Qed.

(** X16. The token [get_id] builds mirrors the input: a file or a sequence
    gets the identity of the object, a mapping gets a mapping with the same
    keys whose entries are the tokens of the entries.  So the token of a
    mapping can be indexed by every key of the mapping, which is what
    [is_moving_domain] and [_combine_dict] do: with it, the detection for a
    mapping is the detection for its first entry under the token [get_id]
    builds for that entry. *)
Theorem get_id_mirrors_mapping id k e d varname c :
  (∀ k', key_getitem (Some (get_id id (Mapping d))) k'
         = from_option (KeyError k') (get_id id <$> assoc k' d)) ∧
  (∀ s, get_id id (Single s) = KId (id (Single s))) ∧
  (∀ l, get_id id (Seq l) = KId (id (Seq l))) ∧
  run (is_moving_domain (Mapping ((k, e) :: d)) varname default_latvar default_lonvar
         (Some (get_id id (Mapping ((k, e) :: d))))) c
  = run (is_moving_domain e varname default_latvar default_lonvar
           (Some (get_id id e))) c.
Proof.
  split; [|split; [done|split; [done|]]].
  - intros k'. cbn [get_id key_getitem]. by rewrite assoc_fmap.
  - unfold run, default_latvar, default_lonvar.
    rewrite (is_moving_domain_named e).
    cbn [is_moving_domain resolve_coord either].
    unfold mbind at 1 2 4 5, M_bind at 1 2 4 5, lift at 1 2 4 5.
    destruct (either ["XLAT"; "XLAT_M"] e) as [?|latvar]; [done|].
    destruct (either ["XLONG"; "XLONG_M"] e) as [?|lonvar]; [done|].
    cbn [get_id key_getitem fmap list_fmap assoc fst snd].
    rewrite decide_True by done. cbn [from_option fmap result_fmap].
    by rewrite bind_lift_inr.
Qed.

(** ** Dimension names of a combined variable *)

Lemma list_index_split x l i :
  list_index x l = inr i →
  ∃ pre post, l = pre ++ x :: post ∧ (x ∉ pre) ∧ length pre = i.
Proof.
  revert i. induction l as [|y l IH]; intros i; [done|]. cbn [list_index].
  destruct (decide (y = x)) as [->|Hne].
  - intros [= <-]. exists [], l. split; [done|]. split; [apply not_elem_of_nil|done].
  - destruct (list_index x l) as [?|j] eqn:Hj; [done|]. intros [= <-].
    destruct (IH j eq_refl) as (pre & post & -> & Hpre & Hlen).
    exists (y :: pre), post. split; [done|]. split; [|by cbn; rewrite Hlen].
    rewrite not_elem_of_cons. by split.
Qed.

Lemma list_index_absent x l :
  x ∉ l → list_index x l = inl (ValueError "is not in list").
Proof.
  induction l as [|y l IH]; [done|]. rewrite not_elem_of_cons. intros [Hne Hl].
  cbn [list_index]. rewrite decide_False by done. by rewrite IH.
Qed.

Lemma assoc_odict_set_eq {A} k (v : A) d : assoc k (odict_set k v d) = Some v.
Proof.
  induction d as [|[k' v'] d IH]; cbn [odict_set assoc].
  - by rewrite decide_True.
  - destruct (decide (k' = k)) as [->|Hne]; cbn [assoc].
    + by rewrite decide_True.
    + by rewrite decide_False.
Qed.

Lemma assoc_odict_set_ne {A} k k' (v : A) d :
  k ≠ k' → assoc k' (odict_set k v d) = assoc k' d.
Proof.
  intros Hne. induction d as [|[k0 v0] d IH]; cbn [odict_set assoc].
  - by rewrite decide_False.
  - destruct (decide (k0 = k)) as [->|Hne0]; cbn [assoc].
    + by rewrite !decide_False.
    + destruct (decide (k0 = k')); [done|]. apply IH.
Qed.

Lemma assoc_odict_update {A} (new d : list (string * A)) k :
  assoc k (odict_update new d)
  = match assoc k (reverse new) with Some v => Some v | None => assoc k d end.
Proof.
  unfold odict_update. revert d. induction new as [|[k0 v0] new IH]; intros d; [done|].
  cbn [foldl fst snd]. rewrite IH, reverse_cons.
  assert (Happ : ∀ l1 l2 : list (string * A),
            assoc k (l1 ++ l2)
            = match assoc k l1 with Some v => Some v | None => assoc k l2 end).
  { intros l1 l2. induction l1 as [|[k1 v1] l1 IH1]; [done|].
    cbn [app assoc]. by destruct (decide (k1 = k)). }
  rewrite Happ. destruct (assoc k (reverse new)); [done|]. cbn [assoc].
  destruct (decide (k0 = k)) as [->|Hne].
  - apply assoc_odict_set_eq.
  - by apply assoc_odict_set_ne.
Qed.

(** X17. [combine_with.__call__]: without [insert_before] the dimension
    names of the variable are dropped and the new names stand alone (also
    when there are none); with [insert_before] and nothing removed, the new
    names are put in front of the first dimension of that name, the other
    names keep their order, and a name that is no dimension is a
    [ValueError]; a new coordinate replaces or joins the coordinates of the
    variable, the others keep their values. *)
Theorem combine_with_dimensions self var :
  (cw_insert_before self = None →
   ∀ out, combine_with_call self var = inr out → out.1 = cw_new_dimnames self) ∧
  (cw_remove_dims self = None →
   ∀ before, cw_insert_before self = Some before →
     if decide (before ∈ da_dims var) then
       ∃ pre post,
         da_dims var = pre ++ before :: post ∧ (before ∉ pre) ∧
         (fst <$> combine_with_call self var)
         = inr (pre ++ cw_new_dimnames self ++ before :: post)
     else combine_with_call self var = inl (ValueError "is not in list")) ∧
  (cw_remove_dims self = None →
   ∀ out name, combine_with_call self var = inr out →
     assoc name out.2
     = match assoc name (reverse (cw_new_coords self)) with
       | Some v => Some v
       | None => assoc name (da_coords var)
       end).
Proof.
  unfold combine_with_call. split; [|split].
  - intros Hnone out. rewrite Hnone.
    destruct (match cw_remove_dims self with Some _ => _ | None => _ end)
      as [?|[new_dims new_coords]]; [done|].
    cbn [mbind result_bind]. by intros [= <-].
  - intros Hrm before Hb. rewrite Hrm, Hb. cbn [mbind result_bind].
    case_decide as Hin.
    + destruct (list_index before (da_dims var)) as [e|i] eqn:Hi.
      { exfalso. clear -Hin Hi. induction (da_dims var) as [|y l IH]; [by inversion Hin|].
        cbn [list_index] in Hi. destruct (decide (y = before)); [done|].
        apply elem_of_cons in Hin as [->|Hin]; [done|].
        destruct (list_index before l); [by apply IH|done]. }
      destruct (list_index_split _ _ _ Hi) as (pre & post & Hd & Hpre & <-).
      exists pre, post. split; [done|]. split; [done|].
      cbn [mbind result_bind fmap result_fmap fst]. rewrite Hd.
      by rewrite take_app_length, drop_app_length.
    + by rewrite list_index_absent.
  - intros Hrm out name. rewrite Hrm. cbn [mbind result_bind].
    destruct (match cw_insert_before self with Some _ => _ | None => _ end)
      as [?|new_dims]; [done|].
    cbn [mbind result_bind]. intros [= <-]. cbn [snd]. apply assoc_odict_update.
Qed.

Lemma combine_with_dimensions_witness :
  let var := {| da_values := plain (NdArray [1; 2; 2] [1; 2; 3; 4]%Z); da_name := "T";
                da_dims := ["Time"; "south_north"; "west_east"];
                da_coords := [("XLAT", NoneCoord)]; da_attrs := empty_attrs |} in
  (fst <$> combine_with_call
     {| cw_varname := "T"; cw_remove_dims := None;
        cw_insert_before := Some "south_north"; cw_new_dimnames := ["level"];
        cw_new_coords := [] |} var)
  = inr ["Time"; "level"; "south_north"; "west_east"] ∧
  (fst <$> combine_with_call
     {| cw_varname := "T"; cw_remove_dims := Some ["Time"];
        cw_insert_before := None; cw_new_dimnames := []; cw_new_coords := [] |} var)
  = inl (KeyError "Time").
Proof.
  cbv zeta. split; [|reflexivity].
  match goal with |- fst <$> combine_with_call ?s ?v = _ =>
    destruct (combine_with_dimensions s v) as (_ & H & _) end.
  specialize (H eq_refl "south_north" eq_refl). cbn [da_dims] in H.
  rewrite decide_True in H by (by right; left).
  destruct H as (pre & post & Hd & Hpre & ->).
  destruct pre as [|x [|y pre]]; [done| |].
  - by injection Hd as <- <-.
  - exfalso. injection Hd as <- <- _. apply Hpre. by right; left.
Defined.

(** ** Arguments of a wrapped function *)

Lemma fill_defaults_spec {V} (rdefs : list V) :
  ∀ out j,
    1 ≤ j → j - 1 + length rdefs ≤ length out →
    fill_defaults out j rdefs
    = inr (take (length out - (j - 1) - length rdefs) out ++ reverse rdefs
           ++ drop (length out - (j - 1)) out).
Proof.
  induction rdefs as [|d rdefs IH]; intros out j Hj Hlen.
  - cbn [fill_defaults length]. change (reverse []) with (@nil V). cbn [app].
    by rewrite Nat.sub_0_r, take_drop.
  - cbn [length] in Hlen. cbn [fill_defaults]. rewrite decide_False by lia.
    rewrite IH by (rewrite ?length_insert; lia). rewrite length_insert.
    f_equal. rewrite reverse_cons, <-!app_assoc. cbn [app length].
    replace (length out - (S j - 1)) with (length out - j) by lia.
    f_equal.
    + rewrite take_insert_ge by lia. f_equal. lia.
    + f_equal.
      destruct (lookup_lt_is_Some_2 out (length out - j) ltac:(lia)) as [x Hx].
      rewrite (drop_S (<[length out - j := d]> out) d (length out - j)).
      * f_equal. rewrite drop_insert_lt by lia. f_equal. lia.
      * apply list_lookup_insert_eq. lia.
Qed.

Lemma fill_args_spec {V} (args : list V) :
  ∀ out i,
    i + length args ≤ length out →
    fill_args out i args = inr (take i out ++ args ++ drop (i + length args) out).
Proof.
  induction args as [|a args IH]; intros out i Hlen.
  - cbn [fill_args length app]. by rewrite Nat.add_0_r, take_drop.
  - cbn [length] in Hlen. cbn [fill_args]. rewrite decide_False by lia.
    rewrite IH by (rewrite length_insert; lia). f_equal.
    destruct (lookup_lt_is_Some_2 out i ltac:(lia)) as [x Hx].
    rewrite (take_S_r (<[i := a]> out) i a) by (apply list_lookup_insert_eq; lia).
    rewrite take_insert_ge by lia. rewrite <-app_assoc. cbn [app length].
    rewrite drop_insert_lt by lia.
    by replace (S i + length args) with (i + S (length args)) by lia.
Qed.

Lemma fill_args_overflow {V} (args : list V) :
  ∀ out i,
    i ≤ length out → length out < i + length args →
    fill_args out i args = inl (IndexError "list assignment index out of range").
Proof.
  induction args as [|a args IH]; intros out i Hi Hlen; [cbn in Hlen; lia|].
  cbn [length] in Hlen. cbn [fill_args]. case_decide; [done|].
  apply IH; rewrite length_insert; lia.
Qed.

Lemma list_index_lookup x l :
  x ∈ l → ∃ i, list_index x l = inr i ∧ l !! i = Some x.
Proof.
  induction l as [|y l IH]; [by inversion 1|]. cbn [list_index].
  destruct (decide (y = x)) as [->|Hne]; [by exists 0|].
  intros [->|Hin]%elem_of_cons; [done|].
  destruct (IH Hin) as (i & -> & Hi). by exists (S i).
Qed.

Lemma assoc_None {A} k (l : list (string * A)) : k ∉ l.*1 → assoc k l = None.
Proof.
  induction l as [|[k' v] l IH]; [done|]. cbn [fmap list_fmap fst assoc].
  rewrite not_elem_of_cons. intros [Hne Hl]. rewrite decide_False by done. by apply IH.
Qed.

Lemma fill_kwargs_spec {V} names (kwargs : list (string * V)) :
  NoDup names → NoDup (kwargs.*1) → kwargs.*1 ⊆ names →
  ∀ out, length out = length names →
    ∃ out', fill_kwargs names out kwargs = inr out' ∧ length out' = length names ∧
      ∀ p name, names !! p = Some name →
        out' !! p = match assoc name kwargs with Some v => Some v | None => out !! p end.
Proof.
  intros Hnames. induction kwargs as [|[k v] kwargs IH]; intros Hkeys Hsub out Hlen.
  - exists out. by repeat split.
  - cbn [fmap list_fmap fst] in Hkeys, Hsub. apply NoDup_cons in Hkeys as [Hk Hkeys].
    assert (Hkin : k ∈ names) by (apply Hsub; by left).
    assert (Hsub' : kwargs.*1 ⊆ names) by (intros x Hx; apply Hsub; by right).
    destruct (list_index_lookup k names Hkin) as (idx & Hidx & Hi).
    cbn [fill_kwargs]. rewrite Hidx. cbn [mbind result_bind].
    destruct (IH Hkeys Hsub' (<[idx := v]> out) ltac:(by rewrite length_insert))
      as (out' & -> & Hlen' & Hval).
    exists out'. split; [done|]. split; [done|].
    intros p name Hp. rewrite (Hval p name Hp). cbn [assoc].
    destruct (decide (k = name)) as [->|Hne].
    + rewrite assoc_None by done.
      assert (p = idx) as -> by exact (NoDup_lookup _ _ _ _ Hnames Hp Hi).
      apply list_lookup_insert_eq. rewrite Hlen. by eapply lookup_lt_Some.
    + destruct (assoc name kwargs); [done|].
      apply list_lookup_insert_ne. intros ->. congruence.
Qed.

Lemma fill_kwargs_unknown {V} names (kwargs : list (string * V)) :
  ¬ (kwargs.*1 ⊆ names) →
  ∀ out, fill_kwargs names out kwargs = inl (ValueError "is not in list").
Proof.
  induction kwargs as [|[k v] kwargs IH]; intros Hsub out.
  - exfalso. apply Hsub. by intros x Hx%elem_of_nil.
  - cbn [fill_kwargs]. destruct (decide (k ∈ names)) as [Hin|Hout].
    + destruct (list_index_lookup k names Hin) as (idx & -> & _).
      cbn [mbind result_bind]. apply IH. intros Hsub'. apply Hsub.
      intros x [->|Hx]%elem_of_cons; [done|by apply Hsub'].
    + by rewrite list_index_absent.
Qed.

Lemma args_to_list2_defaults {V} (none : V) (argspec : ArgSpec V) :
  let n := length (as_args argspec) in
  let defs := default [] (as_defaults argspec) in
  length defs ≤ n →
  match as_defaults argspec with
  | Some defaults => fill_defaults (replicate n none) 1 (reverse defaults)
  | None => inr (replicate n none)
  end = inr (replicate (n - length defs) none ++ defs).
Proof.
  intros n defs Hm. subst defs.
  destruct (as_defaults argspec) as [defaults|]; cbn [default] in *; unfold id in *.
  - rewrite fill_defaults_spec by (rewrite ?length_reverse, ?length_replicate; lia).
    rewrite length_reverse, length_replicate, reverse_involutive, Nat.sub_0_r.
    rewrite take_replicate, Nat.min_l by lia.
    rewrite drop_ge by (rewrite length_replicate; lia). by rewrite app_nil_r.
  - cbn [length app]. by rewrite Nat.sub_0_r, app_nil_r.
Qed.

Lemma args_to_list2_values {V} (none : V) argspec args kwargs :
  fits_signature argspec args kwargs →
  ∃ l, _args_to_list2 none argspec args kwargs = inr l ∧
       length l = length (as_args argspec) ∧
       ∀ i name, as_args argspec !! i = Some name →
         l !! i = Some (bound_value none argspec args kwargs i name).
Proof.
  set (n := length (as_args argspec)).
  set (defs := default [] (as_defaults argspec)).
  intros (Hnames & Hm & Hargs & Hsub & Hkeys). fold n defs in Hm, Hargs.
  assert (Hd0 : length (replicate (n - length defs) none ++ defs) = n).
  { rewrite length_app, length_replicate. lia. }
  pose proof (args_to_list2_defaults none argspec) as Hdefs.
  cbv zeta in Hdefs. fold n defs in Hdefs.
  unfold _args_to_list2. fold n.
  rewrite (Hdefs Hm). cbn [mbind result_bind].
  rewrite fill_args_spec by (rewrite Hd0; lia).
  cbn [mbind result_bind Nat.add]. rewrite take_0. cbn [app].
  set (l1 := args ++ drop (length args) (replicate (n - length defs) none ++ defs)).
  assert (Hl1 : length l1 = n).
  { unfold l1. rewrite length_app, length_drop, Hd0. lia. }
  destruct (fill_kwargs_spec (as_args argspec) kwargs Hnames Hkeys Hsub l1 Hl1)
    as (l & -> & Hlen & Hval).
  exists l. split; [done|]. split; [done|].
  intros i name Hi. rewrite (Hval i name Hi). unfold bound_value. fold n defs.
  destruct (assoc name kwargs) as [v|]; [done|].
  assert (Hin : i < n) by (by eapply lookup_lt_Some).
  unfold l1. destruct (args !! i) as [a|] eqn:Ha.
  - by rewrite lookup_app_l, Ha by (by eapply lookup_lt_Some).
  - apply lookup_ge_None in Ha. rewrite lookup_app_r by done.
    rewrite lookup_drop. replace (length args + (i - length args)) with i by lia.
    case_decide as Hi'.
    + rewrite lookup_app_r by (rewrite length_replicate; lia).
      rewrite length_replicate.
      destruct (lookup_lt_is_Some_2 defs (i - (n - length defs)) ltac:(lia)) as [x ->].
      done.
    + rewrite lookup_app_l by (rewrite length_replicate; lia).
      by rewrite lookup_replicate_2 by lia.
Qed.

(** X18. [_args_to_list2] lays the arguments of a call out in the order of
    the parameters: for a call that fits the signature the list has one item
    per parameter, and the item of a parameter is its keyword argument, else
    the positional argument at its position, else its default value, else
    [None].  More positional arguments than parameters are an [IndexError],
    a keyword that is no parameter is a [ValueError]. *)
Theorem args_to_list2_binds {V} (none : V) argspec args kwargs :
  (fits_signature argspec args kwargs →
   ∃ l, _args_to_list2 none argspec args kwargs = inr l ∧
        length l = length (as_args argspec) ∧
        ∀ i name, as_args argspec !! i = Some name →
          l !! i = Some (bound_value none argspec args kwargs i name)) ∧
  (length (default [] (as_defaults argspec)) ≤ length (as_args argspec) →
   length (as_args argspec) < length args →
   _args_to_list2 none argspec args kwargs
   = inl (IndexError "list assignment index out of range")) ∧
  (length (default [] (as_defaults argspec)) ≤ length (as_args argspec) →
   length args ≤ length (as_args argspec) →
   ¬ (kwargs.*1 ⊆ as_args argspec) →
   _args_to_list2 none argspec args kwargs = inl (ValueError "is not in list")).
Proof.
  split; [apply args_to_list2_values|].
  set (n := length (as_args argspec)).
  set (defs := default [] (as_defaults argspec)).
  assert (Hd0 : length defs ≤ n → length (replicate (n - length defs) none ++ defs) = n).
  { intros Hm. rewrite length_app, length_replicate. lia. }
  pose proof (args_to_list2_defaults none argspec) as Hdefs.
  cbv zeta in Hdefs. fold n defs in Hdefs.
  unfold _args_to_list2. fold n. split.
  - intros Hm Hargs. rewrite (Hdefs Hm).
    cbn [mbind result_bind]. by rewrite fill_args_overflow by (rewrite ?Hd0 by done; lia).
  - intros Hm Hargs Hsub. rewrite (Hdefs Hm).
    cbn [mbind result_bind].
    rewrite fill_args_spec by (rewrite Hd0 by done; lia).
    cbn [mbind result_bind]. by apply fill_kwargs_unknown.
Qed.

Lemma args_to_list2_binds_witness :
  _args_to_list2 0%Z {| as_args := ["wrfnc"; "timeidx"; "units"];
                        as_defaults := Some [7; 8]%Z |}
    [1]%Z [("units", 3%Z)]
  = inr [1; 7; 3]%Z.
Proof.
  destruct (args_to_list2_binds 0%Z
              {| as_args := ["wrfnc"; "timeidx"; "units"]; as_defaults := Some [7; 8]%Z |}
              [1]%Z [("units", 3%Z)]) as (H & _).
  destruct H as (l & -> & Hlen & Hval).
  { unfold fits_signature. cbn [as_args as_defaults default fmap list_fmap fst length].
    split; [by apply (bool_decide_unpack _)|]. split; [unfold id; cbn; lia|].
    split; [lia|]. split; [|by apply (bool_decide_unpack _)].
    intros x ->%list_elem_of_singleton. by right; right; left. }
  f_equal. apply list_eq. intros [|[|[|i]]].
  - by rewrite (Hval 0 "wrfnc" eq_refl).
  - by rewrite (Hval 1 "timeidx" eq_refl).
  - by rewrite (Hval 2 "units" eq_refl).
  - cbn. apply lookup_ge_None. rewrite Hlen. cbn. lia.
Defined.

Lemma mapM_result_total {A B} (f : A → result B) (g : A → B) l :
  (∀ x, f x = inr (g x)) → mapM f l = inr (g <$> l).
Proof.
  intros Hfg. induction l as [|x l IH]; [done|].
  cbn [mapM]. by rewrite Hfg, IH.
Qed.

(** X19. [from_args] on Python 2 ([arg_location] through [getargspec]):
    for a call that fits the signature, each asked name that is a parameter
    is answered with the value the call binds to it (keyword, positional,
    default, else [None]), and a name that is no parameter with [None]. *)
Theorem from_args_finds_values {V} (none : V) loc3 argspec arglist args kwargs :
  fits_signature argspec args kwargs →
  from_args none loc3 false argspec arglist args kwargs
  = inr ((λ name,
            (name,
             match list_index name (as_args argspec) with
             | inr i => bound_value none argspec args kwargs i name
             | inl _ => none
             end)) <$> arglist).
Proof.
  intros Hfit.
  destruct (args_to_list2_values none argspec args kwargs Hfit) as (l & Hl & Hlen & Hval).
  destruct Hfit as (Hnames & _ & _ & Hsub & _).
  unfold from_args. apply mapM_result_total. intros name.
  unfold arg_location, _arg_location2. rewrite Hl. cbn [mbind result_bind].
  destruct (decide (name ∈ as_args argspec)) as [Hin|Hout].
  - rewrite bool_decide_false by (by intros [? _]).
    destruct (list_index_lookup name _ Hin) as (i & -> & Hi).
    cbn [mbind result_bind]. by rewrite (Hval i name Hi).
  - rewrite bool_decide_true by (split; [done|by intros ?%Hsub]).
    by rewrite list_index_absent by done.
Qed.

Lemma from_args_finds_values_witness :
  from_args 0%Z (λ _ _ _ _, inr None) false
    {| as_args := ["wrfnc"; "timeidx"; "units"]; as_defaults := Some [7; 8]%Z |}
    ["units"; "timeidx"; "cache"] [1]%Z [("units", 3%Z)]
  = inr [("units", 3); ("timeidx", 7); ("cache", 0)]%Z.
Proof.
  rewrite from_args_finds_values; [reflexivity|].
  unfold fits_signature. cbn [as_args as_defaults default fmap list_fmap fst length].
  split; [by apply (bool_decide_unpack _)|]. split; [unfold id; cbn; lia|].
  split; [lia|]. split; [|by apply (bool_decide_unpack _)].
  intros x ->%list_elem_of_singleton. by right; right; left.
Defined.

(** ** The sequence normaliser *)

(** X20. [get_iterable] is idempotent and keeps the kind of its input: a
    file stays a file, a mapping becomes (or stays) a dictionary, and what
    it returns is never a bare generator or a bare object of a custom
    iterable class: those are wrapped, and a wrapper is not wrapped again.
    The items of a list or tuple are returned as they are. *)
Theorem get_iterable_idempotent {A} (x : pyseq A) :
  get_iterable (get_iterable x) = get_iterable x ∧
  is_mapping (get_iterable x) = is_mapping x ∧
  is_multi_file (get_iterable x) = is_multi_file x ∧
  match get_iterable x with
  | GeneratorObj _ | CustomObj _ | OtherMapping _ => False
  | _ => True
  end ∧
  (∀ env fuel l, x = ListOrTuple l → items env fuel (get_iterable x) = inr l).
Proof. destruct x; repeat split; by intros ??? [= ->] || done. Qed.

(** X21. Every pass over a wrapped [TestGen] object yields the numbers
    from the object's position up to its total: the wrapper iterates a
    shallow copy, position included, so a fresh object is passed over from
    0, and an object that was advanced before it was wrapped from where it
    stands. *)
Theorem wrapped_TestGen_pass env total i fuel :
  total - i ≤ fuel →
  items env fuel (get_iterable (CustomObj (TestGen_obj {| _total := total; _i := i |})))
  = inr (Z.of_nat <$> seq i (total - i)).
Proof. intros Hfuel. cbn. by rewrite drain_TestGen. Qed.

Lemma wrapped_TestGen_pass_witness :
  items util_env 5 (get_iterable (CustomObj (TestGen_obj (TestGen_init 3))))
  = inr [0; 1; 2]%Z ∧
  items util_env 5 (get_iterable (CustomObj (TestGen_obj {| _total := 3; _i := 2 |})))
  = inr [2]%Z.
Proof.
  unfold TestGen_init. split.
  - by rewrite (wrapped_TestGen_pass util_env 3 0 5) by lia.
  - by rewrite (wrapped_TestGen_pass util_env 3 2 5) by lia.
Defined.

(** X22. A generator made in the interpreter ([inspect.getmodule] finds no
    module) is rebuilt by calling the function of its name in [__main__]
    with the local variables of its frame as keyword arguments.  For a
    generator that has not started, these are its arguments, and every pass
    yields what a call with them yields; once the generator has finished
    there is no frame and the pass raises [AttributeError]; a frame that
    holds a local variable which is no parameter makes the call raise
    [TypeError]. *)
Theorem main_generator_rebuilt {A} (env : PyEnv A) name f fuel :
  main_module env !! name = Some f →
  (∀ kwargs g, call_genfunc name None f kwargs = inr g →
     items env fuel (get_iterable (GeneratorObj g)) = inr (gf_body f kwargs)) ∧
  (∀ rest,
     items env fuel (get_iterable (GeneratorObj
       {| gen_name := name; gi_frame := None; gen_rest := rest |}))
     = inl (AttributeError "f_code")) ∧
  (∀ locals rest, ¬ (locals.*1 ⊆ gf_params f) →
     items env fuel (get_iterable (GeneratorObj
       {| gen_name := name;
          gi_frame := Some {| f_locals := locals; f_module := None |};
          gen_rest := rest |}))
     = inl (TypeError "got an unexpected keyword argument")).
Proof.
  intros Hf. split; [|split].
  - intros kwargs g Hg. pose proof Hg as Hg'. unfold call_genfunc in Hg.
    case_bool_decide as Hfit; [|done]. injection Hg as <-.
    cbn [get_iterable is_multi_file is_mapping negb items fmap result_fmap].
    unfold _generator_copy. cbn [gi_frame gen_name from_option mbind result_bind
                                  f_module f_locals].
    rewrite Hf. cbn [from_option mbind result_bind]. by rewrite Hg'.
  - done.
  - intros locals rest Hbad.
    cbn [get_iterable is_multi_file is_mapping negb items fmap result_fmap].
    unfold _generator_copy. cbn [gi_frame gen_name from_option mbind result_bind
                                  f_module f_locals].
    rewrite Hf. cbn [from_option mbind result_bind]. unfold call_genfunc.
    by rewrite bool_decide_false by (by intros [? _]).
Qed.

Lemma main_generator_rebuilt_witness :
  let env := {| sys_modules := ∅; main_module := {[ "test" := test ]} |} in
  (∀ g, call_genfunc "test" None test [] = inr g →
        items env 0 (get_iterable (GeneratorObj g)) = inr [1; 2; 3]%Z) ∧
  items env 0 (get_iterable (GeneratorObj
    {| gen_name := "test";
       gi_frame := Some {| f_locals := [("q", VList [1; 2; 3]%Z); ("i", VInt 1)];
                           f_module := None |};
       gen_rest := [2; 3]%Z |}))
  = inl (TypeError "got an unexpected keyword argument").
Proof.
  cbv zeta.
  destruct (main_generator_rebuilt
              {| sys_modules := ∅; main_module := {[ "test" := test ]} |} "test" test 0
              (lookup_singleton_eq _ _)) as (H1 & _ & H3).
  split; [intros g Hg; by rewrite (H1 [] g Hg)|].
  apply H3. intros Hsub. specialize (Hsub "q" ltac:(by left)). by inversion Hsub.
Defined.

(** ** Variables with a time axis only *)

Lemma build_needs_two_axes xe wrfnc varname mv mf key c var n :
  variables wrfnc !! varname = Some var →
  shape (vdata var) = [n] →
  (run (_build_data_array xe wrfnc varname None mv mf key) c).1
  = inl (IndexError "too many indices for array").
Proof.
  intros Hvar Hs. unfold run, _build_data_array, getvar. rewrite Hvar.
  cbn [from_option]. rewrite bind_lift_inr.
  unfold getitem_all, ndim. rewrite Hs. cbn [length].
  by rewrite decide_True by lia.
Qed.

(** X23. A variable that has a time axis and no other cannot be combined
    over several files: cat and join assign the array of each file with an
    index of two axes and more ([outdata[start:end, :]],
    [outdata[file, 0:n, :]]), which an output of one axis (cat) or two
    (join) does not have, so [combine_files] over all times returns no
    array, with and without metadata; from one file without metadata the
    variable is read. *)
Theorem time_only_variable_not_combined xe fill f rest varname mv method sq meta key c
    var n :
  variables f !! varname = Some var →
  shape (vdata var) = [n] →
  is_time_coord_var varname = false →
  (str_lower method = "cat" ∨ str_lower method = "join" →
   ∃ e, (run (combine_files xe fill (Seq (f :: rest)) varname None mv method sq meta
                key) c).1 = inl e) ∧
  run (_extract_var xe fill (Single f) varname None mv method false None false key) c
  = (inr (PlainArray (plain (vdata var))), c).
Proof.
  intros Hvar Hs Htv. split.
  - intros Hm. unfold run, combine_files. apply run_bind_error. intros out c1 H.
    exfalso. destruct Hm as [Hm|Hm].
    + rewrite decide_True in H by done. unfold _cat_files in H.
      apply bind_inv in H as (b & c2 & _ & H).
      apply bind_inv in H as (ft & c3 & _ & H).
      cbn [iter_files] in H. rewrite bind_lift_inr in H.
      cbn [next] in H. rewrite bind_lift_inr in H.
      apply bind_inv in H as (fv & c4 & Hfv & H).
      assert (Hfirst : values_of fv = inr (plain (vdata var))).
      { destruct (xe && meta).
        - apply fmap_inv in Hfv as (da & Hda & _).
          pose proof (build_needs_two_axes xe f varname b true key c3 var n Hvar Hs)
            as Hb.
          unfold run in Hb. by rewrite Hda in Hb.
        - apply lift_inv in Hfv as [Hfv _]. unfold getvar in Hfv. rewrite Hvar in Hfv.
          by injection Hfv as <-. }
      rewrite Hfirst in H. cbn [fmap result_fmap plain arr] in H.
      rewrite bind_lift_inr in H.
      apply bind_inv in H as (ntimes & c5 & _ & H).
      apply bind_inv in H as (numtimes & c6 & _ & H).
      apply bind_inv in H as (outdata & c7 & [Hset _]%lift_inv & _).
      unfold setitem_rows, np_empty, np_full in Hset. rewrite Hs in Hset.
      by cbn in Hset.
    + rewrite decide_False in H by (rewrite Hm; discriminate).
      rewrite decide_True in H by done. unfold _join_files in H.
      apply bind_inv in H as (b & c2 & _ & H).
      cbn [iter_files] in H. rewrite bind_lift_inr in H.
      apply bind_inv in H as (maxtimes & c3 & _ & H).
      cbn [next] in H. rewrite bind_lift_inr in H.
      apply bind_inv in H as (numtimes & c4 & _ & H).
      apply bind_inv in H as ([fv tc] & c5 & Hfv & H).
      assert (Hfirst : values_of fv = inr (plain (vdata var))).
      { destruct (xe && meta).
        - apply bind_inv in Hfv as (da & c6 & Hda & _).
          pose proof (build_needs_two_axes xe f varname b true key c4 var n Hvar Hs)
            as Hb.
          unfold run in Hb. by rewrite Hda in Hb.
        - apply bind_inv in Hfv as (v & c6 & [Hv _]%lift_inv & Hfv).
          unfold getvar in Hv. rewrite Hvar in Hv. injection Hv as <-.
          by injection Hfv as <- _ _. }
      apply bind_inv in H as (dt & c7 & _ & H).
      rewrite Hfirst in H. cbn [fmap result_fmap plain arr] in H.
      rewrite bind_lift_inr in H.
      apply bind_inv in H as (outdata & c6 & [Hset _]%lift_inv & _).
      unfold setitem_file_rows, np_full in Hset. rewrite Hs in Hset.
      by cbn in Hset.
  - unfold run. cbn [_extract_var mbind option_bind]. rewrite Htv, andb_false_r.
    unfold getvar. by rewrite Hvar.
Qed.

Lemma time_only_variable_not_combined_witness :
  is_error (run (combine_files true 999 (Seq [timestep_file 3 0; timestep_file 2 3])
                   "ITIMESTEP" None (Some false) "cat" false false None) ∅).1 = true ∧
  (run (_extract_var true 999 (Single (timestep_file 3 0)) "ITIMESTEP" None
          (Some false) "cat" false None false None) ∅).1
  = inr (PlainArray (plain (NdArray [3] [0; 1; 2]%Z))).
Proof.
  destruct (time_only_variable_not_combined true 999 (timestep_file 3 0)
              [timestep_file 2 3] "ITIMESTEP" (Some false) "cat" false false None ∅
              _ 3 eq_refl eq_refl eq_refl) as [H1 H2].
  split.
  - destruct (H1 ltac:(by left)) as [e ->]. done.
  - by rewrite H2.
Defined.

(** ** One file, one time *)

(** X24. One file, one time, without metadata: the result is the row of
    that index of the variable, negative indices counting from the end, kept
    with a time axis of length 1; an index beyond the times of the file is
    an [IndexError].  The cache is not touched. *)
Theorem single_file_time_index xe fill f varname t mv method key c var n s d :
  variables f !! varname = Some var →
  vdata var = NdArray (n :: s) d →
  s ≠ [] →
  is_time_coord_var varname = false →
  run (_extract_var xe fill (Single f) varname (Some t) mv method false None false key) c
  = (match norm_index n t with
     | Some k => inr (PlainArray (time_row s d k))
     | None => inl (IndexError "index out of bounds for axis 0")
     end, c).
Proof.
  intros Hvar Hdata Hs Htv. unfold run. cbn [_extract_var mbind option_bind].
  rewrite Htv, andb_false_r. unfold getvar. rewrite Hvar.
  cbn [from_option]. unfold lift at 1. cbn [mbind result_bind]. rewrite Hdata.
  unfold getitem_row, ndim, getitem. cbn [shape cells length].
  destruct s as [|a s]; [done|]. cbn [length]. rewrite decide_False by lia.
  destruct (norm_index n t) as [k|]; [|done].
  cbn [mbind result_bind]. unfold newaxis, ndim. cbn [shape length].
  by rewrite decide_False by lia.
Qed.

Lemma single_file_time_index_witness :
  (run (_extract_var true 999 (Single file3) "T" (Some (-1)%Z) None "cat" false None
          false None) ∅).1
  = inr (PlainArray (plain (NdArray [1; 2; 2] [8; 9; 10; 11]%Z))) ∧
  (run (_extract_var true 999 (Single file3) "T" (Some 3%Z) None "cat" false None
          false None) ∅).1
  = inl (IndexError "index out of bounds for axis 0").
Proof.
  split.
  - rewrite (single_file_time_index true 999 file3 "T" (-1) None "cat" None ∅
               _ 3 [2; 2] _ eq_refl eq_refl); done.
  - rewrite (single_file_time_index true 999 file3 "T" 3 None "cat" None ∅
               _ 3 [2; 2] _ eq_refl eq_refl); done.
Defined.

(** ** The default grids of the detector *)

(** X25. [is_moving_domain] resolves its default grid names ([XLAT] or
    [XLAT_M], [XLONG] or [XLONG_M]) before anything else: when the first
    file has neither latitude variable the detection raises [ValueError],
    also for a variable whose [coordinates] attribute names other grids and
    also when the flag is in the cache; cat and join fail the same way
    unless the flag is given. *)
Theorem detector_needs_default_grid xe fill first rest varname v timeidx method sq meta
    key c :
  variables first !! "XLAT" = None →
  variables first !! "XLAT_M" = None →
  let e := ValueError "are not valid variable names" in
  run (is_moving_domain (Seq (first :: rest)) varname default_latvar default_lonvar
         key) c = (inl e, c) ∧
  run (is_moving_domain (Single first) varname default_latvar default_lonvar key) c
  = (inl e, c) ∧
  (str_lower method = "cat" ∨ str_lower method = "join" →
   run (combine_files xe fill (Seq (first :: rest)) v timeidx None method sq meta key) c
   = (inl e, c)).
Proof.
  intros H1 H2 e.
  assert (Hlat : either_single ["XLAT"; "XLAT_M"] first = inl e).
  { unfold either_single. cbn [list_find]. rewrite H1, H2.
    rewrite !decide_False by (by intros [? ?]). done. }
  assert (Hseq : ∀ vn, is_moving_domain (Seq (first :: rest)) vn default_latvar
                         default_lonvar key c = (inl e, c)).
  { intros vn. cbn [is_moving_domain resolve_coord default_latvar either next
                    mbind result_bind]. by rewrite Hlat. }
  split; [apply Hseq|]. split.
  - unfold run. cbn [is_moving_domain resolve_coord default_latvar either].
    by rewrite Hlat.
  - intros [Hm|Hm]; unfold run, combine_files.
    + rewrite decide_True by done. unfold _cat_files.
      unfold mbind, M_bind. by rewrite Hseq.
    + rewrite decide_False by (rewrite Hm; discriminate).
      rewrite decide_True by done. unfold _join_files.
      unfold mbind, M_bind. by rewrite Hseq.
Qed.

Lemma detector_needs_default_grid_witness :
  (run (combine_files true 999 (Seq [clat_file; clat_file]) "HGT" None None "cat"
          false false None) ∅).1
  = inl (ValueError "are not valid variable names") ∧
  (run (combine_files true 999 (Seq [clat_file; clat_file]) "HGT" None (Some false)
          "cat" false false None) ∅).1
  = inr (PlainArray (plain (NdArray [2; 2; 2] [1; 2; 3; 4; 1; 2; 3; 4]%Z))).
Proof.
  split; [|vm_compute; reflexivity].
  destruct (detector_needs_default_grid true 999 clat_file [clat_file] None "HGT" None
              "cat" false false None ∅ eq_refl eq_refl) as (_ & _ & H).
  by rewrite H by (by left).
Defined.

(** ** The builder in a moving sequence *)

(** X26. For a file of a moving multi-file sequence the builder only reads
    the coordinate cache: whatever the token, [_build_data_array] with the
    moving flag and the multi-file flag set leaves the cache as it was (the
    aggregated coordinates are stored by cat and join). *)
Theorem builder_leaves_cache_when_moving xe wrfnc varname timeidx key c :
  (run (_build_data_array xe wrfnc varname timeidx true true key) c).2 = c.
Proof.
  unfold run. revert c.
  fold (keeps_cache (_build_data_array xe wrfnc varname timeidx true true key)).
  unfold _build_data_array, cached_grid. cbn [negb]. keeps.
Qed.

(** ** Variables that were extracted before *)


